(** * fastapi_ansible_demo: the remote execution core of [util/ansible_api.py]

    A shallow embedding of the Variable Safety Filter, the Result Collector,
    the Host Record, the Inventory Builder, the Execution Engine and the
    Facts Summarizer, followed by the properties established about them.

    Conventions.
    - Python [str] values are [string]s; a character is a code point in
      0..255 (Latin-1).  None of the code points above 255 that Python's
      case-insensitive matching identifies with an ASCII letter exists in this
      range, so ASCII case folding is exact here.
    - Python dictionaries coming from JSON payloads are association lists
      inside [value]; the variable mapping of a host is a [gmap].
    - Statements that may raise return an [outcome]; code that mutates the
      callback object or calls the automation library threads a [state]. *)

From Stdlib Require Import Ascii String ZArith Lia List Bool.
From stdpp Require Import gmap strings list.

Open Scope string_scope.
Open Scope nat_scope.
Open Scope list_scope.

(** ** Python string primitives *)

Definition code (c : ascii) : nat := nat_of_ascii c.

(** [str.lower] restricted to one Latin-1 character compared with an ASCII
    pattern character. *)
Definition lower (c : ascii) : ascii :=
  if (65 <=? code c) && (code c <=? 90) then ascii_of_nat (code c + 32) else c.

(** [str.isspace] on the code points 0..255. *)
Definition isspace (c : ascii) : bool :=
  ((9 <=? code c) && (code c <=? 13)) || ((28 <=? code c) && (code c <=? 32))
  || (code c =? 133) || (code c =? 160).

(** [s[n:]] *)
Fixpoint drop_str (n : nat) (s : string) : string :=
  match n, s with
  | S n', String _ t => drop_str n' t
  | _, _ => s
  end.

(** [s.startswith(p)], optionally ignoring case. *)
Fixpoint starts_with (ic : bool) (p s : string) : bool :=
  match p, s with
  | EmptyString, _ => true
  | String a p', String b s' =>
      (if ic then Ascii.eqb (lower a) (lower b) else Ascii.eqb a b)
      && starts_with ic p' s'
  | String _ _, EmptyString => false
  end.

(** [str.replace(old, new)]: left to right, occurrences do not overlap.
    [skip] counts the characters of a replaced occurrence still to be
    passed over. *)
Fixpoint replace_from (old new : string) (skip : nat) (s : string) : string :=
  match s with
  | EmptyString => EmptyString
  | String c t =>
      match skip with
      | S k => replace_from old new k t
      | O =>
          if starts_with false old s
          then new +:+ replace_from old new (String.length old - 1) t
          else String c (replace_from old new 0 t)
      end
  end.

Definition replace (old new s : string) : string := replace_from old new 0 s.

Fixpoint lstrip (s : string) : string :=
  match s with
  | String c t => if isspace c then lstrip t else s
  | EmptyString => EmptyString
  end.

Fixpoint rstrip (s : string) : string :=
  match s with
  | String c t =>
      match rstrip t with
      | EmptyString => if isspace c then EmptyString else String c EmptyString
      | t' => String c t'
      end
  | EmptyString => EmptyString
  end.

(** [str.strip()] *)
Definition strip (s : string) : string := rstrip (lstrip s).

(** [s[1:]] and [s[:-1]] *)
Definition tail_str (s : string) : string := drop_str 1 s.

Fixpoint init_str (s : string) : string :=
  match s with
  | String c EmptyString => EmptyString
  | String c t => String c (init_str t)
  | EmptyString => EmptyString
  end.

(** [s.endswith(c)] for a one character suffix. *)
Fixpoint ends_with_char (c : ascii) (s : string) : bool :=
  match s with
  | String a EmptyString => Ascii.eqb a c
  | String _ t => ends_with_char c t
  | EmptyString => false
  end.

(** [k in s] for strings: [k] occurs in [s]. *)
Fixpoint contains_str (k s : string) : bool :=
  starts_with false k s
  || match s with
     | String _ t => contains_str k t
     | EmptyString => false
     end.

(** [x in list_of_strings] *)
Definition str_in (x : string) (l : list string) : bool :=
  existsb (String.eqb x) l.

(** ** The fragment of Python's [re] used by the source

    A backtracking matcher in continuation-passing style: alternatives are
    tried in order, [?] and [*] are greedy, [*?] is lazy, and the first
    complete match wins. *)

Inductive regex : Type :=
| Bol                                  (* ^ *)
| Eol                                  (* $ *)
| Cls (p : ascii -> bool)              (* one character of a class *)
| Lit (s : string)                     (* literal text *)
| Nope                                 (* the empty alternation *)
| Or (a b : regex)                     (* a|b *)
| Cat (a b : regex)                    (* ab *)
| Opt (a : regex)                      (* a? *)
| StarLazy (p : ascii -> bool)         (* [class]*? *)
| StarGreedy (p : ascii -> bool)       (* [class]* *)
| Capture (a : regex).                 (* (?P<name>a) *)

Record mstate : Type := MState {
  pos : nat;                           (* characters consumed so far *)
  rest : string;                       (* text still to be matched *)
  cap : option (nat * nat)             (* span of the named group *)
}.

Fixpoint star_lazy {A} (p : ascii -> bool) (k : nat -> string -> option A)
    (n : nat) (s : string) : option A :=
  match k n s with
  | Some r => Some r
  | None =>
      match s with
      | String c t => if p c then star_lazy p k (S n) t else None
      | EmptyString => None
      end
  end.

Fixpoint star_greedy {A} (p : ascii -> bool) (k : nat -> string -> option A)
    (n : nat) (s : string) : option A :=
  match s with
  | String c t =>
      if p c
      then match star_greedy p k (S n) t with
           | Some r => Some r
           | None => k n s
           end
      else k n s
  | EmptyString => k n s
  end.

(** [$] without MULTILINE: the end of the text, or just before a final
    newline. *)
Definition at_eol (s : string) : bool :=
  match s with
  | EmptyString => true
  | String c EmptyString => Ascii.eqb c "010"%char
  | _ => false
  end.

Fixpoint rmatch {A} (ic : bool) (r : regex) (st : mstate)
    (k : mstate -> option A) : option A :=
  match r with
  | Bol => if pos st =? 0 then k st else None
  | Eol => if at_eol (rest st) then k st else None
  | Cls p =>
      match rest st with
      | String c t => if p c then k (MState (S (pos st)) t (cap st)) else None
      | EmptyString => None
      end
  | Lit s =>
      if starts_with ic s (rest st)
      then k (MState (pos st + String.length s)
                     (drop_str (String.length s) (rest st)) (cap st))
      else None
  | Nope => None
  | Or a b =>
      match rmatch ic a st k with
      | Some x => Some x
      | None => rmatch ic b st k
      end
  | Cat a b => rmatch ic a st (fun st' => rmatch ic b st' k)
  | Opt a =>
      match rmatch ic a st k with
      | Some x => Some x
      | None => k st
      end
  | StarLazy p =>
      star_lazy p (fun n s => k (MState n s (cap st))) (pos st) (rest st)
  | StarGreedy p =>
      star_greedy p (fun n s => k (MState n s (cap st))) (pos st) (rest st)
  | Capture a =>
      rmatch ic a st
        (fun st' => k (MState (pos st') (rest st') (Some (pos st, pos st'))))
  end.

(** [pattern.search(text)]: the match attempts start at offsets 0, 1, ...;
    the result is the span of the named group of the first match. *)
Fixpoint search_from (ic : bool) (r : regex) (n : nat) (s : string)
  : option (option (nat * nat)) :=
  match rmatch ic r (MState n s None) (fun st => Some (cap st)) with
  | Some m => Some m
  | None =>
      match s with
      | String _ t => search_from ic r (S n) t
      | EmptyString => None
      end
  end.

Definition re_search (ic : bool) (r : regex) (s : string)
  : option (option (nat * nat)) := search_from ic r 0 s.

(** [match.groupdict()[name]] for the named group. *)
Definition group_text (s : string) (m : option (nat * nat)) : option string :=
  match m with
  | Some (i, j) => Some (substring i (j - i) s)
  | None => None
  end.

(** ** Variable Safety Filter *)

Definition ANSIBLE_DENY_VARIBLE_LISTS : list string :=
  [ "vars"; "hostvars"; "ansible_ssh_pass"; "ansible_password";
    "ansible_ssh_private_key_file"; "ansible_private_key_file";
    "ansible_become_pass"; "ansible_become_password"; "ansible_enable_pass";
    "ansible_pass"; "ansible_sudo_pass"; "ansible_sudo_password";
    "ansible_su_pass"; "ansible_su_password"; "vault_password" ].

(** ['|'.join(names)] as a pattern. *)
Definition alternation (names : list string) : regex :=
  fold_right (fun n r => Or (Lit n) r) Nope names.

(** [[\S\s]] *)
Definition any_char (c : ascii) : bool := negb (isspace c) || isspace c.

(** [^[\S\s]*?(?P<ansible>[\S\s]?(%s)[\S\s]?)[\S\s]*$] *)
Definition deny_pattern : regex :=
  Cat Bol
   (Cat (StarLazy any_char)
    (Cat (Capture
            (Cat (Opt (Cls any_char))
             (Cat (alternation ANSIBLE_DENY_VARIBLE_LISTS)
                  (Opt (Cls any_char)))))
     (Cat (StarGreedy any_char) Eol))).

Definition check_ansible_variable (content : string) : bool * option string :=
  let content := replace "vars:" "+++" content in
  let content := replace "vars_files:" "+++" content in
  match re_search true deny_pattern content with
  | Some m =>
      match group_text content m with
      | Some g =>
          let info := strip g in
          let info :=
            if starts_with false "=" info || starts_with false "{" info
            then tail_str info else info in
          let info := if ends_with_char "}" info then init_str info else info in
          if str_in info ANSIBLE_DENY_VARIBLE_LISTS
          then (true, Some info)
          else (false, None)
      | None => (false, None)
      end
  | None => (false, None)
  end.

(** ** Python values, exceptions and outcomes *)

Set Warnings "-register-all".

(** JSON-like Python values. A [VDict] lists the items of a dictionary in
    insertion order. *)
Inductive value : Type :=
| VNone
| VBool (b : bool)
| VInt (z : Z)
| VStr (s : string)
| VList (l : list value)
| VDict (d : list (string * value)).

Definition dict : Type := list (string * value).

(** An exception: its class and its message.  Every class raised in this
    development derives from [Exception], except the three named in
    [is_Exception]. *)
Record exn : Type := Exn { exn_class : string; exn_msg : string }.

Definition KeyError (k : string) : exn := Exn "KeyError" k.
Definition AttributeError (m : string) : exn := Exn "AttributeError" m.
Definition NameError (m : string) : exn := Exn "NameError" m.
Definition TypeError (m : string) : exn := Exn "TypeError" m.
Definition ValueError (m : string) : exn := Exn "ValueError" m.
Definition IndexError (m : string) : exn := Exn "IndexError" m.
Definition AnsibleError (m : string) : exn := Exn "AnsibleError" m.

(** [except Exception] catches [e]. *)
Definition is_Exception (e : exn) : bool :=
  negb (str_in (exn_class e) ["KeyboardInterrupt"; "SystemExit"; "GeneratorExit"]).

Inductive outcome (A : Type) : Type :=
| Ret (a : A)
| Raise (e : exn).
Arguments Ret {A} a.
Arguments Raise {A} e.

Definition obind {A B} (m : outcome A) (f : A -> outcome B) : outcome B :=
  match m with
  | Ret a => f a
  | Raise e => Raise e
  end.

Notation "'let?' x ':=' m 'in' k" := (obind m (fun x => k))
  (at level 10, x name, m at level 100, k at level 200).

(** [bool(v)] *)
Definition truthy (v : value) : bool :=
  match v with
  | VNone => false
  | VBool b => b
  | VInt z => negb (z =? 0)%Z
  | VStr s => negb (String.eqb s EmptyString)
  | VList l => match l with [] => false | _ => true end
  | VDict d => match d with [] => false | _ => true end
  end.

(** [d.get(k)] on the items of a dictionary. *)
Fixpoint dict_get (d : dict) (k : string) : option value :=
  match d with
  | [] => None
  | (k', v) :: d' => if String.eqb k' k then Some v else dict_get d' k
  end.

(** [v[k]] for a string key. *)
Definition getitem (v : value) (k : string) : outcome value :=
  match v with
  | VDict d =>
      match dict_get d k with
      | Some x => Ret x
      | None => Raise (KeyError k)
      end
  | _ => Raise (TypeError "indices must be integers")
  end.

(** [v.get(k)] *)
Definition get_method (v : value) (k : string) : outcome value :=
  match v with
  | VDict d => Ret (default VNone (dict_get d k))
  | _ => Raise (AttributeError "object has no attribute 'get'")
  end.

(** [k in v] for a dictionary [v]. *)
Definition contains_key (v : value) (k : string) : outcome bool :=
  match v with
  | VDict d => Ret (bool_decide (is_Some (dict_get d k)))
  | VList l => Ret (existsb (fun x => match x with VStr s => String.eqb s k | _ => false end) l)
  | VStr s => Ret (contains_str k s)
  | _ => Raise (TypeError "argument is not iterable")
  end.

(** ** Result Collector: [CallbackModule] *)

(** What the task runtime hands to a callback: [result._host.name],
    [result.task_name] and [result._result]. *)
Record TaskResult : Type := {
  tr_host : string;
  tr_task_name : string;
  tr_result : value
}.

(** The text of a message handed to [print] or logged in [res]: the engine formats it as
    coloured HTML or terminal text; only its kind and its variable part are
    kept. *)
Inductive notice : Type :=
| IllegalPlaybookVariable (variable : option string)
| IllegalArgumentVariable (variable : option string)
| ErrorText (msg : string)
| Finished.

(** The attributes of the callback object.  [start_time] and [res] are read
    by the engine but never set by [CallbackModule.__init__]: [None] means
    that the attribute does not exist. *)
Record CallbackModule : Type := {
  host_ok : list value;
  host_unreachable : list value;
  host_failed : list value;
  error : string;
  start_time : option Z;
  res : option (list (Z * notice))     (* [json.dumps([delay, 'o', text])] *)
}.

Definition CallbackModule_init : CallbackModule :=
  {| host_ok := []; host_unreachable := []; host_failed := [];
     error := EmptyString; start_time := None; res := None |}.

Definition outcome_record (r : TaskResult) (success : bool) (msg : string) : value :=
  VDict [ ("host", VStr (tr_host r)); ("task_name", VStr (tr_task_name r));
          ("result", tr_result r); ("success", VBool success);
          ("msg", VStr msg) ].

Definition v2_runner_on_unreachable (self : CallbackModule) (r : TaskResult) : CallbackModule :=
  {| host_ok := host_ok self;
     host_unreachable := host_unreachable self ++ [outcome_record r false "unreachable"];
     host_failed := host_failed self; error := error self;
     start_time := start_time self; res := res self |}.

Definition v2_runner_on_ok (self : CallbackModule) (r : TaskResult) : CallbackModule :=
  {| host_ok := host_ok self ++ [outcome_record r true "ok"];
     host_unreachable := host_unreachable self;
     host_failed := host_failed self; error := error self;
     start_time := start_time self; res := res self |}.

Definition v2_runner_on_failed (self : CallbackModule) (r : TaskResult) : CallbackModule :=
  {| host_ok := host_ok self; host_unreachable := host_unreachable self;
     host_failed := host_failed self ++ [outcome_record r false "failed"];
     error := error self; start_time := start_time self; res := res self |}.

Definition v2_playbook_on_no_hosts_matched (self : CallbackModule) : CallbackModule :=
  {| host_ok := host_ok self; host_unreachable := host_unreachable self;
     host_failed := host_failed self; error := "skipping: No match hosts.";
     start_time := start_time self; res := res self |}.

Definition get_res (self : CallbackModule)
  : list value * list value * list value * string :=
  (host_ok self, host_failed self, host_unreachable self, error self).

(** ** Host Record: [BaseHost] *)

Definition ANSIBLE_CONNECTION_TYPE : string := "paramiko".

(** A host descriptor.  A field is [None] when the dictionary has no such
    key. *)
Record HostData : Type := {
  hostname : option string;
  ip : option string;
  port : option Z;
  username : option value;
  password : option value;
  private_key : option value;
  become : option dict;
  groups : option (list string);
  vars : option dict
}.

(** [ansible.inventory.host.Host]: the attributes this program relies on.
    [h_uuid] is the identity of the object ([Host.__eq__] compares it). *)
Record Host : Type := {
  h_name : option string;
  h_address : option string;
  h_uuid : nat;
  h_vars : gmap string value
}.

(** [Host.set_variable] with the library's default hash behaviour: the key
    is bound to the new value. *)
Definition set_variable (self : Host) (key : string) (v : value) : Host :=
  {| h_name := h_name self; h_address := h_address self; h_uuid := h_uuid self;
     h_vars := <[key := v]> (h_vars self) |}.

(** [Host.__init__(name, port)] *)
Definition Host_init (name : option string) (p : Z) (uuid : nat) : Host :=
  let self := {| h_name := name; h_address := name; h_uuid := uuid; h_vars := ∅ |} in
  if negb (p =? 0)%Z then set_variable self "ansible_port" (VInt p) else self.

(** [host_data[k]] *)
Definition require {A} (k : string) (field : option A) : outcome A :=
  match field with
  | Some x => Ret x
  | None => Raise (KeyError k)
  end.

Definition opt_truthy (v : option value) : bool :=
  match v with
  | Some x => truthy x
  | None => false
  end.

Definition is_str (v : value) (s : string) : bool :=
  match v with
  | VStr x => String.eqb x s
  | _ => false
  end.

Definition set_required_variables (host_data : HostData) (self : Host) : outcome Host :=
  let self := set_variable self "ansible_connection" (VStr ANSIBLE_CONNECTION_TYPE) in
  let self :=
    if String.eqb ANSIBLE_CONNECTION_TYPE "ssh"
    then set_variable self "ansible_ssh_args"
           (VStr "-C -o ControlMaster=auto -o ControlPersist=60s")
    else self in
  let self := set_variable self "ansible_ssh_host_key_checking" (VBool false) in
  let? a := require "ip" (ip host_data) in
  let self := set_variable self "ansible_host" (VStr a) in
  let? p := require "port" (port host_data) in
  let self := set_variable self "ansible_port" (VInt p) in
  let? self :=
    if opt_truthy (username host_data)
    then let? u := require "username" (username host_data) in
         Ret (set_variable self "ansible_user" u)
    else Ret self in
  let? self :=
    if opt_truthy (password host_data)
    then let? pw := require "password" (password host_data) in
         Ret (set_variable self "ansible_ssh_pass" pw)
    else Ret self in
  let? self :=
    if opt_truthy (private_key host_data)
    then let? key := require "private_key" (private_key host_data) in
         Ret (set_variable self "ansible_ssh_private_key_file" key)
    else Ret self in
  let self :=
    if String.eqb ANSIBLE_CONNECTION_TYPE "ssh"
    then set_variable self "ansible_ssh_pipelining" (VBool true)
    else self in
  match become host_data with
  | Some ((_ :: _) as b) =>
      let self := set_variable self "ansible_become" (VBool true) in
      let method := default (VStr "sudo") (dict_get b "method") in
      let self := set_variable self "ansible_become_method" method in
      let self :=
        if is_str method "sudo" && String.eqb ANSIBLE_CONNECTION_TYPE "ssh"
        then set_variable self "ansible_ssh_pipelining" (VBool false)
        else self in
      let self := set_variable self "ansible_become_user"
                    (default (VStr "root") (dict_get b "user")) in
      Ret (set_variable self "ansible_become_pass"
             (default (VStr EmptyString) (dict_get b "pass")))
  | _ => Ret (set_variable self "ansible_become" (VBool false))
  end.

(** [for k, v in host_data.get('vars', {}).items(): self.set_variable(k, v)] *)
Definition set_extra_variables (host_data : HostData) (self : Host) : Host :=
  fold_left (fun h kv => set_variable h (fst kv) (snd kv))
            (default [] (vars host_data)) self.

(** [a or b] on optional strings ([None] and the empty string are false). *)
Definition str_or (a b : option string) : option string :=
  match a with
  | Some s => if String.eqb s EmptyString then b else a
  | None => b
  end.

(** [BaseHost.__init__]; [uuid] is the fresh identity of the new object. *)
Definition BaseHost (host_data : HostData) (uuid : nat) : outcome Host :=
  let name := str_or (hostname host_data) (ip host_data) in
  let p := match port host_data with
           | Some p => if (p =? 0)%Z then 22%Z else p
           | None => 22%Z
           end in
  let self := Host_init name p uuid in
  let? self := set_required_variables host_data self in
  Ret (set_extra_variables host_data self).

(** ** Inventory Builder: [BaseInventory] *)

(** [ansible.inventory.group.Group]: its name and its own hosts. *)
Record Group : Type := {
  group_name : string;
  group_hosts : list Host
}.

Definition name_eqb (a b : option string) : bool :=
  match a, b with
  | Some x, Some y => String.eqb x y
  | None, None => true
  | _, _ => false
  end.

(** [Group.add_host]: a host whose name the group already has is not added. *)
Definition add_host (g : Group) (h : Host) : Group :=
  if existsb (fun h' => name_eqb (h_name h') (h_name h)) (group_hosts g)
  then g
  else {| group_name := group_name g; group_hosts := group_hosts g ++ [h] |}.

(** [InventoryData]: the hosts dictionary and the groups dictionary. *)
Record Inventory : Type := {
  inv_hosts : gmap string Host;
  inv_groups : gmap string Group
}.

(** [InventoryData.__init__]: the groups [all] and [ungrouped] always exist,
    and [ungrouped] is a child of [all]. *)
Definition Inventory_init : Inventory :=
  {| inv_hosts := ∅;
     inv_groups := <["ungrouped" := {| group_name := "ungrouped"; group_hosts := [] |}]>
                   (<["all" := {| group_name := "all"; group_hosts := [] |}]> ∅) |}.

Definition get_group (inv : Inventory) (name : string) : option Group :=
  inv_groups inv !! name.

(** [InventoryManager.add_group]: an empty name is refused, an existing group
    is kept. *)
Definition add_group (inv : Inventory) (name : string) : outcome Inventory :=
  if String.eqb name EmptyString
  then Raise (AnsibleError "Invalid empty/false group name provided")
  else match inv_groups inv !! name with
       | Some _ => Ret inv
       | None =>
           Ret {| inv_hosts := inv_hosts inv;
                  inv_groups := <[name := {| group_name := name; group_hosts := [] |}]>
                                  (inv_groups inv) |}
       end.

(** [group.add_host(host)] on the group object registered under [name]. *)
Definition group_add_host (inv : Inventory) (name : string) (h : Host) : Inventory :=
  {| inv_hosts := inv_hosts inv;
     inv_groups := alter (fun g => add_host g h) name (inv_groups inv) |}.

Fixpoint add_to_groups (inv : Inventory) (groups_data : list string) (h : Host)
  : outcome Inventory :=
  match groups_data with
  | [] => Ret inv
  | group_name :: tl =>
      let? inv :=
        match get_group inv group_name with
        | None => add_group inv group_name
        | Some _ => Ret inv
        end in
      match get_group inv group_name with
      | None => Raise (AttributeError "'NoneType' object has no attribute 'add_host'")
      | Some _ => add_to_groups (group_add_host inv group_name h) tl h
      end
  end.

(** The loop of [parse_sources]; [uuid] numbers the host objects created. *)
Fixpoint parse_loop (uuid : nat) (host_list : list HostData) (inv : Inventory)
  : outcome Inventory :=
  match host_list with
  | [] => Ret inv
  | host_data :: tl =>
      let? host := BaseHost host_data uuid in
      let? key := require "hostname" (hostname host_data) in
      let inv := {| inv_hosts := <[key := host]> (inv_hosts inv);
                    inv_groups := inv_groups inv |} in
      let? inv :=
        match groups host_data with
        | Some ((_ :: _) as groups_data) => add_to_groups inv groups_data host
        | _ => Ret (group_add_host inv "ungrouped" host)
        end in
      parse_loop (S uuid) tl (group_add_host inv "all" host)
  end.

Definition parse_sources (host_list : list HostData) (inv : Inventory)
  : outcome Inventory := parse_loop 0 host_list inv.

(** [BaseInventory(host_list)]: the library constructor creates the empty
    inventory data and calls [parse_sources]. *)
Definition BaseInventory (host_list : list HostData) : outcome Inventory :=
  parse_sources host_list Inventory_init.

(** [Group.get_hosts] of the group [all]: its own hosts, then those of its
    child [ungrouped], each object once. *)
Fixpoint dedup_hosts (seen : list nat) (l : list Host) : list Host :=
  match l with
  | [] => []
  | h :: tl =>
      if existsb (Nat.eqb (h_uuid h)) seen
      then dedup_hosts seen tl
      else h :: dedup_hosts (h_uuid h :: seen) tl
  end.

Definition hosts_of (inv : Inventory) (name : string) : list Host :=
  match get_group inv name with
  | Some g => group_hosts g
  | None => []
  end.

(** [get_matched_hosts('all')]: a pattern that is a key of the hosts
    dictionary denotes that host; otherwise [all] is the group. *)
Definition get_matched_hosts_all (inv : Inventory) : list Host :=
  match inv_hosts inv !! "all" with
  | Some h => [h]
  | None => dedup_hosts [] (hosts_of inv "all" ++ hosts_of inv "ungrouped")
  end.

(** ** Execution Engine: [AnsibleAPI] *)

(** What the engine does to the outside world, in order. *)
Inductive effect : Type :=
| EPrint (type_ : string) (text : notice)
| EPrintTraceback (e : exn)
| ETqmRun (play : value)             (* tqm.run(play) *)
| ETqmCleanup                        (* tqm.cleanup() *)
| ERmtree                            (* shutil.rmtree(C.DEFAULT_LOCAL_TMP, True) *)
| EPlaybookRun (playbook_yml : string)
| EPlaybookCleanup.                  (* playbook._tqm.cleanup() *)

(** The callbacks the task runtime invokes while it runs. *)
Inductive cb_event : Type :=
| RunnerOk (r : TaskResult)
| RunnerFailed (r : TaskResult)
| RunnerUnreachable (r : TaskResult)
| NoHostsMatched.

Definition deliver (cb : CallbackModule) (ev : cb_event) : CallbackModule :=
  match ev with
  | RunnerOk r => v2_runner_on_ok cb r
  | RunnerFailed r => v2_runner_on_failed cb r
  | RunnerUnreachable r => v2_runner_on_unreachable cb r
  | NoHostsMatched => v2_playbook_on_no_hosts_matched cb
  end.

(** A [PlaybookExecutor] object: whether its [_tqm] attribute is a runtime
    or [None]. *)
Record Executor : Type := { ex_has_tqm : bool }.

(** The automation library and the operating system, as seen by the engine:
    every call either returns or raises. *)
Record World : Type := {
  Play_load : value -> option exn;
  TaskQueueManager_new : option exn;
  TaskQueueManager_run : value -> list cb_event * option exn;
  TaskQueueManager_cleanup : option exn;
  open_read : string -> outcome string;
  PlaybookExecutor_new : string -> outcome Executor;
  PlaybookExecutor_run : string -> list cb_event * option exn;
  clock : Z
}.

(** The state a call of the engine works on: the callback object, the effects
    performed so far, and the local variables [tqm] and [playbook] of the
    running method. *)
Record State : Type := {
  results_callback : CallbackModule;
  trace : list effect;
  var_tqm : bool;                     (* [tqm is not None] *)
  var_playbook : option Executor
}.

Definition M (A : Type) : Type := State -> outcome A * State.

Definition mret {A} (a : A) : M A := fun s => (Ret a, s).
Definition mraise {A} (e : exn) : M A := fun s => (Raise e, s).
Definition mbind {A B} (m : M A) (f : A -> M B) : M B :=
  fun s =>
    match m s with
    | (Ret a, s') => f a s'
    | (Raise e, s') => (Raise e, s')
    end.

Notation "'let!' x ':=' m 'in' k" := (mbind m (fun x => k))
  (at level 10, x name, m at level 100, k at level 200).
Notation "m ;; k" := (mbind m (fun _ => k))
  (at level 100, k at level 200, right associativity).

(** [try: body except Exception as err: handler(err)] *)
Definition try_except {A} (body : M A) (handler : exn -> M A) : M A :=
  fun s =>
    match body s with
    | (Ret a, s') => (Ret a, s')
    | (Raise e, s') => if is_Exception e then handler e s' else (Raise e, s')
    end.

(** [try: body finally: final]: [final] always runs; what it raises replaces
    the outcome of [body]. *)
Definition try_finally {A} (body : M A) (final : M unit) : M A :=
  fun s =>
    match body s with
    | (r, s') =>
        match final s' with
        | (Ret _, s'') => (r, s'')
        | (Raise e, s'') => (Raise e, s'')
        end
    end.

Definition emit (e : effect) : M unit :=
  fun s => (Ret tt, {| results_callback := results_callback s;
                       trace := trace s ++ [e];
                       var_tqm := var_tqm s; var_playbook := var_playbook s |}).

Definition set_tqm (b : bool) : M unit :=
  fun s => (Ret tt, {| results_callback := results_callback s; trace := trace s;
                       var_tqm := b; var_playbook := var_playbook s |}).

Definition set_playbook (p : option Executor) : M unit :=
  fun s => (Ret tt, {| results_callback := results_callback s; trace := trace s;
                       var_tqm := var_tqm s; var_playbook := p |}).

Definition set_callback (cb : CallbackModule) : M unit :=
  fun s => (Ret tt, {| results_callback := cb; trace := trace s;
                       var_tqm := var_tqm s; var_playbook := var_playbook s |}).

Definition get_state : M State := fun s => (Ret s, s).

(** A library call that returns nothing. *)
Definition call (r : option exn) : M unit :=
  match r with
  | Some e => mraise e
  | None => mret tt
  end.

Definition lift {A} (r : outcome A) : M A :=
  match r with
  | Ret a => mret a
  | Raise e => mraise e
  end.

(** The runtime reports to the callback object, then returns or raises. *)
Definition report (r : list cb_event * option exn) : M unit :=
  let! s := get_state in
  set_callback (fold_left deliver (fst r) (results_callback s)) ;;
  call (snd r).

Definition play_source (module_name : string) (module_args : value) (hosts : string) : value :=
  VDict [ ("name", VStr "Ansible Run Module");
          ("hosts", VStr hosts);
          ("gather_facts", VStr "no");
          ("tasks", VList [ VDict [ ("action",
                VDict [ ("module", VStr module_name); ("args", module_args) ]) ] ]) ].

Definition run_module (w : World) (module_name : string) (module_args : value)
    (hosts : string) : M unit :=
  let play := play_source module_name module_args hosts in
  call (Play_load w play) ;;
  set_tqm false ;;
  try_finally
    (try_except
       (call (TaskQueueManager_new w) ;;
        set_tqm true ;;
        emit (ETqmRun play) ;;
        report (TaskQueueManager_run w play))
       (fun e => emit (EPrintTraceback e)))
    (let! s := get_state in
     (if var_tqm s
      then emit ETqmCleanup ;; call (TaskQueueManager_cleanup w)
      else mret tt) ;;
     emit ERmtree).

(** [delay = round(time.time() - self.results_callback.start_time, 6)] *)
Definition delay (w : World) : M Z :=
  let! s := get_state in
  match start_time (results_callback s) with
  | Some t => mret (clock w - t)%Z
  | None => mraise (AttributeError "object has no attribute 'start_time'")
  end.

(** [self.results_callback.res.append(json.dumps([delay, 'o', data2]))] *)
Definition res_append (d : Z) (n : notice) : M unit :=
  let! s := get_state in
  let cb := results_callback s in
  match res cb with
  | Some l =>
      set_callback
        {| host_ok := host_ok cb; host_unreachable := host_unreachable cb;
           host_failed := host_failed cb; error := error cb;
           start_time := start_time cb;
           res := Some (l ++ [(d, n)])%list |}
  | None => mraise (AttributeError "object has no attribute 'res'")
  end.

(** The body of the [except Exception as err] clauses. *)
Definition report_error (w : World) (err : exn) : M unit :=
  let! d := delay w in
  res_append d (ErrorText (exn_msg err)) ;;
  emit (EPrint "send.message" (ErrorText (exn_msg err))).

(** [if group: print({"type": "close.channel", ...})] *)
Definition close_channel (group : option string) : M unit :=
  match group with
  | Some g => if String.eqb g EmptyString then mret tt
              else emit (EPrint "close.channel" Finished)
  | None => mret tt
  end.

Definition run_playbook (w : World) (playbook_yml : string) (group : option string)
  : M unit :=
  set_playbook None ;;
  try_finally
    (try_except
       (let! playbook_content := lift (open_read w playbook_yml) in
        let '(check, variable) := check_ansible_variable playbook_content in
        if check
        then
          let! d := delay w in
          res_append d (IllegalPlaybookVariable variable) ;;
          (* print({...}.__dict__.items()): a dict has no __dict__ *)
          mraise (AttributeError "'dict' object has no attribute '__dict__'")
        else
          let! playbook := lift (PlaybookExecutor_new w playbook_yml) in
          set_playbook (Some playbook) ;;
          (* playbook._tqm._stdout_callback = self.results_callback *)
          (if ex_has_tqm playbook then mret tt
           else mraise (AttributeError
                  "'NoneType' object has no attribute '_stdout_callback'")) ;;
          emit (EPlaybookRun playbook_yml) ;;
          report (PlaybookExecutor_run w playbook_yml))
       (report_error w))
    (close_channel group ;;
     let! s := get_state in
     match var_playbook s with
     | None => mraise (AttributeError "'NoneType' object has no attribute '_tqm'")
     | Some playbook =>
         if ex_has_tqm playbook
         then emit EPlaybookCleanup ;; call (TaskQueueManager_cleanup w)
         else mret tt
     end).

(** The [try]/[except] part shared, word for word, by [run_modules],
    [run_cmd], [run_script] and [run_copy]; they differ in the module name
    and in their [finally] clause. *)
Definition checked_module (w : World) (module_name : string) (cmds : string)
    (hosts : string) : M unit :=
  try_except
    (let '(check, variable) := check_ansible_variable cmds in
     if check
     then
       let! d := delay w in
       res_append d (IllegalArgumentVariable variable) ;;
       emit (EPrint "send.message" (IllegalArgumentVariable variable))
     else run_module w module_name (VStr cmds) hosts)
    (report_error w).

Definition run_modules (w : World) (cmds : string) (module : string) (hosts : string)
    (group : option string) : M unit :=
  try_finally
    (checked_module w module cmds hosts)
    (close_channel group ;;
     match group with
     | Some g =>
         if String.eqb g EmptyString then mret tt
         else
           let! s := get_state in
           match res (results_callback s) with
           | None => mraise (AttributeError "object has no attribute 'res'")
           | Some [] => mret tt
           | Some _ => mraise (NameError "name 'save_res' is not defined")
           end
     | None => mret tt
     end).

Definition run_cmd (w : World) (cmds : string) (hosts : string)
    (group : option string) : M unit :=
  try_finally (checked_module w "shell" cmds hosts) (close_channel group).

Definition run_script (w : World) (cmds : string) (hosts : string)
    (group : option string) : M unit :=
  try_finally (checked_module w "script" cmds hosts) (close_channel group).

(** [run_copy] also removes [self.results_callback.src], an attribute the
    callback object does not have; the failure is caught and printed. *)
Definition run_copy (w : World) (cmds : string) (hosts : string)
    (group : option string) : M unit :=
  try_finally
    (checked_module w "copy" cmds hosts)
    (close_channel group ;;
     emit (EPrintTraceback (AttributeError "object has no attribute 'src'"))).

(** ** Reading the results *)

(** [int(v)]: decimal digits, an optional sign, single underscores between
    digits, surrounding white space. *)
Definition isdigit (c : ascii) : bool := (48 <=? code c) && (code c <=? 57).

Fixpoint digits_value (acc : Z) (after_digit : bool) (s : string) : option Z :=
  match s with
  | EmptyString => if after_digit then Some acc else None
  | String c t =>
      if isdigit c
      then digits_value (10 * acc + Z.of_nat (code c - 48))%Z true t
      else if Ascii.eqb c "_"%char && after_digit
           then match t with
                | String c' _ => if isdigit c' then digits_value acc false t else None
                | EmptyString => None
                end
           else None
  end.

Definition int_of_str (s : string) : option Z :=
  match strip s with
  | String "-"%char t => option_map Z.opp (digits_value 0 false t)
  | String "+"%char t => digits_value 0 false t
  | t => digits_value 0 false t
  end.

Definition py_int (v : value) : outcome Z :=
  match v with
  | VInt z => Ret z
  | VBool b => Ret (if b then 1 else 0)%Z
  | VStr s =>
      match int_of_str s with
      | Some z => Ret z
      | None => Raise (ValueError "invalid literal for int() with base 10")
      end
  | _ => Raise (TypeError "int() argument must be a string or a number")
  end.

(** [round(z / 1024)]: the quotient is exact in floating point for
    [|z| < 2^53], and [round] takes a tie to the even neighbour. *)
Definition round_div_1024 (z : Z) : Z :=
  let q := (z / 1024)%Z in
  let r := (z mod 1024)%Z in
  if (2 * r <? 1024)%Z then q
  else if (1024 <? 2 * r)%Z then (q + 1)%Z
  else if Z.even q then q else (q + 1)%Z.

(** [for x in v] *)
Fixpoint chars (s : string) : list string :=
  match s with
  | EmptyString => []
  | String c t => String c EmptyString :: chars t
  end.

Definition iterate (v : value) : outcome (list value) :=
  match v with
  | VList l => Ret l
  | VStr s => Ret (map VStr (chars s))
  | VDict d => Ret (map (fun kv => VStr (fst kv)) d)
  | _ => Raise (TypeError "object is not iterable")
  end.

(** [v[-1]] *)
Definition last_item (v : value) : outcome value :=
  match v with
  | VList l =>
      match last l with
      | Some x => Ret x
      | None => Raise (IndexError "list index out of range")
      end
  | VStr s =>
      match last (chars s) with
      | Some x => Ret (VStr x)
      | None => Raise (IndexError "string index out of range")
      end
  | VDict _ => Raise (KeyError "-1")
  | _ => Raise (TypeError "object is not subscriptable")
  end.

(** [re.match(pattern, text)]: a match that starts at the first character. *)
Definition re_match (ic : bool) (r : regex) (s : string) : bool :=
  match rmatch ic r (MState 0 s None) (fun st => Some (cap st)) with
  | Some _ => true
  | None => false
  end.

(** [^(eth|bond|bind|eno|ens|em|ib)\d+?] *)
Definition interface_pattern : regex :=
  Cat Bol
   (Cat (alternation ["eth"; "bond"; "bind"; "eno"; "ens"; "em"; "ib"])
        (Cat (Cls isdigit) (StarLazy isdigit))).

Fixpoint mapM {A B} (f : A -> outcome B) (l : list A) : outcome (list B) :=
  match l with
  | [] => Ret []
  | x :: tl =>
      let? y := f x in
      let? ys := mapM f tl in
      Ret (y :: ys)
  end.

Section Readers.

(** [json.dumps] and [str] of the Python runtime, and the disk capacity
    loop of [get_server_info], which computes in floating point: given
    [ansible_devices] it yields [disk_total] or raises. *)
Variable json_dumps : value -> string.
Variable py_str : value -> string.
Variable disk_total : value -> outcome value.

(** An entry of [info['filesystems']]. *)
Definition filesystem_info (filesystem : value) : outcome value :=
  let? mount := getitem filesystem "mount" in
  let? size_total := getitem filesystem "size_total" in
  let? size_available := getitem filesystem "size_available" in
  let? fstype := getitem filesystem "fstype" in
  Ret (VDict [ ("mount", mount); ("size_total", size_total);
               ("size_available", size_available); ("fstype", fstype) ]).

(** [facts[name].get(k) if k in facts[name] else 'unknown'] *)
Definition get_or_unknown (facts : value) (name k : string) : outcome value :=
  let? card := getitem facts name in
  let? present := contains_key card k in
  if present
  then let? card := getitem facts name in get_method card k
  else Ret (VStr "unknown").

(** [facts[name].get(k)] *)
Definition card_get (facts : value) (name k : string) : outcome value :=
  let? card := getitem facts name in get_method card k.

(** The body of the loop over [ansible_interfaces]: the entry added to
    [info['interfaces']], if any. *)
Definition interface_info (facts : value) (interface : value)
  : outcome (option value) :=
  match interface with
  | VStr i =>
      if re_match false interface_pattern i || String.eqb i "lo"
      then
        let name := "ansible_" +:+ i in
        let? device := card_get facts name "device" in
        let? macaddress := card_get facts name "macaddress" in
        let? ipv4 := get_or_unknown facts name "ipv4" in
        let? ipv4_secondaries := get_or_unknown facts name "ipv4_secondaries" in
        let? ipv6 := get_or_unknown facts name "ipv6" in
        let? type_ := card_get facts name "type" in
        let? mtu := card_get facts name "mtu" in
        let? active := card_get facts name "active" in
        let? speed := card_get facts name "speed" in
        Ret (Some (VDict
          [ ("network_card_name", device); ("network_card_mac", macaddress);
            ("network_card_ipv4", ipv4);
            ("network_card_ipv4_secondaries", ipv4_secondaries);
            ("network_card_ipv6", ipv6); ("network_card_model", type_);
            ("network_card_mtu", mtu); ("network_card_status", active);
            ("network_card_speed", speed) ]))
      else Ret None
  | _ => Raise (TypeError "expected string or bytes-like object")
  end.

(** The body of [for i in ok] in [get_server_info]: the [info] dictionary
    of one record of the ok bucket. *)
Definition server_info (i : value) : outcome value :=
  let? host := getitem i "host" in
  let? result := getitem i "result" in
  let? facts := getitem result "ansible_facts" in
  let? hostname := getitem facts "ansible_hostname" in
  let? processor := getitem facts "ansible_processor" in
  let? cpu_model := last_item processor in
  let? processor_count := getitem facts "ansible_processor_count" in
  let? cpu_number := py_int processor_count in
  let? processor_vcpus := getitem facts "ansible_processor_vcpus" in
  let? vcpu_number := py_int processor_vcpus in
  let? kernel := getitem facts "ansible_kernel" in
  let? distribution := getitem facts "ansible_distribution" in
  let? distribution_version := getitem facts "ansible_distribution_version" in
  let? architecture := getitem facts "ansible_userspace_architecture" in
  let system := py_str distribution +:+ " " +:+ py_str distribution_version
                +:+ " " +:+ py_str architecture in
  let? server_model := getitem facts "ansible_product_name" in
  let? memtotal := getitem facts "ansible_memtotal_mb" in
  let? ram_total := py_int memtotal in
  let? swaptotal := getitem facts "ansible_swaptotal_mb" in
  let? swap_total := py_int swaptotal in
  let? devices := getitem facts "ansible_devices" in
  let? disks := disk_total devices in
  let? mounts := getitem facts "ansible_mounts" in
  let? mounts := iterate mounts in
  let? filesystems := mapM filesystem_info mounts in
  let? interfaces := getitem facts "ansible_interfaces" in
  let? interfaces := iterate interfaces in
  let? cards := mapM (interface_info facts) interfaces in
  Ret (VDict
    [ ("host", host); ("hostname", hostname); ("cpu_model", cpu_model);
      ("cpu_number", VInt cpu_number); ("vcpu_number", VInt vcpu_number);
      ("kernel", kernel); ("system", VStr system);
      ("server_model", server_model);
      ("ram_total", VInt (round_div_1024 ram_total));
      ("swap_total", VInt (round_div_1024 swap_total));
      ("disk_total", disks); ("filesystems", VList filesystems);
      ("interfaces", VList (omap id cards)) ]).

Definition get_server_info (w : World) (hosts : string)
  : M (list value * list value * list value * string) :=
  run_module w "setup" (VStr EmptyString) hosts ;;
  let! s := get_state in
  let '(ok, failed, unreach, err) := get_res (results_callback s) in
  let! infos := lift (mapM server_info ok) in
  mret (infos, failed, unreach, err).

(** [[json.dumps(i) for i in l][0]] *)
Definition first_dumped (l : list value) : option string :=
  head (map json_dumps l).

(** [get_result]: [None] is Python's [None], returned when no [if]
    applies. *)
Definition get_result (self : CallbackModule) : option string :=
  let '(ok, failed, unreach, err) := get_res self in
  if truthy (VList ok) then first_dumped ok
  else if truthy (VList failed) then first_dumped failed
  else if truthy (VList unreach) then first_dumped unreach
  else if truthy (VStr err) then first_dumped (map VStr (chars err))
  else None.

(** ** The WebSocket endpoint of [main.py] *)

(** The JSON message received; a field is [None] when the key is
    missing. *)
Record Message : Type := {
  msg_hostname : option string;
  msg_host : option string;
  msg_port : option Z;
  msg_pass : option value;
  msg_cmd : option string
}.

Definition hostdat (data : Message) : list HostData :=
  [ {| hostname := Some (default "test" (msg_hostname data));
       ip := Some (default "test" (msg_host data));
       port := Some (default 22%Z (msg_port data));
       username := None;
       password := Some (default (VInt 22) (msg_pass data));
       private_key := None;
       become := None;
       groups := Some ["gituwen"; default "test" (msg_hostname data)];
       vars := None |} ].

Definition fresh_state : State :=
  {| results_callback := CallbackModule_init; trace := [];
     var_tqm := false; var_playbook := None |}.

(** One turn of the loop of [websocket_endpoint]: the value handed to
    [send_json] and the effects of the run, or the exception that leaves
    the handler. *)
Definition websocket_endpoint (w : World) (data : Message)
  : outcome (option string) * State :=
  match BaseInventory (hostdat data) with
  | Raise e => (Raise e, fresh_state)
  | Ret inventory =>
      match run_module w "shell" (VStr (default "ls -lha /tmp" (msg_cmd data)))
              (default "test" (msg_hostname data)) fresh_state with
      | (Raise e, s) => (Raise e, s)
      | (Ret _, s) => (Ret (get_result (results_callback s)), s)
      end
  end.

End Readers.

(** ** Vocabulary of the statements *)

(** The first deny-listed name, in list order, that the text starts with,
    ignoring case. *)
Definition deny_at (s : string) : option string :=
  find (fun n => starts_with true n s) ANSIBLE_DENY_VARIBLE_LISTS.

(** [s[:n]] *)
Fixpoint take_str (n : nat) (s : string) : string :=
  match n, s with
  | S n', String c t => String c (take_str n' t)
  | _, _ => EmptyString
  end.

(** What [deny_pattern] captures: at the leftmost position where a
    deny-listed name starts, that name with the character before it and the
    character after it, when they exist. *)
Fixpoint captured (s : string) : option string :=
  match s with
  | EmptyString => None
  | String c t =>
      match deny_at t with
      | Some n => Some (String c (take_str (String.length n + 1) t))
      | None =>
          match deny_at s with
          | Some n => Some (take_str (String.length n + 1) s)
          | None => captured t
          end
      end
  end.

(** No deny-listed name starts anywhere in the text, ignoring case. *)
Fixpoint deny_free (s : string) : bool :=
  bool_decide (deny_at s = None)
  && match s with
     | String _ t => deny_free t
     | EmptyString => true
     end.

(** No deny-listed name starts at one of the first [k] positions. *)
Fixpoint deny_free_upto (k : nat) (s : string) : bool :=
  match k with
  | O => true
  | S k' =>
      bool_decide (deny_at s = None)
      && match s with
         | String _ t => deny_free_upto k' t
         | EmptyString => true
         end
  end.

(** A character next to a name that the filter removes before it compares. *)
Definition left_delimiter (c : ascii) : bool :=
  isspace c || Ascii.eqb c "="%char || Ascii.eqb c "{"%char.

Definition right_delimiter (c : ascii) : bool :=
  isspace c || Ascii.eqb c "}"%char.

Definition opt_char (c : option ascii) : string :=
  match c with
  | Some a => String a EmptyString
  | None => EmptyString
  end.

(** The text after the two keyword replacements of the filter. *)
Definition neutralised (content : string) : string :=
  replace "vars_files:" "+++" (replace "vars:" "+++" content).

(** The plays handed to [tqm.run] and the playbooks run, in a trace. *)
Fixpoint dispatched (t : list effect) : list value :=
  match t with
  | [] => []
  | ETqmRun p :: tl => p :: dispatched tl
  | _ :: tl => dispatched tl
  end.

Fixpoint playbooks_run (t : list effect) : list string :=
  match t with
  | [] => []
  | EPlaybookRun p :: tl => p :: playbooks_run tl
  | _ :: tl => playbooks_run tl
  end.

(** Releases of a runtime handle and purges of the scratch directory. *)
Fixpoint releases (t : list effect) : nat :=
  match t with
  | [] => 0
  | ETqmCleanup :: tl | EPlaybookCleanup :: tl => S (releases tl)
  | _ :: tl => releases tl
  end.

Fixpoint purges (t : list effect) : nat :=
  match t with
  | [] => 0
  | ERmtree :: tl => S (purges tl)
  | _ :: tl => purges tl
  end.

(** The name a host gets: the hostname, or the ip when there is none. *)
Definition host_name_of (host_data : HostData) : option string :=
  str_or (hostname host_data) (ip host_data).

(** What the loop of [parse_sources] needs of a descriptor to complete. *)
Definition complete (host_data : HostData) : Prop :=
  is_Some (hostname host_data) /\ is_Some (ip host_data)
  /\ is_Some (port host_data)
  /\ Forall (fun g => g <> EmptyString) (default [] (groups host_data)).

(** [l'] is [l], or [l] followed by [h] where no host of [l] has the name
    of [h]: what [Group.add_host] can do to the hosts of a group. *)
Definition grown (h : Host) (l l' : list Host) : Prop :=
  l' = l \/ (l' = l ++ [h] /\ ~ In (h_name h) (map h_name l)).

(** What holds of the inventory between two turns of the loop of
    [parse_sources], after [uuid] hosts named [names]. *)
Definition built (inv : Inventory) (uuid : nat) (names : list (option string)) : Prop :=
  is_Some (get_group inv "all") /\ is_Some (get_group inv "ungrouped")
  /\ map h_name (hosts_of inv "all") = names
  /\ map h_uuid (hosts_of inv "all") = seq 0 uuid
  /\ (forall h, In h (hosts_of inv "ungrouped") -> h_uuid h < uuid)
  /\ inv_hosts inv !! "all" = None.

(** ** Sample inputs *)

(** A library in which every call returns and no host reports. *)
Definition quiet_world : World :=
  {| Play_load := fun _ => None;
     TaskQueueManager_new := None;
     TaskQueueManager_run := fun _ => ([], None);
     TaskQueueManager_cleanup := None;
     open_read := fun p => Raise (Exn "FileNotFoundError" p);
     PlaybookExecutor_new := fun _ => Ret {| ex_has_tqm := true |};
     PlaybookExecutor_run := fun _ => ([], None);
     clock := 0%Z |}.

(** The same library with one playbook file on disk. *)
Definition world_with_file (path content : string) : World :=
  {| Play_load := Play_load quiet_world;
     TaskQueueManager_new := None;
     TaskQueueManager_run := TaskQueueManager_run quiet_world;
     TaskQueueManager_cleanup := None;
     open_read := fun p => if String.eqb p path then Ret content
                           else Raise (Exn "FileNotFoundError" p);
     PlaybookExecutor_new := PlaybookExecutor_new quiet_world;
     PlaybookExecutor_run := PlaybookExecutor_run quiet_world;
     clock := 0%Z |}.

(** A library in which the pattern matches no host. *)
Definition no_match_world : World :=
  {| Play_load := fun _ => None;
     TaskQueueManager_new := None;
     TaskQueueManager_run := fun _ => ([NoHostsMatched], None);
     TaskQueueManager_cleanup := None;
     open_read := open_read quiet_world;
     PlaybookExecutor_new := PlaybookExecutor_new quiet_world;
     PlaybookExecutor_run := fun _ => ([NoHostsMatched], None);
     clock := 0%Z |}.

(** A library whose runtime cannot be constructed. *)
Definition broken_world : World :=
  {| Play_load := fun _ => None;
     TaskQueueManager_new := Some (AnsibleError "cannot start the runtime");
     TaskQueueManager_run := fun _ => ([], None);
     TaskQueueManager_cleanup := None;
     open_read := open_read quiet_world;
     PlaybookExecutor_new := fun _ => Raise (AnsibleError "cannot start the runtime");
     PlaybookExecutor_run := fun _ => ([], None);
     clock := 0%Z |}.

(** A callback object that also carries [start_time] and [res]. *)
Definition logging_callback : CallbackModule :=
  {| host_ok := []; host_unreachable := []; host_failed := [];
     error := EmptyString; start_time := Some 0%Z; res := Some [] |}.

Definition logging_state : State :=
  {| results_callback := logging_callback; trace := [];
     var_tqm := false; var_playbook := None |}.

(** The first host of the demonstration at the end of the source. *)
Definition git_host : HostData :=
  {| hostname := Some "git"; ip := Some "192.168.5.2"; port := Some 22%Z;
     username := Some (VStr "root"); password := Some (VStr "@23123");
     private_key := None;
     become := Some [ ("method", VStr "sudo"); ("user", VStr "root");
                      ("pass", VStr "11") ];
     groups := Some ["gituwen"; "test"];
     vars := Some [ ("love", VStr "yes") ] |}.

(** The same host with connection variables among its extra variables. *)
Definition redirected_host : HostData :=
  {| hostname := Some "git"; ip := Some "192.168.5.2"; port := Some 22%Z;
     username := Some (VStr "root"); password := Some (VStr "@23123");
     private_key := None; become := None;
     groups := Some ["gituwen"; "test"];
     vars := Some [ ("ansible_host", VStr "203.0.113.9");
                    ("ansible_port", VInt 2222) ] |}.

Definition k8s_host : HostData :=
  {| hostname := Some "k8s"; ip := Some "192.168.55.2"; port := Some 22%Z;
     username := Some (VStr "root"); password := Some (VStr "123123");
     private_key := None;
     become := Some [ ("method", VStr "sudo"); ("user", VStr "root");
                      ("pass", VStr "@123123") ];
     groups := Some ["gituwen"; "test"];
     vars := Some [ ("love", VStr "yes") ] |}.

(** A descriptor that names its host by address only. *)
Definition address_only_host : HostData :=
  {| hostname := None; ip := Some "192.168.5.3"; port := Some 22%Z;
     username := None; password := None; private_key := None; become := None;
     groups := None; vars := None |}.

(** The facts of a host, without [ansible_product_name]. *)
Definition facts_without_model : value :=
  VDict [ ("ansible_hostname", VStr "git");
          ("ansible_processor", VList [VStr "0"; VStr "GenuineIntel"; VStr "Xeon"]);
          ("ansible_processor_count", VInt 1);
          ("ansible_processor_vcpus", VInt 2);
          ("ansible_kernel", VStr "5.4.0");
          ("ansible_distribution", VStr "Ubuntu");
          ("ansible_distribution_version", VStr "20.04");
          ("ansible_userspace_architecture", VStr "x86_64");
          ("ansible_memtotal_mb", VInt 3936);
          ("ansible_swaptotal_mb", VInt 2047);
          ("ansible_devices", VDict []);
          ("ansible_mounts", VList []);
          ("ansible_interfaces", VList [VStr "lo"; VStr "eth0"]);
          ("ansible_lo", VDict [ ("device", VStr "lo"); ("active", VBool true) ]);
          ("ansible_eth0", VDict [ ("device", VStr "eth0");
                                   ("macaddress", VStr "52:54:00:12:34:56");
                                   ("active", VBool true) ]) ].

Definition ok_record_without_model : value :=
  outcome_record {| tr_host := "git"; tr_task_name := "setup";
                    tr_result := VDict [ ("ansible_facts", facts_without_model) ] |}
                 true "ok".

(** ** The chat endpoint of [main_ws.py] *)

(** [s.split(sep)] for a one character separator: every occurrence splits
    and empty fields are kept. *)
Fixpoint split_on (sep : ascii) (s : string) : list string :=
  match s with
  | EmptyString => [EmptyString]
  | String c t =>
      if Ascii.eqb c sep then EmptyString :: split_on sep t
      else match split_on sep t with
           | x :: l => String c x :: l
           | [] => [String c EmptyString]
           end
  end.

(** A [WebSocket] object, known by what [str] prints for it. *)
Record WebSocket : Type := { ws_str : string }.

(** [Echo.alter_socket]: the fourth blank-separated field of
    [str(websocket)[1:-1]]. *)
Definition alter_socket (websocket : WebSocket) : outcome string :=
  let socket_str := init_str (tail_str (ws_str websocket)) in
  let socket_list := split_on " " socket_str in
  match nth_error socket_list 3 with
  | Some socket_only => Ret socket_only
  | None => Raise (IndexError "list index out of range")
  end.

(** The texts the chat sends: [name-joined], the output of the command, and
    [name: data]. *)
Inductive chat_text : Type :=
| Joined (name : string)
| Output (out : string)
| Said (name data : string).

(** The module-level dictionary [info]: socket key to [[name, websocket]],
    in insertion order. *)
Definition Pool : Type := list (string * (string * WebSocket)).

Fixpoint pool_get (pool : Pool) (k : string) : option (string * WebSocket) :=
  match pool with
  | [] => None
  | (k', v) :: tl => if String.eqb k' k then Some v else pool_get tl k
  end.

(** [info[k] = v]: an existing key keeps its place. *)
Fixpoint pool_set (pool : Pool) (k : string) (v : string * WebSocket) : Pool :=
  match pool with
  | [] => [(k, v)]
  | (k', v') :: tl =>
      if String.eqb k' k then (k', v) :: tl else (k', v') :: pool_set tl k v
  end.

(** [info.pop(k)] *)
Fixpoint pool_pop (pool : Pool) (k : string) : option Pool :=
  match pool with
  | [] => None
  | (k', v) :: tl =>
      if String.eqb k' k then Some tl
      else option_map (cons (k', v)) (pool_pop tl k)
  end.

(** The dictionary, and the texts delivered so far, each with its
    receiver. *)
Record Chat : Type := {
  info : Pool;
  sent : list (WebSocket * chat_text)
}.

(** [for wbs in info: ... await info[wbs][1].send_text(text)], from the
    member [members] starts with: every turn first reads
    [info[socket_only]], and its name goes into the text; [send_text] tells
    what a socket raises when a text is sent to it.  A handler is followed
    from its first statement to its last: the dictionary is not changed by
    another handler while the loop waits. *)
Fixpoint send_loop (send_text : WebSocket -> option exn) (pool : Pool)
    (socket_only : string) (text : string -> chat_text) (members : Pool)
    (delivered : list (WebSocket * chat_text))
  : outcome unit * list (WebSocket * chat_text) :=
  match members with
  | [] => (Ret tt, delivered)
  | (_, (_, websocket)) :: tl =>
      match pool_get pool socket_only with
      | None => (Raise (KeyError socket_only), delivered)
      | Some (name, _) =>
          match send_text websocket with
          | Some e => (Raise e, delivered)
          | None =>
              send_loop send_text pool socket_only text tl
                (delivered ++ [(websocket, text name)])
          end
      end
  end.

Definition send_all (send_text : WebSocket -> option exn) (st : Chat)
    (socket_only : string) (text : string -> chat_text) : outcome unit * Chat :=
  let '(r, delivered) :=
    send_loop send_text (info st) socket_only text (info st) (sent st) in
  (r, {| info := info st; sent := delivered |}).

(** [Echo.on_connect]; [name] is the text received after the handshake. *)
Definition on_connect (send_text : WebSocket -> option exn) (st : Chat)
    (websocket : WebSocket) (name : string) : outcome unit * Chat :=
  match alter_socket websocket with
  | Raise e => (Raise e, st)
  | Ret socket_only =>
      send_all send_text
        {| info := pool_set (info st) socket_only (name, websocket); sent := sent st |}
        socket_only Joined
  end.

(** [Echo.on_receive]; [out] is what the command [df -Ph] prints. *)
Definition on_receive (send_text : WebSocket -> option exn) (st : Chat)
    (websocket : WebSocket) (data out : string) : outcome unit * Chat :=
  match alter_socket websocket with
  | Raise e => (Raise e, st)
  | Ret socket_only =>
      let '(r, st') :=
        if String.eqb data "run nginx"
        then send_all send_text st socket_only (fun _ => Output out)
        else (Ret tt, st) in
      match r with
      | Raise e => (Raise e, st')
      | Ret _ => send_all send_text st' socket_only (fun name => Said name data)
      end
  end.

(** [Echo.on_disconnect] *)
Definition on_disconnect (st : Chat) (websocket : WebSocket) : outcome unit * Chat :=
  match alter_socket websocket with
  | Raise e => (Raise e, st)
  | Ret socket_only =>
      match pool_pop (info st) socket_only with
      | Some pool => (Ret tt, {| info := pool; sent := sent st |})
      | None => (Raise (KeyError socket_only), st)
      end
  end.

(** ** Further vocabulary *)

(** [sep.join(fields)] *)
Fixpoint join_with (sep : ascii) (fields : list string) : string :=
  match fields with
  | [] => EmptyString
  | [x] => x
  | x :: l => x +:+ String sep (join_with sep l)
  end.

(** No character of the text is [c]. *)
Fixpoint lacks (c : ascii) (s : string) : bool :=
  match s with
  | EmptyString => true
  | String a t => negb (Ascii.eqb a c) && lacks c t
  end.

(** The results the runtime reported as ok, failed and unreachable. *)
Fixpoint ok_results (evs : list cb_event) : list TaskResult :=
  match evs with
  | [] => []
  | RunnerOk r :: tl => r :: ok_results tl
  | _ :: tl => ok_results tl
  end.

Fixpoint failed_results (evs : list cb_event) : list TaskResult :=
  match evs with
  | [] => []
  | RunnerFailed r :: tl => r :: failed_results tl
  | _ :: tl => failed_results tl
  end.

Fixpoint unreachable_results (evs : list cb_event) : list TaskResult :=
  match evs with
  | [] => []
  | RunnerUnreachable r :: tl => r :: unreachable_results tl
  | _ :: tl => unreachable_results tl
  end.

Fixpoint no_match (evs : list cb_event) : bool :=
  match evs with
  | [] => false
  | NoHostsMatched :: _ => true
  | _ :: tl => no_match tl
  end.

(** The descriptor puts its host into the group [g]. *)
Definition declares (g : string) (host_data : HostData) : bool :=
  String.eqb g "all"
  || match groups host_data with
     | Some ((_ :: _) as groups_data) => existsb (String.eqb g) groups_data
     | _ => String.eqb g "ungrouped"
     end.

(** The position, counted from [n], of the last descriptor whose hostname
    is [k]. *)
Fixpoint last_keyed (k : string) (n : nat) (host_list : list HostData) : option nat :=
  match host_list with
  | [] => None
  | host_data :: tl =>
      match last_keyed k (S n) tl with
      | Some j => Some j
      | None =>
          match hostname host_data with
          | Some key => if String.eqb key k then Some n else None
          | None => None
          end
      end
  end.

(** A credential field as [BaseHost] uses it: absent, [None], empty or zero
    count as not given. *)
Definition given (field : option value) : option value :=
  if opt_truthy field then field else None.

(** The escalation spec of a descriptor, when it asks for escalation. *)
Definition escalation (host_data : HostData) : option dict :=
  match become host_data with
  | Some ((_ :: _) as b) => Some b
  | _ => None
  end.

(** The extra variables of the descriptor do not bind the key. *)
Definition unbound (host_data : HostData) (k : string) : Prop :=
  dict_get (default [] (vars host_data)) k = None.

(** [if field: self.set_variable(key, field)] *)
Definition set_given (self : Host) (key : string) (field : option value) : Host :=
  match given field with
  | Some v => set_variable self key v
  | None => self
  end.

(** A descriptor with an empty hostname and no group. *)
Definition address_named_host : HostData :=
  {| hostname := Some EmptyString; ip := Some "192.168.5.3"; port := Some 22%Z;
     username := None; password := None; private_key := None; become := None;
     groups := None; vars := None |}.

(** The positions, counted from [n], of the descriptors whose host name is
    not in [seen] and was not met earlier in the list. *)
Fixpoint first_ids (seen : list (option string)) (n : nat) (host_list : list HostData)
  : list nat :=
  match host_list with
  | [] => []
  | host_data :: tl =>
      if existsb (fun x => name_eqb x (host_name_of host_data)) seen
      then first_ids seen (S n) tl
      else n :: first_ids (seen ++ [host_name_of host_data]) (S n) tl
  end.

(** [if group:] holds. *)
Definition named (group : option string) : bool :=
  match group with
  | Some g => negb (String.eqb g EmptyString)
  | None => false
  end.

(** The members a broadcast reaches: those before the first socket that
    refuses the text; and what that socket raises. *)
Fixpoint reached (send_text : WebSocket -> option exn) (members : Pool) : Pool :=
  match members with
  | [] => []
  | m :: tl =>
      match send_text (snd (snd m)) with
      | Some _ => []
      | None => m :: reached send_text tl
      end
  end.

Fixpoint refusal (send_text : WebSocket -> option exn) (members : Pool) : option exn :=
  match members with
  | [] => None
  | m :: tl =>
      match send_text (snd (snd m)) with
      | Some e => Some e
      | None => refusal send_text tl
      end
  end.

(** The entry of [info['interfaces']] made from the facts of one card. *)
Definition card_entry (card : dict) : value :=
  VDict
    [ ("network_card_name", default VNone (dict_get card "device"));
      ("network_card_mac", default VNone (dict_get card "macaddress"));
      ("network_card_ipv4", default (VStr "unknown") (dict_get card "ipv4"));
      ("network_card_ipv4_secondaries",
       default (VStr "unknown") (dict_get card "ipv4_secondaries"));
      ("network_card_ipv6", default (VStr "unknown") (dict_get card "ipv6"));
      ("network_card_model", default VNone (dict_get card "type"));
      ("network_card_mtu", default VNone (dict_get card "mtu"));
      ("network_card_status", default VNone (dict_get card "active"));
      ("network_card_speed", default VNone (dict_get card "speed")) ].

(** The facts the summary of a host reads by plain indexing. *)
Definition required_facts : list string :=
  [ "ansible_hostname"; "ansible_processor"; "ansible_processor_count";
    "ansible_processor_vcpus"; "ansible_kernel"; "ansible_distribution";
    "ansible_distribution_version"; "ansible_userspace_architecture";
    "ansible_product_name"; "ansible_memtotal_mb"; "ansible_swaptotal_mb";
    "ansible_devices"; "ansible_mounts"; "ansible_interfaces" ].

(** The facts of a virtual machine, and a library whose [setup] run reports
    them for one host and fails on another. *)
Definition facts_with_model : value :=
  VDict (("ansible_product_name", VStr "KVM")
         :: match facts_without_model with VDict d => d | _ => [] end).

Definition ok_record_with_model : value :=
  outcome_record {| tr_host := "git"; tr_task_name := "setup";
                    tr_result := VDict [ ("ansible_facts", facts_with_model) ] |}
                 true "ok".

Definition setup_world : World :=
  {| Play_load := fun _ => None;
     TaskQueueManager_new := None;
     TaskQueueManager_run := fun _ =>
       ([ RunnerOk {| tr_host := "git"; tr_task_name := "setup";
                      tr_result := VDict [ ("ansible_facts", facts_with_model) ] |};
          RunnerFailed {| tr_host := "k8s"; tr_task_name := "setup";
                          tr_result := VDict [ ("msg", VStr "timed out") ] |} ],
        None);
     TaskQueueManager_cleanup := None;
     open_read := open_read quiet_world;
     PlaybookExecutor_new := PlaybookExecutor_new quiet_world;
     PlaybookExecutor_run := PlaybookExecutor_run quiet_world;
     clock := 0%Z |}.

(** [str] on the strings of the facts, and a disk loop over no device. *)
Definition str_of_text (v : value) : string :=
  match v with
  | VStr s => s
  | _ => EmptyString
  end.

Definition no_disk (devices : value) : outcome value := Ret (VInt 0).

(** * Properties *)

(** *** The pattern of the Variable Safety Filter *)

#[local] Arguments String.append !_ _ / : simpl nomatch.

Lemma any_char_true c : any_char c = true.
Proof. unfold any_char. apply orb_negb_l. Qed.

(** [[\S\s]*$] consumes the rest of the text. *)
Lemma star_greedy_to_end {A} (x : A) (s : string) : forall n,
  star_greedy any_char (fun _ s' => if at_eol s' then Some x else None) n s = Some x.
Proof.
  induction s as [|c t IH]; intros n; [reflexivity|].
  cbn [star_greedy]. by rewrite any_char_true, IH.
Qed.

Lemma tail_matches st :
  rmatch true (Cat (StarGreedy any_char) Eol) st (fun st' => Some (cap st'))
  = Some (cap st).
Proof. cbn. apply star_greedy_to_end. Qed.

(** An alternation of literals followed by something that always matches
    takes the first literal the text starts with. *)
Lemma alternation_first {A} (names : list string) (st : mstate)
    (k : mstate -> option A) :
  (forall st', k st' <> None) ->
  rmatch true (alternation names) st k
  = match find (fun n => starts_with true n (rest st)) names with
    | Some n => k (MState (pos st + String.length n)
                          (drop_str (String.length n) (rest st)) (cap st))
    | None => None
    end.
Proof.
  intros Hk. induction names as [|n names IH]; [reflexivity|].
  cbn [alternation fold_right rmatch find].
  destruct (starts_with true n (rest st)); [|exact IH].
  destruct (k _) eqn:E; [reflexivity|]. by apply Hk in E.
Qed.

(** The span captured when the group is tried at offset [p] of a text whose
    rest is [s]. *)
Lemma capture_at (p : nat) (s : string) (c0 : option (nat * nat)) :
  rmatch true
    (Capture (Cat (Opt (Cls any_char))
                  (Cat (alternation ANSIBLE_DENY_VARIBLE_LISTS)
                       (Opt (Cls any_char)))))
    (MState p s c0)
    (fun st => rmatch true (Cat (StarGreedy any_char) Eol) st
                 (fun st' => Some (cap st')))
  = match s with
    | EmptyString => None
    | String _ t =>
        match deny_at t with
        | Some n =>
            Some (Some (p, match drop_str (String.length n) t with
                           | EmptyString => S p + String.length n
                           | String _ _ => S (S p + String.length n)
                           end))
        | None =>
            match deny_at s with
            | Some n =>
                Some (Some (p, match drop_str (String.length n) s with
                               | EmptyString => p + String.length n
                               | String _ _ => S (p + String.length n)
                               end))
            | None => None
            end
        end
    end.
Proof.
  assert (Hafter : forall (st : mstate),
    rmatch true (Opt (Cls any_char)) st
      (fun st' => rmatch true (Cat (StarGreedy any_char) Eol)
                    (MState (pos st') (rest st') (Some (p, pos st')))
                    (fun st'' => Some (cap st'')))
    = Some (Some (p, match rest st with
                     | EmptyString => pos st
                     | String _ _ => S (pos st)
                     end))).
  { intros [q r c]. cbn [rmatch pos rest cap].
    destruct r as [|a r]; cbn [pos rest cap].
    - apply star_greedy_to_end.
    - rewrite any_char_true. cbn [pos rest cap]. by rewrite star_greedy_to_end. }
  assert (Halt : forall q r c,
    rmatch true (alternation ANSIBLE_DENY_VARIBLE_LISTS) (MState q r c)
      (fun sb => rmatch true (Opt (Cls any_char)) sb
         (fun st' => rmatch true (Cat (StarGreedy any_char) Eol)
                       (MState (pos st') (rest st') (Some (p, pos st')))
                       (fun st'' => Some (cap st''))))
    = match deny_at r with
      | Some n => Some (Some (p, match drop_str (String.length n) r with
                                 | EmptyString => q + String.length n
                                 | String _ _ => S (q + String.length n)
                                 end))
      | None => None
      end).
  { intros q r c. rewrite alternation_first.
    - cbn [rest pos cap]. unfold deny_at.
      destruct (find _ ANSIBLE_DENY_VARIBLE_LISTS); [|reflexivity].
      by rewrite Hafter.
    - intros st'. by rewrite Hafter. }
  cbn [rmatch pos rest cap]. destruct s as [|a t].
  - rewrite Halt. reflexivity.
  - rewrite any_char_true. cbn [pos rest cap]. rewrite !Halt.
    destruct (deny_at t); [reflexivity|]. by destruct (deny_at (String a t)).
Qed.

Lemma capture_then_tail (p : nat) (s : string) (c0 : option (nat * nat)) :
  rmatch true
    (Cat (Capture (Cat (Opt (Cls any_char))
                       (Cat (alternation ANSIBLE_DENY_VARIBLE_LISTS)
                            (Opt (Cls any_char)))))
         (Cat (StarGreedy any_char) Eol))
    (MState p s c0) (fun st' => Some (cap st'))
  = match s with
    | EmptyString => None
    | String _ t =>
        match deny_at t with
        | Some n =>
            Some (Some (p, match drop_str (String.length n) t with
                           | EmptyString => S p + String.length n
                           | String _ _ => S (S p + String.length n)
                           end))
        | None =>
            match deny_at s with
            | Some n =>
                Some (Some (p, match drop_str (String.length n) s with
                               | EmptyString => p + String.length n
                               | String _ _ => S (p + String.length n)
                               end))
            | None => None
            end
        end
    end.
Proof. exact (capture_at p s c0). Qed.

Lemma substring_take (m : nat) (s : string) : substring 0 m s = take_str m s.
Proof.
  revert s. induction m as [|m IH]; intros [|c t]; cbn; try reflexivity.
  by rewrite IH.
Qed.

Lemma substring_skip (pre s : string) (m : nat) :
  substring (String.length pre) m (pre +:+ s) = take_str m s.
Proof.
  induction pre as [|c pre IH]; cbn; [apply substring_take|].
  destruct m; exact IH.
Qed.

(** A name and the character after it, if there is one. *)
Lemma take_name (ic : bool) (n t : string) :
  starts_with ic n t = true ->
  take_str (match drop_str (String.length n) t with
            | EmptyString => String.length n
            | String _ _ => S (String.length n)
            end) t
  = take_str (String.length n + 1) t.
Proof.
  revert t. induction n as [|a n IH]; intros t H.
  - destruct t; reflexivity.
  - destruct t as [|b t]; [discriminate|]. cbn in H.
    apply andb_prop in H as [_ H]. specialize (IH t H). cbn [String.length drop_str].
    destruct (drop_str (String.length n) t); cbn [take_str Nat.add]; by rewrite <- IH.
Qed.

Lemma deny_at_starts n s : deny_at s = Some n -> starts_with true n s = true.
Proof. unfold deny_at. intros H. by apply find_some in H as [_ H]. Qed.

Lemma append_assoc_char (pre : string) c t :
  (pre +:+ String c EmptyString) +:+ t = pre +:+ String c t.
Proof. induction pre as [|a pre IH]; simpl; congruence. Qed.

Lemma length_append_char (pre : string) c :
  String.length (pre +:+ String c EmptyString) = S (String.length pre).
Proof. induction pre as [|a pre IH]; simpl; congruence. Qed.

(** The lazy prefix stops at the leftmost position where the group
    matches. *)
Lemma lazy_prefix_captured (s : string) : forall pre c0,
  match star_lazy any_char
          (fun n s' =>
             rmatch true
               (Cat (Capture (Cat (Opt (Cls any_char))
                                  (Cat (alternation ANSIBLE_DENY_VARIBLE_LISTS)
                                       (Opt (Cls any_char)))))
                    (Cat (StarGreedy any_char) Eol))
               (MState n s' c0) (fun st' => Some (cap st')))
          (String.length pre) s with
  | Some m => group_text (pre +:+ s) m
  | None => None
  end = captured s.
Proof.
  induction s as [|a t IH]; intros pre c0.
  - cbn [star_lazy]. rewrite capture_then_tail. reflexivity.
  - cbn [star_lazy]. rewrite capture_then_tail. cbn [captured].
    destruct (deny_at t) as [n|] eqn:Et.
    + cbn [group_text]. f_equal.
      replace (_ - String.length pre)
        with (S (match drop_str (String.length n) t with
                 | EmptyString => String.length n
                 | String _ _ => S (String.length n)
                 end)) by (destruct (drop_str _ t); lia).
      rewrite substring_skip. cbn [take_str]. f_equal.
      apply (take_name true), deny_at_starts, Et.
    + destruct (deny_at (String a t)) as [n|] eqn:Es.
      * cbn [group_text]. f_equal.
        replace (_ - String.length pre)
          with (match drop_str (String.length n) (String a t) with
                | EmptyString => String.length n
                | String _ _ => S (String.length n)
                end) by (destruct (drop_str _ (String a t)); lia).
        rewrite substring_skip. apply (take_name true), deny_at_starts, Es.
      * rewrite any_char_true.
        specialize (IH (pre +:+ String a EmptyString) c0).
        rewrite length_append_char, append_assoc_char in IH. exact IH.
Qed.

Lemma search_anchored (s : string) : forall n,
  search_from true deny_pattern (S n) s = None.
Proof.
  induction s as [|a t IH]; intros n; cbn [search_from]; cbn [rmatch deny_pattern pos];
    cbn [Nat.eqb]; [reflexivity | apply IH].
Qed.

Lemma pattern_from_start (s : string) (c0 : option (nat * nat)) :
  rmatch true deny_pattern (MState 0 s c0) (fun st' => Some (cap st'))
  = star_lazy any_char
      (fun n s' =>
         rmatch true
           (Cat (Capture (Cat (Opt (Cls any_char))
                              (Cat (alternation ANSIBLE_DENY_VARIBLE_LISTS)
                                   (Opt (Cls any_char)))))
                (Cat (StarGreedy any_char) Eol))
           (MState n s' c0) (fun st' => Some (cap st')))
      0 s.
Proof. reflexivity. Qed.

(** What [pattern.search] finds, as text. *)
Lemma re_search_captured (s : string) :
  match re_search true deny_pattern s with
  | Some m => group_text s m
  | None => None
  end = captured s.
Proof.
  pose proof (lazy_prefix_captured s EmptyString None) as H.
  cbn [String.length append] in H.
  unfold re_search. destruct s as [|a t]; cbn [search_from];
    rewrite pattern_from_start, ?search_anchored;
    destruct (star_lazy _ _ _ _); exact H.
Qed.

(** The filter, read through what the pattern captures. *)
Lemma check_ansible_variable_captured (content : string) :
  check_ansible_variable content
  = match captured (neutralised content) with
    | Some g =>
        let info := strip g in
        let info :=
          if starts_with false "=" info || starts_with false "{" info
          then tail_str info else info in
        let info := if ends_with_char "}" info then init_str info else info in
        if str_in info ANSIBLE_DENY_VARIBLE_LISTS
        then (true, Some info)
        else (false, None)
    | None => (false, None)
    end.
Proof.
  unfold check_ansible_variable. rewrite <- re_search_captured.
  fold (neutralised content).
  destruct (re_search true deny_pattern (neutralised content)) as [m|]; [|reflexivity].
  by destruct (group_text (neutralised content) m).
Qed.

Lemma deny_free_captured (s : string) : deny_free s = true -> captured s = None.
Proof.
  induction s as [|a t IH]; [reflexivity|]. cbn [deny_free captured].
  intros H. apply andb_prop in H as [Hs Ht].
  apply bool_decide_eq_true in Hs. rewrite Hs.
  specialize (IH Ht). rewrite IH.
  destruct t as [|b t']; cbn [deny_free] in Ht.
  - reflexivity.
  - apply andb_prop in Ht as [Hb _]. apply bool_decide_eq_true in Hb. by rewrite Hb.
Qed.

(** *** The two keyword replacements *)



Lemma starts_with_ignoring_case (p s : string) :
  starts_with false p s = true -> starts_with true p s = true.
Proof.
  revert s. induction p as [|a p IH]; intros [|b s]; cbn; try done.
  intros H. apply andb_prop in H as [Hab H]. apply Ascii.eqb_eq in Hab. subst.
  by rewrite Ascii.eqb_refl, IH.
Qed.

Lemma starts_with_shorter (ic : bool) (p q s : string) :
  starts_with ic (p +:+ q) s = true -> starts_with ic p s = true.
Proof.
  revert s. induction p as [|a p IH]; intros s; [done|].
  destruct s as [|b s]; cbn; [done|].
  intros H. apply andb_prop in H as [-> H]. by apply IH.
Qed.

Lemma deny_at_None_vars (s : string) :
  deny_at s = None -> starts_with true "vars" s = false.
Proof.
  unfold deny_at. cbn [find ANSIBLE_DENY_VARIBLE_LISTS].
  by destruct (starts_with true "vars" s).
Qed.

Lemma replace_absent (old new s : string) :
  contains_str old s = false -> replace old new s = s.
Proof.
  unfold replace. induction s as [|c t IH]; [reflexivity|].
  cbn [contains_str replace_from]. intros H.
  apply orb_false_elim in H as [-> H]. by rewrite IH.
Qed.

(** A text free of deny-listed names has neither keyword. *)
Lemma deny_free_no_keyword (s : string) :
  deny_free s = true ->
  contains_str "vars:" s = false /\ contains_str "vars_files:" s = false.
Proof.
  induction s as [|c t IH]; [done|].
  cbn [deny_free]. intros H. apply andb_prop in H as [Hs Ht].
  apply bool_decide_eq_true, deny_at_None_vars in Hs.
  destruct (IH Ht) as [H1 H2]. cbn [contains_str]. rewrite H1, H2, !orb_false_r.
  split.
  - destruct (starts_with false "vars:" (String c t)) eqn:E; [|done].
    apply (starts_with_shorter false "vars" ":"), starts_with_ignoring_case in E.
    congruence.
  - destruct (starts_with false "vars_files:" (String c t)) eqn:E; [|done].
    apply (starts_with_shorter false "vars" "_files:"), starts_with_ignoring_case in E.
    congruence.
Qed.










(** *** The name [ansible_ssh_pass] *)

(** The verdict on a captured [ansible_ssh_pass] between two delimiters. *)
Lemma verdict_between_delimiters (l r : option ascii) :
  match l with Some c => left_delimiter c = true | None => True end ->
  match r with Some c => right_delimiter c = true | None => True end ->
  let g := opt_char l +:+ "ansible_ssh_pass" +:+ opt_char r in
  let info := strip g in
  let info :=
    if starts_with false "=" info || starts_with false "{" info
    then tail_str info else info in
  let info := if ends_with_char "}" info then init_str info else info in
  (if str_in info ANSIBLE_DENY_VARIBLE_LISTS then (true, Some info) else (false, None))
  = (true, Some "ansible_ssh_pass").
Proof.
  intros Hl Hr.
  set (t := "ansible_ssh_pass" +:+ opt_char r).
  assert (Hleft : lstrip t = t) by reflexivity.
  assert (Hright : rstrip t = "ansible_ssh_pass" \/ rstrip t = "ansible_ssh_pass}").
  { subst t. destruct r as [c|]; [|by left]. unfold right_delimiter in Hr.
    cbn [opt_char append rstrip]. destruct (isspace c) eqn:E.
    - by left.
    - cbn in Hr. apply Ascii.eqb_eq in Hr. subst. by right. }
  clearbody t. destruct l as [c|]; cbn [opt_char append]; unfold strip.
  - unfold left_delimiter in Hl. cbn [lstrip]. destruct (isspace c) eqn:E.
    + rewrite Hleft. destruct Hright as [-> | ->]; reflexivity.
    + cbn [rstrip]. rewrite E.
      assert (Hc : c = "="%char \/ c = "{"%char).
      { cbn in Hl. apply orb_prop in Hl as [Hl|Hl]; apply Ascii.eqb_eq in Hl; auto. }
      destruct Hright as [-> | ->], Hc as [-> | ->]; reflexivity.
  - rewrite Hleft. destruct Hright as [-> | ->]; reflexivity.
Qed.

Lemma take_after_name (r : option ascii) (post : string) :
  match r with Some _ => True | None => post = EmptyString end ->
  take_str 1 (opt_char r +:+ post) = opt_char r.
Proof. destruct r as [c|]; [reflexivity|]. by intros ->. Qed.

Lemma deny_at_ssh_pass (x : string) :
  deny_at ("ansible_ssh_pass" +:+ x) = Some "ansible_ssh_pass"
  /\ deny_at ("nsible_ssh_pass" +:+ x) = None.
Proof. split; reflexivity. Qed.

(** The pattern captures the leftmost deny-listed name: here
    [ansible_ssh_pass], with the characters around it. *)
Lemma captured_ssh_pass (pre : string) (l r : option ascii) (post : string) :
  deny_free_upto (String.length pre + String.length (opt_char l))
    (pre +:+ opt_char l +:+ "ansible_ssh_pass" +:+ opt_char r +:+ post) = true ->
  match l with Some _ => True | None => pre = EmptyString end ->
  match r with Some _ => True | None => post = EmptyString end ->
  captured (pre +:+ opt_char l +:+ "ansible_ssh_pass" +:+ opt_char r +:+ post)
  = Some (opt_char l +:+ "ansible_ssh_pass" +:+ opt_char r).
Proof.
  intros Hfree Hl Hr. pose proof (take_after_name r post Hr) as Htake.
  destruct (deny_at_ssh_pass (opt_char r +:+ post)) as [Ha Hn].
  cbn [append] in Ha, Hn.
  destruct l as [c|].
  - clear Hl. induction pre as [|c0 pre IH].
    + cbn [opt_char append captured]. rewrite Ha.
      cbn [String.length Nat.add take_str]. do 18 f_equal. exact Htake.
    + cbn [String.length Nat.add append deny_free_upto] in Hfree.
      apply andb_prop in Hfree as [H0 Hfree].
      apply bool_decide_eq_true in H0.
      cbn [append captured].
      assert (H1 : deny_at (pre +:+ opt_char (Some c) +:+ "ansible_ssh_pass"
                            +:+ opt_char r +:+ post) = None).
      { destruct (String.length pre + String.length (opt_char (Some c))) eqn:E;
          [cbn in E; lia|].
        cbn [deny_free_upto] in Hfree. apply andb_prop in Hfree as [H1 _].
        by apply bool_decide_eq_true in H1. }
      cbn [append] in H0, H1. rewrite H1, H0. by apply IH.
  - subst pre. cbn [opt_char append captured].
    rewrite Hn, Ha.
    cbn [String.length Nat.add take_str]. do 17 f_equal. exact Htake.
Qed.

(** C3, as amended: when [ansible_ssh_pass] is the leftmost occurrence of a
    deny-listed name in the text left by the two keyword replacements, and
    the character before it is absent, white space, [=] or an opening brace,
    and the character after it is absent, white space or a closing brace, the
    filter answers with [ansible_ssh_pass]. *)
Theorem filter_flags_delimited_ssh_pass (content pre : string) (l r : option ascii)
    (post : string) :
  neutralised content
  = pre +:+ opt_char l +:+ "ansible_ssh_pass" +:+ opt_char r +:+ post ->
  deny_free_upto (String.length pre + String.length (opt_char l))
    (neutralised content) = true ->
  match l with Some c => left_delimiter c = true | None => pre = EmptyString end ->
  match r with Some c => right_delimiter c = true | None => post = EmptyString end ->
  check_ansible_variable content = (true, Some "ansible_ssh_pass").
Proof.
  intros Hn Hfree Hl Hr.
  rewrite check_ansible_variable_captured, Hn.
  rewrite Hn in Hfree. rewrite captured_ssh_pass.
  - apply verdict_between_delimiters; [by destruct l | by destruct r].
  - exact Hfree.
  - by destruct l.
  - by destruct r.
Qed.

Lemma filter_flags_delimited_ssh_pass_witness :
  check_ansible_variable "debug: msg={{ ansible_ssh_pass }}"
  = (true, Some "ansible_ssh_pass").
Proof.
  apply (filter_flags_delimited_ssh_pass _ "debug: msg={{" (Some " "%char)
           (Some " "%char) "}}"); vm_compute; reflexivity.
Defined.

(** C3 as stated fails: a name that follows a dollar sign is captured with
    it and is not recognised. *)
Lemma filter_flags_every_ssh_pass_counterexample :
  contains_str "ansible_ssh_pass" "echo $ansible_ssh_pass" = true
  /\ contains_str "vars:" "echo $ansible_ssh_pass" = false
  /\ contains_str "vars_files:" "echo $ansible_ssh_pass" = false
  /\ check_ansible_variable "echo $ansible_ssh_pass" = (false, None).
Proof. repeat split; vm_compute; reflexivity. Qed.

(** *** Host Record *)

Lemma dict_get_None (d : dict) k :
  dict_get d k = None <-> Forall (fun kv => fst kv <> k) d.
Proof.
  induction d as [|[k' v] d IH]; cbn.
  - split; [constructor | reflexivity].
  - destruct (String.eqb k' k) eqn:E.
    + apply String.eqb_eq in E. split; [discriminate|].
      intros H. inversion H; subst. cbn in *. congruence.
    + apply String.eqb_neq in E. rewrite IH. split.
      * intros H. constructor; [exact E | exact H].
      * intros H. by inversion H.
Qed.

Lemma dict_get_reverse_None (d : dict) k :
  dict_get d k = None -> dict_get (reverse d) k = None.
Proof. rewrite !dict_get_None. apply Forall_reverse. Qed.

Lemma set_variable_lookup h k v k' :
  h_vars (set_variable h k v) !! k'
  = if String.eqb k k' then Some v else h_vars h !! k'.
Proof.
  cbn. destruct (String.eqb k k') eqn:E.
  - apply String.eqb_eq in E. subst. apply lookup_insert_eq.
  - apply String.eqb_neq in E. by apply lookup_insert_ne.
Qed.

(** The extra variables are written last, in order: the last binding of a
    key wins, and a key they do not bind keeps its value. *)
Lemma set_extra_variables_lookup host_data h k :
  h_vars (set_extra_variables host_data h) !! k
  = match dict_get (reverse (default [] (vars host_data))) k with
    | Some v => Some v
    | None => h_vars h !! k
    end.
Proof.
  unfold set_extra_variables. generalize (default [] (vars host_data)) as extra.
  intros extra. induction extra as [|[k' v'] extra IH] using rev_ind.
  - reflexivity.
  - rewrite fold_left_app, reverse_snoc. cbn [fold_left fst snd dict_get].
    rewrite set_variable_lookup. destruct (String.eqb k' k); [reflexivity | exact IH].
Qed.

Lemma set_required_variables_address host_data h a p :
  ip host_data = Some a -> port host_data = Some p ->
  exists h', set_required_variables host_data h = Ret h'
    /\ h_name h' = h_name h /\ h_uuid h' = h_uuid h
    /\ h_vars h' !! "ansible_host" = Some (VStr a)
    /\ h_vars h' !! "ansible_port" = Some (VInt p).
Proof.
  intros Hi Hp. unfold set_required_variables. rewrite Hi, Hp. cbn -[set_variable].
  destruct (opt_truthy (username host_data)) eqn:Eu;
    [destruct (username host_data); [|discriminate]|];
  (destruct (opt_truthy (password host_data)) eqn:Ew;
    [destruct (password host_data); [|discriminate]|]);
  (destruct (opt_truthy (private_key host_data)) eqn:Ek;
    [destruct (private_key host_data); [|discriminate]|]);
  cbn -[set_variable]; destruct (become host_data) as [[|? ?]|];
  eexists; (split; [reflexivity|]);
  rewrite ?andb_false_r, !set_variable_lookup; cbn; repeat split; reflexivity.
Qed.

Lemma BaseHost_variables host_data uuid a p :
  ip host_data = Some a -> port host_data = Some p ->
  exists h', BaseHost host_data uuid = Ret (set_extra_variables host_data h')
    /\ h_name h' = host_name_of host_data
    /\ h_uuid h' = uuid
    /\ h_vars h' !! "ansible_host" = Some (VStr a)
    /\ h_vars h' !! "ansible_port" = Some (VInt p).
Proof.
  intros Hi Hp. unfold BaseHost.
  destruct (set_required_variables_address host_data
              (Host_init (str_or (hostname host_data) (ip host_data))
                 match port host_data with
                 | Some p0 => if (p0 =? 0)%Z then 22%Z else p0
                 | None => 22%Z
                 end uuid) a p Hi Hp) as (h' & Hreq & Hn & Hu & Ha & Hport).
  rewrite Hreq. exists h'. repeat split; try assumption.
  - rewrite Hn. unfold Host_init. by destruct (negb _).
  - rewrite Hu. unfold Host_init. by destruct (negb _).
Qed.

(** C4, as amended: the extra variables are merged last and shadow every
    variable set before them, the address and the port included;
    [ansible_host] and [ansible_port] are the descriptor's ip and port
    whenever the extra variables do not bind them. *)
Theorem extra_variables_merged_last host_data uuid a p :
  ip host_data = Some a -> port host_data = Some p ->
  exists h, BaseHost host_data uuid = Ret h
    /\ (forall k v, dict_get (reverse (default [] (vars host_data))) k = Some v ->
          h_vars h !! k = Some v)
    /\ (dict_get (default [] (vars host_data)) "ansible_host" = None ->
          h_vars h !! "ansible_host" = Some (VStr a))
    /\ (dict_get (default [] (vars host_data)) "ansible_port" = None ->
          h_vars h !! "ansible_port" = Some (VInt p)).
Proof.
  intros Hi Hp.
  destruct (BaseHost_variables host_data uuid a p Hi Hp) as (h' & Hb & _ & _ & Ha & Hport).
  eexists. split; [exact Hb|]. repeat split.
  - intros k v Hk. rewrite set_extra_variables_lookup, Hk. reflexivity.
  - intros Hk. rewrite set_extra_variables_lookup, (dict_get_reverse_None _ _ Hk). exact Ha.
  - intros Hk. rewrite set_extra_variables_lookup, (dict_get_reverse_None _ _ Hk). exact Hport.
Qed.

Lemma extra_variables_merged_last_witness :
  exists h, BaseHost git_host 0 = Ret h
    /\ h_vars h !! "love" = Some (VStr "yes")
    /\ h_vars h !! "ansible_host" = Some (VStr "192.168.5.2")
    /\ h_vars h !! "ansible_port" = Some (VInt 22).
Proof.
  destruct (extra_variables_merged_last git_host 0 "192.168.5.2" 22%Z eq_refl eq_refl)
    as (h & Hb & Hlast & Ha & Hp).
  exists h. split; [exact Hb|]. split; [|split].
  - apply Hlast. reflexivity.
  - apply Ha. reflexivity.
  - apply Hp. reflexivity.
Defined.

(** C4 as stated fails: extra variables that bind [ansible_host] and
    [ansible_port] replace the descriptor's address and port. *)
Lemma extra_variables_spare_address_counterexample :
  ~ (forall host_data uuid h a p,
       BaseHost host_data uuid = Ret h ->
       ip host_data = Some a -> port host_data = Some p ->
       h_vars h !! "ansible_host" = Some (VStr a)
       /\ h_vars h !! "ansible_port" = Some (VInt p)).
Proof.
  intros H.
  destruct (BaseHost_variables redirected_host 0 "192.168.5.2" 22%Z eq_refl eq_refl)
    as (h' & Hb & _).
  destruct (H _ _ _ "192.168.5.2" 22%Z Hb eq_refl eq_refl) as [Ha _].
  rewrite set_extra_variables_lookup in Ha. discriminate.
Qed.

(** *** Inventory Builder *)

Lemma name_eqb_eq a b : name_eqb a b = true <-> a = b.
Proof.
  destruct a as [x|], b as [y|]; cbn; try (split; congruence).
  rewrite String.eqb_eq. split; congruence.
Qed.

Lemma has_name_In (h : Host) (l : list Host) :
  existsb (fun h' => name_eqb (h_name h') (h_name h)) l = true
  <-> In (h_name h) (map h_name l).
Proof.
  rewrite existsb_exists, in_map_iff. split.
  - intros (x & Hx & He). apply name_eqb_eq in He. eauto.
  - intros (x & He & Hx). exists x. split; [exact Hx|]. by apply name_eqb_eq.
Qed.

Lemma add_host_grown g h : grown h (group_hosts g) (group_hosts (add_host g h)).
Proof.
  unfold add_host.
  destruct (existsb _ (group_hosts g)) eqn:E; [by left|].
  right. split; [reflexivity|]. rewrite <- has_name_In. congruence.
Qed.

Lemma add_host_present g h :
  In (h_name h) (map h_name (group_hosts g)) -> add_host g h = g.
Proof. intros H. apply has_name_In in H. unfold add_host. by rewrite H. Qed.

Lemma grown_refl h l : grown h l l.
Proof. by left. Qed.

Lemma grown_trans h l1 l2 l3 : grown h l1 l2 -> grown h l2 l3 -> grown h l1 l3.
Proof.
  intros [->|[-> H1]] [->|[-> H2]].
  - by left.
  - by right.
  - by right.
  - exfalso. apply H2. rewrite map_app, in_app_iff. right. by left.
Qed.

Lemma hosts_of_group_add_host inv g h name :
  hosts_of (group_add_host inv g h) name
  = if decide (g = name)
    then match get_group inv g with
         | Some grp => group_hosts (add_host grp h)
         | None => []
         end
    else hosts_of inv name.
Proof.
  unfold hosts_of, get_group, group_add_host. cbn.
  rewrite lookup_alter. destruct (decide (g = name)) as [->|]; [|reflexivity].
  by destruct (inv_groups inv !! name).
Qed.

Lemma group_add_host_grown inv g h name :
  grown h (hosts_of inv name) (hosts_of (group_add_host inv g h) name).
Proof.
  rewrite hosts_of_group_add_host. destruct (decide (g = name)) as [->|].
  - unfold hosts_of. destruct (get_group inv name); [apply add_host_grown | by left].
  - by left.
Qed.

Lemma get_group_group_add_host inv g h name :
  is_Some (get_group inv name) ->
  is_Some (get_group (group_add_host inv g h) name).
Proof.
  unfold get_group, group_add_host. cbn. rewrite lookup_alter.
  destruct (decide (g = name)) as [->|]; [|done].
  intros [x ->]. by eexists.
Qed.

Lemma add_group_spec inv name :
  name <> EmptyString ->
  exists inv', add_group inv name = Ret inv'
    /\ inv_hosts inv' = inv_hosts inv
    /\ is_Some (get_group inv' name)
    /\ (forall n, is_Some (get_group inv n) -> is_Some (get_group inv' n))
    /\ (forall n, hosts_of inv' n = hosts_of inv n).
Proof.
  intros Hne. unfold add_group.
  apply String.eqb_neq in Hne. rewrite Hne.
  destruct (inv_groups inv !! name) as [g|] eqn:E.
  - exists inv. repeat split; try done.
  - eexists. split; [reflexivity|]. unfold get_group, hosts_of, get_group. cbn.
    repeat split.
    + rewrite lookup_insert_eq. by eexists.
    + intros n Hn. rewrite lookup_insert. by destruct (decide (name = n)).
    + intros n. rewrite lookup_insert. destruct (decide (name = n)) as [<-|]; [|done].
      by rewrite E.
Qed.

Lemma add_to_groups_spec groups_data : forall inv h,
  Forall (fun g => g <> EmptyString) groups_data ->
  exists inv', add_to_groups inv groups_data h = Ret inv'
    /\ inv_hosts inv' = inv_hosts inv
    /\ (forall n, is_Some (get_group inv n) -> is_Some (get_group inv' n))
    /\ (forall n, grown h (hosts_of inv n) (hosts_of inv' n)).
Proof.
  induction groups_data as [|g tl IH]; intros inv h Hne.
  - exists inv. repeat split; try done. intros. apply grown_refl.
  - inversion Hne as [|? ? Hg Htl]; subst. cbn [add_to_groups].
    assert (exists inv1,
               match get_group inv g with
               | Some _ => Ret inv
               | None => add_group inv g
               end = Ret inv1
               /\ inv_hosts inv1 = inv_hosts inv
               /\ is_Some (get_group inv1 g)
               /\ (forall n, is_Some (get_group inv n) -> is_Some (get_group inv1 n))
               /\ (forall n, hosts_of inv1 n = hosts_of inv n))
      as (inv1 & -> & Hh1 & Hg1 & Hk1 & Ho1).
    { destruct (get_group inv g) eqn:E.
      - exists inv. repeat split; try done.
      - by apply add_group_spec. }
    cbn. destruct Hg1 as [grp ->].
    destruct (IH (group_add_host inv1 g h) h Htl) as (inv' & -> & Hh & Hk & Ho).
    exists inv'. repeat split.
    + by rewrite Hh.
    + intros n Hn. apply Hk, get_group_group_add_host, Hk1, Hn.
    + intros n. eapply grown_trans; [|apply Ho].
      rewrite <- Ho1. apply group_add_host_grown.
Qed.

Lemma set_extra_variables_identity host_data h :
  h_name (set_extra_variables host_data h) = h_name h
  /\ h_uuid (set_extra_variables host_data h) = h_uuid h.
Proof.
  unfold set_extra_variables. generalize (default [] (vars host_data)) as extra.
  intros extra. revert h. induction extra as [|kv extra IH]; intros h; [done|].
  cbn [fold_left]. destruct (IH (set_variable h (fst kv) (snd kv))) as [-> ->]. done.
Qed.

Lemma BaseHost_identity host_data uuid :
  is_Some (ip host_data) -> is_Some (port host_data) ->
  exists h, BaseHost host_data uuid = Ret h
    /\ h_name h = host_name_of host_data /\ h_uuid h = uuid.
Proof.
  intros [a Ha] [p Hp].
  destruct (BaseHost_variables host_data uuid a p Ha Hp) as (h' & Hb & Hn & Hu & _).
  eexists. split; [exact Hb|].
  destruct (set_extra_variables_identity host_data h') as [-> ->]. done.
Qed.

(** Hosts already seen are dropped, the others are kept in order. *)
Lemma dedup_hosts_fresh (l : list Host) : forall seen k,
  NoDup (map h_uuid l) ->
  (forall h, In h l -> ~ In (h_uuid h) seen) ->
  dedup_hosts seen (l ++ k) = l ++ dedup_hosts (rev (map h_uuid l) ++ seen) k.
Proof.
  induction l as [|h l IH]; intros seen k Hnd Hfresh; [reflexivity|].
  cbn [app dedup_hosts map rev]. inversion Hnd as [|? ? Hh Hl]; subst.
  destruct (existsb (Nat.eqb (h_uuid h)) seen) eqn:E.
  - exfalso. apply existsb_exists in E as (x & Hx & He).
    apply Nat.eqb_eq in He. subst. apply (Hfresh h); [by left | exact Hx].
  - rewrite IH.
    + by rewrite <- app_assoc.
    + exact Hl.
    + intros h' Hin [Heq|Hs].
      * apply Hh. rewrite Heq. apply list_elem_of_In, in_map, Hin.
      * apply (Hfresh h'); [by right | exact Hs].
Qed.

Lemma dedup_hosts_seen (k : list Host) seen :
  (forall h, In h k -> In (h_uuid h) seen) -> dedup_hosts seen k = [].
Proof.
  induction k as [|h k IH]; intros Hs; [reflexivity|]. cbn.
  assert (E : existsb (Nat.eqb (h_uuid h)) seen = true).
  { apply existsb_exists. exists (h_uuid h). split; [apply Hs; by left|].
    apply Nat.eqb_refl. }
  rewrite E. apply IH. intros h' Hin. apply Hs. by right.
Qed.

Lemma parse_loop_builds host_list : forall uuid inv names,
  built inv uuid names ->
  Forall complete host_list ->
  NoDup (names ++ map host_name_of host_list) ->
  Forall (fun d => hostname d <> Some "all") host_list ->
  exists inv', parse_loop uuid host_list inv = Ret inv'
    /\ built inv' (uuid + length host_list) (names ++ map host_name_of host_list).
Proof.
  induction host_list as [|d tl IH]; intros uuid inv names Hb Hc Hnd Hall.
  - exists inv. cbn. rewrite Nat.add_0_r, app_nil_r. done.
  - inversion Hc as [|? ? (Hhn & Hip & Hport & Hgr) Hctl]; subst.
    inversion Hall as [|? ? Hnot Halltl]; subst.
    destruct Hb as (Ha & Hu & Hnames & Huuids & Hung & Hkey).
    cbn [parse_loop].
    destruct (BaseHost_identity d uuid Hip Hport) as (h & -> & Hname & Hid).
    destruct Hhn as [key Hkeyd]. rewrite Hkeyd. cbn [obind require].
    set (inv0 := {| inv_hosts := <[key:=h]> (inv_hosts inv);
                    inv_groups := inv_groups inv |}).
    assert (Hsame : forall n, hosts_of inv0 n = hosts_of inv n) by done.
    assert (exists inv1,
               match groups d with
               | Some ((_ :: _) as groups_data) => add_to_groups inv0 groups_data h
               | _ => Ret (group_add_host inv0 "ungrouped" h)
               end = Ret inv1
               /\ inv_hosts inv1 = inv_hosts inv0
               /\ (forall n, is_Some (get_group inv0 n) -> is_Some (get_group inv1 n))
               /\ (forall n, grown h (hosts_of inv0 n) (hosts_of inv1 n)))
      as (inv1 & -> & Hh1 & Hk1 & Hg1).
    { destruct (groups d) as [[|g gs]|] eqn:Eg.
      - eexists. split; [reflexivity|]. repeat split.
        + intros n. apply get_group_group_add_host.
        + intros n. apply group_add_host_grown.
      - apply add_to_groups_spec. exact Hgr.
      - eexists. split; [reflexivity|]. repeat split.
        + intros n. apply get_group_group_add_host.
        + intros n. apply group_add_host_grown. }
    cbn [obind].
    assert (Hfresh : ~ In (h_name h) (map h_name (hosts_of inv "all"))).
    { rewrite Hnames, Hname. intros Hin.
      apply NoDup_app in Hnd as (_ & Hdis & _).
      apply (Hdis (host_name_of d)); [by apply list_elem_of_In|]. cbn. by left. }
    assert (Hall1 : hosts_of (group_add_host inv1 "all" h) "all"
                    = hosts_of inv "all" ++ [h]).
    { rewrite hosts_of_group_add_host. destruct (decide ("all" = "all")); [|done].
      destruct (Hk1 "all" Ha) as [grp Hgrp]. rewrite Hgrp.
      assert (Hgh : group_hosts grp = hosts_of inv1 "all")
        by (unfold hosts_of; by rewrite Hgrp).
      destruct (Hg1 "all") as [Heq|[Heq _]]; rewrite Hsame in Heq.
      - pose proof (add_host_grown grp h) as [Hk|[Hk _]]; rewrite Hgh, Heq in Hk.
        + exfalso. unfold add_host in Hk.
          destruct (existsb _ (group_hosts grp)) eqn:E.
          * apply has_name_In in E. rewrite Hgh, Heq in E. by apply Hfresh.
          * cbn in Hk. rewrite Hgh, Heq in Hk.
            apply (f_equal length) in Hk. rewrite length_app in Hk. cbn in Hk. lia.
        + exact Hk.
      - rewrite add_host_present; [by rewrite Hgh|].
        rewrite Hgh, Heq, map_app, in_app_iff. right. by left. }
    assert (Hung1 : forall h', In h' (hosts_of (group_add_host inv1 "all" h) "ungrouped")
                               -> h_uuid h' < S uuid).
    { intros h' Hin. rewrite hosts_of_group_add_host in Hin.
      destruct (decide ("all" = "ungrouped")); [done|].
      destruct (Hg1 "ungrouped") as [Heq|[Heq _]]; rewrite Hsame in Heq;
        rewrite Heq in Hin.
      - specialize (Hung h' Hin). lia.
      - apply in_app_iff in Hin as [Hin|[<-|[]]]; [specialize (Hung h' Hin)|]; lia. }
    destruct (IH (S uuid) (group_add_host inv1 "all" h)
                 (names ++ [host_name_of d])) as (inv' & -> & Hb').
    + repeat split.
      * apply get_group_group_add_host, Hk1, Ha.
      * apply get_group_group_add_host, Hk1, Hu.
      * rewrite Hall1, map_app, Hnames. cbn. by rewrite Hname.
      * rewrite Hall1, map_app, Huuids, seq_S. cbn. by rewrite Hid.
      * exact Hung1.
      * cbn. rewrite Hh1. cbn. rewrite lookup_insert_ne; [exact Hkey|].
        intros ->. by apply Hnot.
    + exact Hctl.
    + rewrite <- app_assoc. exact Hnd.
    + exact Halltl.
    + exists inv'. split; [reflexivity|].
      cbn [length map]. rewrite Nat.add_succ_r, <- app_assoc in *. exact Hb'.
Qed.

Lemma built_resolves_all inv uuid names :
  built inv uuid names ->
  map h_name (get_matched_hosts_all inv) = names.
Proof.
  intros (_ & _ & Hnames & Huuids & Hung & Hkey).
  unfold get_matched_hosts_all. rewrite Hkey.
  rewrite dedup_hosts_fresh.
  - rewrite dedup_hosts_seen; [by rewrite app_nil_r|].
    intros h Hin. rewrite app_nil_r, <- in_rev, Huuids. apply in_seq.
    specialize (Hung h Hin). lia.
  - rewrite Huuids. apply NoDup_ListNoDup, seq_NoDup.
  - intros h _ [].
Qed.

Lemma Inventory_init_built : built Inventory_init 0 [].
Proof. unfold built. repeat split; try done; by eexists. Qed.

(** The loop of [parse_sources] reads [host_data['hostname']]: a
    descriptor without that key builds no inventory, although [BaseHost]
    would name its host by the ip. *)
Lemma parse_sources_requires_hostname :
  BaseInventory [address_only_host] = Raise (KeyError "hostname")
  /\ match BaseHost address_only_host 0 with
     | Ret h => h_name h
     | Raise _ => None
     end = Some "192.168.5.3".
Proof. split; vm_compute; reflexivity. Qed.

(** C5, as amended: for descriptors that each carry a hostname, an ip and a
    port, whose host names (the hostname, or the ip when the hostname is
    empty) are pairwise distinct and none of whose hostnames is [all], the
    inventory is built and the pattern [all] resolves to one host per
    descriptor, in order, each under its name. *)
Theorem all_resolves_to_each_named_host (host_list : list HostData) :
  Forall complete host_list ->
  NoDup (map host_name_of host_list) ->
  Forall (fun d => hostname d <> Some "all") host_list ->
  exists inventory, BaseInventory host_list = Ret inventory
    /\ map h_name (get_matched_hosts_all inventory) = map host_name_of host_list
    /\ length (get_matched_hosts_all inventory) = length host_list
    /\ NoDup (map h_name (get_matched_hosts_all inventory)).
Proof.
  intros Hc Hnd Hall.
  destruct (parse_loop_builds host_list 0 Inventory_init [] Inventory_init_built
              Hc Hnd Hall) as (inv & Hp & Hb).
  exists inv. split; [exact Hp|].
  pose proof (built_resolves_all _ _ _ Hb) as Hn. cbn in Hn.
  split; [exact Hn|]. split.
  - rewrite <- (length_map h_name), Hn. apply length_map.
  - by rewrite Hn.
Qed.

Lemma all_resolves_to_each_named_host_witness :
  exists inventory, BaseInventory [git_host; k8s_host] = Ret inventory
    /\ map h_name (get_matched_hosts_all inventory) = [Some "git"; Some "k8s"].
Proof.
  destruct (all_resolves_to_each_named_host [git_host; k8s_host])
    as (inv & Hb & Hn & _).
  - constructor; [|constructor; [|constructor]];
      (unfold complete; cbn; repeat split; try (by eexists);
       repeat (constructor; [discriminate|]); constructor).
  - cbn. apply NoDup_cons. split; [|apply NoDup_singleton].
    intros Hin. apply list_elem_of_In in Hin. destruct Hin as [Hin|[]]. discriminate.
  - repeat (constructor; [discriminate|]). constructor.
  - exists inv. split; [exact Hb | exact Hn].
Defined.

(** C5 as stated fails: two descriptors with the same hostname yield one
    host in [all]. *)
Lemma all_counts_descriptors_counterexample :
  ~ (forall host_list inventory,
       BaseInventory host_list = Ret inventory ->
       length (get_matched_hosts_all inventory) = length host_list).
Proof.
  intros H.
  destruct (BaseInventory [git_host; git_host]) as [inv|e] eqn:E.
  - specialize (H _ _ E).
    assert (Hone : match BaseInventory [git_host; git_host] with
                   | Ret inv => length (get_matched_hosts_all inv)
                   | Raise _ => 0
                   end = 1) by (vm_compute; reflexivity).
    rewrite E, H in Hone. discriminate.
  - assert (Hret : match BaseInventory [git_host; git_host] with
                   | Ret _ => true
                   | Raise _ => false
                   end = true) by (vm_compute; reflexivity).
    rewrite E in Hret. discriminate.
Qed.

Ltac unfold_engine :=
  unfold run_module, run_cmd, run_script, run_copy, run_modules,
    checked_module, run_playbook, try_finally, try_except, report,
    report_error, delay, res_append, close_channel, call, lift, emit,
    set_tqm, set_playbook, set_callback, get_state, mbind, mret, mraise in *.

(** Case analysis on what the library and the callback object answer. *)
Ltac engine_cases :=
  repeat (cbn;
          match goal with
          | |- context [is_Exception ?e] => destruct (is_Exception e) eqn:?
          | |- context [TaskQueueManager_cleanup ?w] =>
              destruct (TaskQueueManager_cleanup w) eqn:?
          | |- context [TaskQueueManager_new ?w] =>
              destruct (TaskQueueManager_new w) eqn:?
          | |- context [TaskQueueManager_run ?w ?p] =>
              destruct (TaskQueueManager_run w p) as [? [?|]] eqn:?
          | |- context [PlaybookExecutor_run ?w ?p] =>
              destruct (PlaybookExecutor_run w p) as [? [?|]] eqn:?
          | |- context [PlaybookExecutor_new ?w ?p] =>
              destruct (PlaybookExecutor_new w p) as [[[|]]|?] eqn:?
          | |- context [Play_load ?w ?p] => destruct (Play_load w p) eqn:?
          | |- context [start_time ?c] => destruct (start_time c) eqn:?
          | |- context [res ?c] => destruct (res c) as [[|? ?]|] eqn:?
          | |- context [String.eqb ?g EmptyString] =>
              destruct (String.eqb g EmptyString) eqn:?
          | |- context [match ?g with Some _ => _ | None => _ end] =>
              is_var g; destruct g
          end);
  cbn.

Lemma dispatched_app t1 t2 : dispatched (t1 ++ t2) = dispatched t1 ++ dispatched t2.
Proof. induction t1 as [|[] t1 IH]; cbn; congruence. Qed.

Lemma releases_app t1 t2 : releases (t1 ++ t2) = releases t1 + releases t2.
Proof. induction t1 as [|[] t1 IH]; cbn; lia. Qed.

Lemma purges_app t1 t2 : purges (t1 ++ t2) = purges t1 + purges t2.
Proof. induction t1 as [|[] t1 IH]; cbn; lia. Qed.

Lemma run_module_dispatches w module_name module_args hosts s :
  Play_load w (play_source module_name module_args hosts) = None ->
  TaskQueueManager_new w = None ->
  dispatched (trace (snd (run_module w module_name module_args hosts s)))
  = dispatched (trace s) ++ [play_source module_name module_args hosts].
Proof.
  intros Hl Hn. unfold_engine. rewrite Hl, Hn.
  engine_cases; rewrite ?dispatched_app; cbn; rewrite ?app_nil_r; reflexivity.
Qed.

Lemma checked_module_rejects w module_name cmds hosts s :
  fst (check_ansible_variable cmds) = true ->
  dispatched (trace (snd (checked_module w module_name cmds hosts s)))
  = dispatched (trace s).
Proof.
  intros Hc. unfold_engine.
  destruct (check_ansible_variable cmds) as [check variable]. cbn in Hc. subst check.
  engine_cases; rewrite ?dispatched_app; cbn; rewrite ?app_nil_r; reflexivity.
Qed.

Lemma finally_keeps_dispatched (body : M unit) (final : M unit) s :
  (forall s', dispatched (trace (snd (final s'))) = dispatched (trace s')) ->
  dispatched (trace (snd (try_finally body final s)))
  = dispatched (trace (snd (body s))).
Proof.
  intros Hf. unfold try_finally. destruct (body s) as [r s']. specialize (Hf s').
  destruct (final s') as [[|] s'']; cbn in *; exact Hf.
Qed.

Lemma run_cmd_rejects w cmds hosts group s :
  fst (check_ansible_variable cmds) = true ->
  dispatched (trace (snd (run_cmd w cmds hosts group s))) = dispatched (trace s).
Proof.
  intros Hc. unfold run_cmd. rewrite finally_keeps_dispatched.
  - by apply checked_module_rejects.
  - intros s'. unfold_engine. engine_cases; rewrite ?dispatched_app; cbn; rewrite ?app_nil_r; reflexivity.
Qed.

Lemma run_script_rejects w cmds hosts group s :
  fst (check_ansible_variable cmds) = true ->
  dispatched (trace (snd (run_script w cmds hosts group s))) = dispatched (trace s).
Proof.
  intros Hc. unfold run_script. rewrite finally_keeps_dispatched.
  - by apply checked_module_rejects.
  - intros s'. unfold_engine. engine_cases; rewrite ?dispatched_app; cbn; rewrite ?app_nil_r; reflexivity.
Qed.

Lemma run_copy_rejects w cmds hosts group s :
  fst (check_ansible_variable cmds) = true ->
  dispatched (trace (snd (run_copy w cmds hosts group s))) = dispatched (trace s).
Proof.
  intros Hc. unfold run_copy. rewrite finally_keeps_dispatched.
  - by apply checked_module_rejects.
  - intros s'. unfold_engine. engine_cases; rewrite ?dispatched_app; cbn; rewrite ?app_nil_r; reflexivity.
Qed.

Lemma run_modules_rejects w cmds module hosts group s :
  fst (check_ansible_variable cmds) = true ->
  dispatched (trace (snd (run_modules w cmds module hosts group s))) = dispatched (trace s).
Proof.
  intros Hc. unfold run_modules. rewrite finally_keeps_dispatched.
  - by apply checked_module_rejects.
  - intros s'. unfold_engine. engine_cases; rewrite ?dispatched_app; cbn; rewrite ?app_nil_r; reflexivity.
Qed.

Lemma playbooks_run_app t1 t2 :
  playbooks_run (t1 ++ t2) = playbooks_run t1 ++ playbooks_run t2.
Proof. induction t1 as [|[] t1 IH]; cbn; congruence. Qed.

Lemma run_playbook_rejects w playbook_yml content group s :
  open_read w playbook_yml = Ret content ->
  fst (check_ansible_variable content) = true ->
  playbooks_run (trace (snd (run_playbook w playbook_yml group s)))
  = playbooks_run (trace s).
Proof.
  intros Hr Hc. unfold_engine. rewrite Hr. cbn.
  destruct (check_ansible_variable content) as [check variable]. cbn in Hc. subst check.
  engine_cases; rewrite ?playbooks_run_app; cbn; rewrite ?app_nil_r; reflexivity.
Qed.

(** *** The unguarded [finally] clause of [run_playbook] *)

(** When the file cannot be read, [playbook] is still [None] in the
    [finally] clause, and [playbook._tqm] raises. *)
Lemma run_playbook_unreadable w playbook_yml group s e :
  open_read w playbook_yml = Raise e ->
  fst (run_playbook w playbook_yml group s)
  = Raise (AttributeError "'NoneType' object has no attribute '_tqm'").
Proof.
  intros Hr. unfold_engine. rewrite Hr. engine_cases; reflexivity.
Qed.

(** The same happens when the filter rejects the playbook. *)
Lemma run_playbook_rejected w playbook_yml content group s :
  open_read w playbook_yml = Ret content ->
  fst (check_ansible_variable content) = true ->
  fst (run_playbook w playbook_yml group s)
  = Raise (AttributeError "'NoneType' object has no attribute '_tqm'").
Proof.
  intros Hr Hc. unfold_engine. rewrite Hr. cbn.
  destruct (check_ansible_variable content) as [check variable]. cbn in Hc. subst check.
  engine_cases; reflexivity.
Qed.

(** And when the executor cannot be constructed. *)
Lemma run_playbook_no_executor w playbook_yml content group s e :
  open_read w playbook_yml = Ret content ->
  fst (check_ansible_variable content) = false ->
  PlaybookExecutor_new w playbook_yml = Raise e ->
  fst (run_playbook w playbook_yml group s)
  = Raise (AttributeError "'NoneType' object has no attribute '_tqm'").
Proof.
  intros Hr Hc He. unfold_engine. rewrite Hr. cbn.
  destruct (check_ansible_variable content) as [check variable]. cbn in Hc. subst check.
  rewrite He. engine_cases; reflexivity.
Qed.

(** [Play().load] is called before the [try] of [run_module]: what it raises
    reaches the caller, and nothing is torn down. *)
Lemma run_module_load_failure w module_name module_args hosts s e :
  Play_load w (play_source module_name module_args hosts) = Some e ->
  run_module w module_name module_args hosts s = (Raise e, s).
Proof. intros Hl. unfold_engine. rewrite Hl. reflexivity. Qed.

(** Once the play is loaded, [run_module] releases the runtime it created
    (if any) and purges the scratch directory exactly once, and an
    [Exception] of the runtime does not reach the caller. *)
Lemma run_module_teardown_once w module_name module_args hosts s :
  Play_load w (play_source module_name module_args hosts) = None ->
  TaskQueueManager_cleanup w = None ->
  let s' := snd (run_module w module_name module_args hosts s) in
  purges (trace s') = purges (trace s) + 1
  /\ releases (trace s')
     = releases (trace s) + match TaskQueueManager_new w with Some _ => 0 | None => 1 end.
Proof.
  intros Hl Hc. unfold_engine. rewrite Hl, Hc.
  engine_cases; rewrite ?purges_app, ?releases_app; cbn; lia.
Qed.

Lemma run_module_contains_exceptions w module_name module_args hosts s :
  Play_load w (play_source module_name module_args hosts) = None ->
  TaskQueueManager_cleanup w = None ->
  (forall e, TaskQueueManager_new w = Some e -> is_Exception e = true) ->
  (forall evs e, TaskQueueManager_run w (play_source module_name module_args hosts)
                 = (evs, Some e) -> is_Exception e = true) ->
  fst (run_module w module_name module_args hosts s) = Ret tt.
Proof.
  intros Hl Hc Hn Hr. unfold_engine. rewrite Hl, Hc.
  destruct (TaskQueueManager_new w) as [e|] eqn:En.
  - rewrite (Hn e eq_refl). reflexivity.
  - destruct (TaskQueueManager_run w _) as [evs [e|]] eqn:Er; cbn.
    + rewrite (Hr evs e eq_refl). reflexivity.
    + reflexivity.
Qed.

(** *** Claims about the engine *)

(** C1 (the code departs from it): [run_playbook] on a playbook path whose
    file is missing does not resolve to data: the [finally] clause
    dereferences the [playbook] variable, still [None], and the
    [AttributeError] reaches the caller. *)
Theorem run_playbook_missing_file_propagates :
  fst (run_playbook quiet_world "./hello.yml" None fresh_state)
  = Raise (AttributeError "'NoneType' object has no attribute '_tqm'").
Proof. apply run_playbook_unreadable with (e := Exn "FileNotFoundError" "./hello.yml"). reflexivity. Qed.

(** C2 (the code departs from it): on the rejection path of [run_playbook]
    the clean-up is not guarded by a presence check on [playbook]: it raises
    instead, with no release and no purge of the scratch directory. *)
Theorem run_playbook_rejection_teardown_raises :
  let r := run_playbook
             (world_with_file "./hello.yml" "debug: msg={{ ansible_ssh_pass }}")
             "./hello.yml" None logging_state in
  fst r = Raise (AttributeError "'NoneType' object has no attribute '_tqm'")
  /\ releases (trace (snd r)) = 0
  /\ purges (trace (snd r)) = 0.
Proof. vm_compute. auto. Qed.

(** C9: [run_module] hands its arguments to the runtime whatever the filter
    would say about them: the play given to [tqm.run] is the dictionary
    whose one task has [module_name] as its module and [module_args],
    unchanged, as its arguments.  The five guarded entry points run nothing
    when the filter flags their text; the WebSocket endpoint forwards the
    received command verbatim, as the arguments of a [shell] task, to
    [run_module]. *)
Theorem run_module_bypasses_filter json_dumps (w : World) :
  TaskQueueManager_new w = None ->
  (forall module_name module_args hosts s play,
      play = VDict [ ("name", VStr "Ansible Run Module");
                     ("hosts", VStr hosts);
                     ("gather_facts", VStr "no");
                     ("tasks", VList [ VDict [ ("action",
                        VDict [ ("module", VStr module_name);
                                ("args", module_args) ]) ] ]) ] ->
      Play_load w play = None ->
      dispatched (trace (snd (run_module w module_name module_args hosts s)))
      = dispatched (trace s) ++ [play])
  /\ (forall cmds hosts group s,
         fst (check_ansible_variable cmds) = true ->
         dispatched (trace (snd (run_cmd w cmds hosts group s))) = dispatched (trace s)
         /\ (forall module,
               dispatched (trace (snd (run_modules w cmds module hosts group s)))
               = dispatched (trace s))
         /\ dispatched (trace (snd (run_script w cmds hosts group s))) = dispatched (trace s)
         /\ dispatched (trace (snd (run_copy w cmds hosts group s))) = dispatched (trace s)
         /\ (forall playbook_yml,
               open_read w playbook_yml = Ret cmds ->
               playbooks_run (trace (snd (run_playbook w playbook_yml group s)))
               = playbooks_run (trace s)))
  /\ (forall data inventory play,
         play = VDict [ ("name", VStr "Ansible Run Module");
                        ("hosts", VStr (default "test" (msg_hostname data)));
                        ("gather_facts", VStr "no");
                        ("tasks", VList [ VDict [ ("action",
                           VDict [ ("module", VStr "shell");
                                   ("args", VStr (default "ls -lha /tmp"
                                                    (msg_cmd data))) ]) ] ]) ] ->
         BaseInventory (hostdat data) = Ret inventory ->
         Play_load w play = None ->
         dispatched (trace (snd (websocket_endpoint json_dumps w data))) = [play]).
Proof.
  intros Hn. split; [|split].
  - intros module_name module_args hosts s play -> Hl.
    exact (run_module_dispatches w module_name module_args hosts s Hl Hn).
  - intros cmds hosts group s Hc. repeat split.
    + by apply run_cmd_rejects.
    + intros. by apply run_modules_rejects.
    + by apply run_script_rejects.
    + by apply run_copy_rejects.
    + intros. by eapply run_playbook_rejects.
  - intros data inventory play -> Hi Hl. unfold websocket_endpoint. rewrite Hi.
    pose proof (run_module_dispatches w "shell"
                  (VStr (default "ls -lha /tmp" (msg_cmd data)))
                  (default "test" (msg_hostname data)) fresh_state Hl Hn) as Hd.
    destruct (run_module w "shell" _ _ fresh_state) as [[[]|e] s']; exact Hd.
Qed.

(** A deny-listed name sent to the endpoint is executed: it is inside the
    play handed to the runtime; the same text given to [run_cmd] is not. *)
Lemma run_module_bypasses_filter_witness :
  dispatched (trace (snd (websocket_endpoint (fun _ => EmptyString) quiet_world
      {| msg_hostname := Some "git"; msg_host := Some "192.168.5.2";
         msg_port := Some 22%Z; msg_pass := Some (VStr "x");
         msg_cmd := Some "echo {{ ansible_ssh_pass }}" |})))
  = [VDict [ ("name", VStr "Ansible Run Module");
             ("hosts", VStr "git");
             ("gather_facts", VStr "no");
             ("tasks", VList [ VDict [ ("action",
                VDict [ ("module", VStr "shell");
                        ("args", VStr "echo {{ ansible_ssh_pass }}") ]) ] ]) ]]
  /\ check_ansible_variable "echo {{ ansible_ssh_pass }}" = (true, Some "ansible_ssh_pass")
  /\ dispatched (trace (snd (run_cmd quiet_world "echo {{ ansible_ssh_pass }}"
                               "git" None fresh_state))) = [].
Proof.
  destruct (run_module_bypasses_filter (fun _ => EmptyString) quiet_world eq_refl)
    as (_ & Hguard & Hws).
  split; [|split].
  - eapply Hws; vm_compute; reflexivity.
  - vm_compute. reflexivity.
  - apply (Hguard "echo {{ ansible_ssh_pass }}" "git" None fresh_state).
    vm_compute. reflexivity.
Defined.

(** *** Reading the first result *)

(** [get_result] prefers ok to failed to unreachable. *)
Lemma get_result_preference json_dumps (self : CallbackModule) :
  (forall x l, host_ok self = x :: l -> get_result json_dumps self = Some (json_dumps x))
  /\ (forall x l, host_ok self = [] -> host_failed self = x :: l ->
        get_result json_dumps self = Some (json_dumps x))
  /\ (forall x l, host_ok self = [] -> host_failed self = [] ->
        host_unreachable self = x :: l ->
        get_result json_dumps self = Some (json_dumps x)).
Proof.
  unfold get_result, get_res, first_dumped. repeat split; intros.
  - rewrite H. reflexivity.
  - rewrite H, H0. reflexivity.
  - rewrite H, H0, H1. reflexivity.
Qed.

(** With empty buckets and an error text, the result is the encoding of the
    first character of the text. *)
Lemma get_result_error_text json_dumps (self : CallbackModule) c t :
  host_ok self = [] -> host_failed self = [] -> host_unreachable self = [] ->
  error self = String c t ->
  get_result json_dumps self = Some (json_dumps (VStr (String c EmptyString))).
Proof.
  intros Ho Hf Hu He. unfold get_result, get_res, first_dumped.
  rewrite Ho, Hf, Hu, He. reflexivity.
Qed.

(** C6 (the code departs from it): after a run that matched no host, the
    result is not the encoding of the global error but the encoding of its
    first character, the one-letter string [s]. *)
Theorem get_result_encodes_first_character json_dumps :
  get_result json_dumps
    (results_callback (snd (run_module no_match_world "shell" (VStr "ls") "nohost"
                              fresh_state)))
  = Some (json_dumps (VStr "s"))
  /\ error (results_callback (snd (run_module no_match_world "shell" (VStr "ls")
                                     "nohost" fresh_state)))
     = "skipping: No match hosts.".
Proof. split; reflexivity. Qed.

(** C10: with the three buckets and the error text empty, [get_result] is
    [None], and that is what the endpoint hands to [send_json]. *)
Theorem get_result_none_when_empty json_dumps (self : CallbackModule) :
  host_ok self = [] -> host_failed self = [] -> host_unreachable self = [] ->
  error self = EmptyString ->
  get_result json_dumps self = None
  /\ (forall w data inventory s,
        BaseInventory (hostdat data) = Ret inventory ->
        run_module w "shell" (VStr (default "ls -lha /tmp" (msg_cmd data)))
          (default "test" (msg_hostname data)) fresh_state = (Ret tt, s) ->
        results_callback s = self ->
        websocket_endpoint json_dumps w data = (Ret None, s)).
Proof.
  intros Ho Hf Hu He.
  assert (Hnone : get_result json_dumps self = None).
  { unfold get_result, get_res. rewrite Ho, Hf, Hu, He. reflexivity. }
  split; [exact Hnone|].
  intros w data inventory s Hi Hr Hs. unfold websocket_endpoint.
  rewrite Hi, Hr, Hs, Hnone. reflexivity.
Qed.

Lemma get_result_none_when_empty_witness :
  get_result (fun _ => "{}") CallbackModule_init = None
  /\ fst (websocket_endpoint (fun _ => "{}") broken_world
        {| msg_hostname := Some "git"; msg_host := Some "192.168.5.2";
           msg_port := Some 22%Z; msg_pass := Some (VStr "x");
           msg_cmd := Some "uptime" |}) = Ret None.
Proof.
  destruct (get_result_none_when_empty (fun _ => "{}") CallbackModule_init
              eq_refl eq_refl eq_refl eq_refl) as [Hg Hw].
  split; [exact Hg|].
  erewrite Hw; [reflexivity | vm_compute; reflexivity | vm_compute; reflexivity | reflexivity].
Defined.

(** *** Facts Summarizer *)

(** The three address fields of an interface do fall back to [unknown]. *)
Lemma get_or_unknown_absent facts name card k :
  getitem facts name = Ret (VDict card) ->
  dict_get card k = None ->
  get_or_unknown facts name k = Ret (VStr "unknown").
Proof.
  intros Hf Hk. unfold get_or_unknown. rewrite Hf. cbn. rewrite Hk.
  rewrite bool_decide_eq_false_2; [reflexivity|]. intros [x Hx]. discriminate.
Qed.

(** No record is produced for a host whose facts lack
    [ansible_product_name]. *)
Lemma server_info_requires_product_name py_str disk_total i result facts :
  getitem i "result" = Ret result ->
  getitem result "ansible_facts" = Ret (VDict facts) ->
  dict_get facts "ansible_product_name" = None ->
  forall info, server_info py_str disk_total i <> Ret info.
Proof.
  intros Hr Hf Hp info. unfold server_info.
  repeat match goal with
         | |- obind ?m _ <> _ =>
             let E := fresh in destruct m eqn:E; cbn; [|discriminate]
         end.
  all: try (rewrite Hr in *; simplify_eq).
  all: try (rewrite Hf in *; simplify_eq).
  unfold getitem in *. rewrite Hp in *. discriminate.
Qed.

(** C7 (the code departs from it): for an ok record whose facts lack
    [ansible_product_name], no record with [server_model = unknown] is
    produced: the lookup raises [KeyError], which leaves
    [get_server_info]. *)
Theorem server_info_missing_model_raises py_str disk_total :
  server_info py_str disk_total ok_record_without_model
  = Raise (KeyError "ansible_product_name")
  /\ fst (get_server_info py_str disk_total
            {| Play_load := fun _ => None;
               TaskQueueManager_new := None;
               TaskQueueManager_run := fun _ =>
                 ([RunnerOk {| tr_host := "git"; tr_task_name := "setup";
                               tr_result := VDict [("ansible_facts", facts_without_model)] |}],
                  None);
               TaskQueueManager_cleanup := None;
               open_read := open_read quiet_world;
               PlaybookExecutor_new := PlaybookExecutor_new quiet_world;
               PlaybookExecutor_run := PlaybookExecutor_run quiet_world;
               clock := 0%Z |} "all" fresh_state)
     = Raise (KeyError "ansible_product_name").
Proof. split; reflexivity. Qed.

(** * Further properties *)

(** *** What the filter lets through and what it reports *)

Lemma deny_free_neutralised (content : string) :
  deny_free content = true -> neutralised content = content.
Proof.
  intros H. destruct (deny_free_no_keyword content H) as [H1 H2].
  unfold neutralised. by rewrite (replace_absent "vars:" "+++" content H1), replace_absent.
Qed.

(** X1: a text in which no deny-listed name starts, in any letter case, is
    never flagged. *)
Theorem filter_passes_deny_free_text (content : string) :
  deny_free content = true ->
  check_ansible_variable content = (false, None).
Proof.
  intros H. rewrite check_ansible_variable_captured, (deny_free_neutralised content H).
  by rewrite deny_free_captured.
Qed.

Lemma filter_passes_deny_free_text_witness :
  check_ansible_variable "ls -lha /tmp" = (false, None).
Proof. apply filter_passes_deny_free_text. vm_compute. reflexivity. Defined.

(** [x] is [s[p:p+k]] for some [p] and [k]. *)
Lemma take_take (a b : nat) (s : string) :
  take_str a (take_str b s) = take_str (Nat.min a b) s.
Proof.
  revert b s. induction a as [|a IH]; intros [|b] [|c s]; cbn; try reflexivity.
  by rewrite IH.
Qed.

Lemma drop_drop (a b : nat) (s : string) :
  drop_str a (drop_str b s) = drop_str (b + a) s.
Proof.
  revert s. induction b as [|b IH]; intros s; [reflexivity|].
  destruct s as [|c s]; cbn [drop_str Nat.add]; [by destruct a | apply IH].
Qed.

Lemma take_empty (k : nat) : take_str k EmptyString = EmptyString.
Proof. by destruct k. Qed.

Lemma drop_take (a b : nat) (s : string) :
  drop_str a (take_str b s) = take_str (b - a) (drop_str a s).
Proof.
  revert b s. induction a as [|a IH]; intros b s.
  - by rewrite Nat.sub_0_r.
  - destruct b as [|b], s as [|c s]; cbn [drop_str take_str Nat.sub];
      rewrite ?take_empty; try reflexivity.
    apply IH.
Qed.

Lemma take_all (s : string) : take_str (String.length s) s = s.
Proof. induction s as [|c s IH]; cbn; [reflexivity | by rewrite IH]. Qed.

Lemma slice_of_slice (x y s : string) :
  (exists p k, x = take_str k (drop_str p y)) ->
  (exists p k, y = take_str k (drop_str p s)) ->
  exists p k, x = take_str k (drop_str p s).
Proof.
  intros (p & k & ->) (p' & k' & ->).
  exists (p' + p), (Nat.min k (k' - p)).
  by rewrite drop_take, take_take, drop_drop.
Qed.

Lemma lstrip_slice (s : string) : exists p, lstrip s = drop_str p s.
Proof.
  induction s as [|c s [p IH]]; [by exists 0|]. cbn [lstrip].
  destruct (isspace c); [by exists (S p) | by exists 0].
Qed.

Lemma rstrip_slice (s : string) : exists k, rstrip s = take_str k s.
Proof.
  induction s as [|c s [k IH]]; [by exists 0|]. cbn [rstrip]. rewrite IH.
  destruct (take_str k s) eqn:E.
  - destruct (isspace c); [by exists 0 | by exists 1; destruct s].
  - exists (S k). cbn [take_str]. by rewrite E.
Qed.

Lemma init_slice (s : string) : exists k, init_str s = take_str k s.
Proof.
  induction s as [|c s [k IH]]; [by exists 0|]. cbn [init_str].
  destruct s as [|c' s]; [by exists 0|]. exists (S k). cbn [take_str]. by rewrite IH.
Qed.

Lemma captured_slice (s g : string) :
  captured s = Some g -> exists p k, g = take_str k (drop_str p s).
Proof.
  revert g. induction s as [|c t IH]; intros g; [discriminate|]. cbn [captured].
  destruct (deny_at t) as [n|].
  - intros [= <-]. by exists 0, (S (String.length n + 1)).
  - destruct (deny_at (String c t)) as [n|].
    + intros [= <-]. by exists 0, (String.length n + 1).
    + intros H. destruct (IH g H) as (p & k & ->). by exists (S p), k.
Qed.

Lemma starts_with_take (k : nat) (s : string) :
  starts_with false (take_str k s) s = true.
Proof.
  revert s. induction k as [|k IH]; intros [|c s]; cbn; try reflexivity.
  by rewrite Ascii.eqb_refl, IH.
Qed.

Lemma contains_str_drop (n : string) (p : nat) (s : string) :
  starts_with false n (drop_str p s) = true -> contains_str n s = true.
Proof.
  revert s. induction p as [|p IH]; intros s H.
  - destruct s; cbn [contains_str drop_str] in *; by rewrite H.
  - destruct s as [|c s]; cbn [drop_str] in H.
    + cbn [contains_str]. by rewrite H.
    + cbn [contains_str]. rewrite (IH s H). apply orb_true_r.
Qed.

Lemma slice_contained (n s : string) :
  (exists p k, n = take_str k (drop_str p s)) -> contains_str n s = true.
Proof. intros (p & k & ->). apply (contains_str_drop _ p), starts_with_take. Qed.

(** A text without a plus sign that occurs after a replacement by [+++]
    occurred before it. *)
Lemma prefix_before_replacement (old : string) (m : string) : forall s,
  lacks "+" m = true ->
  starts_with false m (replace_from old "+++" 0 s) = true ->
  starts_with false m s = true.
Proof.
  induction m as [|a m IH]; intros s Hm H; [reflexivity|].
  cbn [lacks] in Hm. apply andb_prop in Hm as [Ha Hm].
  destruct s as [|c s]; [discriminate|]. cbn [replace_from] in H.
  destruct (starts_with false old (String c s)).
  - cbn in H. apply andb_prop in H as [H _]. by rewrite H in Ha.
  - cbn [starts_with] in *. apply andb_prop in H as [-> H]. by apply IH.
Qed.

Lemma contains_str_tail (n : string) c (s : string) :
  contains_str n s = true -> contains_str n (String c s) = true.
Proof. intros H. cbn [contains_str]. rewrite H. apply orb_true_r. Qed.

Lemma contains_before_replacement (old n : string) : forall s skip,
  lacks "+" n = true -> n <> EmptyString ->
  contains_str n (replace_from old "+++" skip s) = true ->
  contains_str n s = true.
Proof.
  intros s. induction s as [|c s IH]; intros skip Hn Hne H; [exact H|].
  cbn [replace_from] in H. destruct skip as [|skip].
  - destruct (starts_with false old (String c s)) eqn:E.
    + apply contains_str_tail. apply (IH (String.length old - 1) Hn Hne).
      destruct n as [|a n]; [done|]. cbn [lacks] in Hn.
      apply andb_prop in Hn as [Ha _]. apply negb_true_iff in Ha.
      cbn [append contains_str starts_with] in H. by rewrite !Ha in H.
    + cbn [contains_str] in H. apply orb_prop in H as [H|H].
      * cbn [contains_str]. apply orb_true_intro. left.
        apply (prefix_before_replacement old n (String c s) Hn).
        cbn [replace_from]. by rewrite E.
      * apply contains_str_tail. by apply (IH 0).
  - apply contains_str_tail. by apply (IH skip).
Qed.

Lemma deny_names_plain :
  Forall (fun n => lacks "+" n = true /\ n <> EmptyString) ANSIBLE_DENY_VARIBLE_LISTS.
Proof. repeat constructor; discriminate. Qed.

(** X2: a positive answer names an entry of the deny list that occurs in the
    text as it is written there; a negative answer names nothing. *)
Theorem filter_answer_is_sound (content : string) :
  match check_ansible_variable content with
  | (true, variable) =>
      exists n, variable = Some n /\ In n ANSIBLE_DENY_VARIBLE_LISTS
                /\ contains_str n content = true
  | (false, variable) => variable = None
  end.
Proof.
  rewrite check_ansible_variable_captured.
  destruct (captured (neutralised content)) as [g|] eqn:Ec; [|reflexivity].
  cbv zeta.
  set (i1 := strip g).
  set (i2 := if starts_with false "=" i1 || starts_with false "{" i1
             then tail_str i1 else i1).
  set (i3 := if ends_with_char "}" i2 then init_str i2 else i2).
  destruct (str_in i3 ANSIBLE_DENY_VARIBLE_LISTS) eqn:Ein; [|reflexivity].
  assert (Hin : In i3 ANSIBLE_DENY_VARIBLE_LISTS).
  { unfold str_in in Ein. apply existsb_exists in Ein as (x & Hx & He).
    apply String.eqb_eq in He. by subst. }
  exists i3. split; [reflexivity|]. split; [exact Hin|].
  assert (S1 : exists p k, i1 = take_str k (drop_str p g)).
  { unfold i1, strip. destruct (lstrip_slice g) as [p ->].
    destruct (rstrip_slice (drop_str p g)) as [k ->]. by exists p, k. }
  assert (S2 : exists p k, i2 = take_str k (drop_str p g)).
  { unfold i2. destruct (_ || _); [|exact S1].
    apply (slice_of_slice _ i1); [|exact S1].
    exists 1, (String.length (drop_str 1 i1)). by rewrite take_all. }
  assert (S3 : exists p k, i3 = take_str k (drop_str p g)).
  { unfold i3. destruct (ends_with_char _ i2); [|exact S2].
    apply (slice_of_slice _ i2); [|exact S2].
    destruct (init_slice i2) as [k ->]. by exists 0, k. }
  pose proof (slice_contained i3 _
                (slice_of_slice i3 g _ S3 (captured_slice _ _ Ec))) as Hc.
  pose proof deny_names_plain as Hplain. rewrite Forall_forall in Hplain.
  destruct (Hplain i3 (proj2 (list_elem_of_In _ _) Hin)) as [Hl Hne].
  unfold neutralised, replace in Hc.
  apply (contains_before_replacement "vars:" i3 content 0 Hl Hne).
  by apply (contains_before_replacement "vars_files:" i3 _ 0 Hl Hne).
Qed.

(** X3: every text that starts with two opening braces, a blank and
    [hostvars] followed by an opening bracket is let through, whatever
    follows: the pattern captures that first deny-listed name together with
    the bracket after it, the captured token is not an entry of the deny
    list, and nothing after it is looked at. *)
Theorem filter_misses_hostvars_lookup (rest : string) :
  check_ansible_variable ("{{ hostvars[" +:+ rest) = (false, None).
Proof.
  rewrite check_ansible_variable_captured.
  assert (Hn : exists rest', neutralised ("{{ hostvars[" +:+ rest)
                             = "{{ hostvars[" +:+ rest').
  { eexists. unfold neutralised, replace. cbn [append].
    cbn [replace_from starts_with Ascii.eqb Bool.eqb andb].
    cbn [replace_from starts_with Ascii.eqb Bool.eqb andb]. reflexivity. }
  destruct Hn as [rest' ->]. reflexivity.
Qed.

(** *** Result Collector and first result *)

Lemma deliver_all (evs : list cb_event) (cb : CallbackModule) :
  let cb' := fold_left deliver evs cb in
  host_ok cb' = host_ok cb ++ map (fun r => outcome_record r true "ok") (ok_results evs)
  /\ host_failed cb'
     = host_failed cb ++ map (fun r => outcome_record r false "failed") (failed_results evs)
  /\ host_unreachable cb'
     = host_unreachable cb
       ++ map (fun r => outcome_record r false "unreachable") (unreachable_results evs)
  /\ error cb' = (if no_match evs then "skipping: No match hosts." else error cb)
  /\ start_time cb' = start_time cb
  /\ res cb' = res cb.
Proof.
  revert cb. induction evs as [|ev evs IH]; intros cb.
  - cbn. by rewrite !app_nil_r.
  - cbn [fold_left]. destruct (IH (deliver cb ev)) as (Ho & Hf & Hu & He & Hs & Hr).
    cbv zeta. rewrite Ho, Hf, Hu, He, Hs, Hr.
    destruct ev; cbn; rewrite <- ?app_assoc; repeat split; try reflexivity.
    all: by destruct (no_match evs).
Qed.

(** X4: whatever the collector held, after the runtime has reported it holds
    in each bucket the records already there followed by one record per
    report of that kind, in arrival order; the error text is the no-match
    text if no match was reported and is unchanged otherwise, and the
    callbacks touch neither [start_time] nor [res]. *)
Theorem collector_buckets_follow_reports (evs : list cb_event) (cb : CallbackModule) :
  let cb' := fold_left deliver evs cb in
  host_ok cb' = host_ok cb ++ map (fun r => outcome_record r true "ok") (ok_results evs)
  /\ host_failed cb'
     = host_failed cb ++ map (fun r => outcome_record r false "failed") (failed_results evs)
  /\ host_unreachable cb'
     = host_unreachable cb
       ++ map (fun r => outcome_record r false "unreachable") (unreachable_results evs)
  /\ error cb' = (if no_match evs then "skipping: No match hosts." else error cb)
  /\ start_time cb' = start_time cb
  /\ res cb' = res cb.
Proof. exact (deliver_all evs cb). Qed.

(** X5: on a collector fresh from [CallbackModule()], [get_result] after the
    reports of a run is the encoding of the first ok record; without an ok
    report, of the first failed record; without either, of the first
    unreachable record; with none of them, of the letter [s] if no host was
    matched, and [None] otherwise. *)
Theorem get_result_after_reports json_dumps (evs : list cb_event) :
  get_result json_dumps (fold_left deliver evs CallbackModule_init)
  = match ok_results evs, failed_results evs, unreachable_results evs with
    | r :: _, _, _ => Some (json_dumps (outcome_record r true "ok"))
    | [], r :: _, _ => Some (json_dumps (outcome_record r false "failed"))
    | [], [], r :: _ => Some (json_dumps (outcome_record r false "unreachable"))
    | [], [], [] => if no_match evs then Some (json_dumps (VStr "s")) else None
    end.
Proof.
  destruct (deliver_all evs CallbackModule_init) as (Ho & Hf & Hu & He & _).
  unfold get_result, get_res, first_dumped. rewrite Ho, Hf, Hu, He. cbn.
  destruct (ok_results evs); [|reflexivity].
  destruct (failed_results evs); [|reflexivity].
  destruct (unreachable_results evs); [|reflexivity].
  by destruct (no_match evs).
Qed.

(** *** The interface names the summary keeps *)

Lemma alternation_some {A} (ic : bool) (names : list string) (st : mstate)
    (k : mstate -> option A) :
  is_Some (rmatch ic (alternation names) st k)
  <-> exists n, In n names /\ starts_with ic n (rest st) = true
        /\ is_Some (k (MState (pos st + String.length n)
                              (drop_str (String.length n) (rest st)) (cap st))).
Proof.
  induction names as [|n names IH]; cbn [alternation fold_right rmatch].
  - split; [by intros [x Hx] | by intros (n & [] & _)].
  - destruct (starts_with ic n (rest st)) eqn:E.
    + destruct (k _) as [x|] eqn:Ek.
      * split; [|by eexists]. intros _. exists n. rewrite E, Ek. by repeat split; [left|eexists].
      * rewrite IH. split.
        -- intros (m & Hm & Hs & Hk). exists m. by repeat split; [right|..].
        -- intros (m & [<-|Hm] & Hs & Hk); [rewrite Ek in Hk; by destruct Hk|].
           by exists m.
    + rewrite IH. split.
      * intros (m & Hm & Hs & Hk). exists m. by repeat split; [right|..].
      * intros (m & [<-|Hm] & Hs & Hk); [congruence|]. by exists m.
Qed.

Lemma star_lazy_now {A} (p : ascii -> bool) (k : nat -> string -> option A)
    (n : nat) (s : string) (x : A) :
  k n s = Some x -> star_lazy p k n s = Some x.
Proof. intros H. destruct s; cbn [star_lazy]; by rewrite H. Qed.

(** X6: an interface name is recognised by the pattern exactly when it
    starts with one of the seven prefixes followed at once by a digit. *)
Theorem interface_pattern_needs_digit (interface : string) :
  re_match false interface_pattern interface = true
  <-> exists p, In p ["eth"; "bond"; "bind"; "eno"; "ens"; "em"; "ib"]
        /\ starts_with false p interface = true
        /\ match drop_str (String.length p) interface with
           | String d _ => isdigit d = true
           | EmptyString => False
           end.
Proof.
  unfold re_match, interface_pattern.
  cbn [rmatch pos Nat.eqb].
  set (k := fun st' : mstate => _).
  assert (Hk : forall q r c, is_Some (k (MState q r c))
                             <-> match r with
                                 | String d _ => isdigit d = true
                                 | EmptyString => False
                                 end).
  { intros q r c. unfold k. cbn [rmatch rest pos cap].
    destruct r as [|d r]; [split; [by intros [x Hx] | done]|].
    destruct (isdigit d); cbn [rest pos cap]; split; intros H;
      first [done | by destruct H | idtac].
    erewrite star_lazy_now; [by eexists | reflexivity]. }
  pose proof (alternation_some false ["eth"; "bond"; "bind"; "eno"; "ens"; "em"; "ib"]
                (MState 0 interface None) k) as Ha.
  cbn [rest pos cap] in Ha.
  destruct (rmatch false _ _ k) as [x|].
  - split; [|done]. intros _. destruct (proj1 Ha) as (p & Hp & Hs & Hd); [by eexists|].
    exists p. repeat split; try assumption. by apply Hk in Hd.
  - split; [done|]. intros (p & Hp & Hs & Hd).
    destruct (proj2 Ha) as [x Hx]; [|done].
    exists p. repeat split; try assumption. by apply Hk.
Qed.

(** *** Host Record: what a descriptor must carry and what it becomes *)

(** X7: a host record is built exactly when the descriptor has the keys
    [ip] and [port] (the default port 22 of the constructor does not replace
    a missing key); it is then named by the hostname, or by the ip when the
    hostname is missing or empty. Otherwise [KeyError] names the first
    missing key. *)
Theorem BaseHost_outcome (host_data : HostData) (uuid : nat) :
  match BaseHost host_data uuid with
  | Ret h =>
      is_Some (ip host_data) /\ is_Some (port host_data)
      /\ h_name h = match hostname host_data with
                    | Some n => if String.eqb n EmptyString then ip host_data else Some n
                    | None => ip host_data
                    end
      /\ h_uuid h = uuid
  | Raise e =>
      (ip host_data = None /\ e = KeyError "ip")
      \/ (is_Some (ip host_data) /\ port host_data = None /\ e = KeyError "port")
  end.
Proof.
  destruct (ip host_data) as [a|] eqn:Ei.
  - destruct (port host_data) as [p|] eqn:Ep.
    + destruct (BaseHost_variables host_data uuid a p Ei Ep) as (h' & -> & Hn & Hu & _).
      destruct (set_extra_variables_identity host_data h') as [-> ->].
      rewrite Hn, Hu. unfold host_name_of, str_or. rewrite Ei.
      repeat split; try (by eexists). by destruct (hostname host_data).
    + unfold BaseHost, set_required_variables. rewrite Ei, Ep. cbn.
      right. repeat split. by eexists.
  - unfold BaseHost, set_required_variables. rewrite Ei. cbn. by left.
Qed.

Lemma Host_init_lookup name p uuid k :
  k <> "ansible_port" -> h_vars (Host_init name p uuid) !! k = None.
Proof.
  intros Hk. unfold Host_init. destruct (negb _); cbn; [|done].
  by rewrite lookup_insert_ne.
Qed.

Lemma set_variable_lookup_eq h k v : h_vars (set_variable h k v) !! k = Some v.
Proof. apply lookup_insert_eq. Qed.

Lemma set_variable_lookup_ne h k v k' :
  String.eqb k k' = false -> h_vars (set_variable h k v) !! k' = h_vars h !! k'.
Proof. intros H. by rewrite set_variable_lookup, H. Qed.

Lemma set_given_lookup_eq h k field :
  h_vars (set_given h k field) !! k
  = match given field with
    | Some v => Some v
    | None => h_vars h !! k
    end.
Proof.
  unfold set_given. destruct (given field); [apply set_variable_lookup_eq | done].
Qed.

Lemma set_given_lookup_ne h k field k' :
  String.eqb k k' = false -> h_vars (set_given h k field) !! k' = h_vars h !! k'.
Proof.
  intros H. unfold set_given. destruct (given field); [by apply set_variable_lookup_ne | done].
Qed.

(** A credential is assigned when the field is given. *)
Lemma credential_step {A} (self : Host) (name key : string) (field : option value)
    (k : Host -> outcome A) :
  obind (if opt_truthy field
         then obind (require name field) (fun u => Ret (set_variable self key u))
         else Ret self) k
  = k (set_given self key field).
Proof.
  unfold set_given, given. destruct field as [v|]; cbn; [|reflexivity].
  by destruct (truthy v).
Qed.

Ltac lookup_vars :=
  repeat first [ rewrite set_variable_lookup_eq
               | rewrite set_variable_lookup_ne by reflexivity
               | rewrite set_given_lookup_eq
               | rewrite set_given_lookup_ne by reflexivity ].

(** The variables set by [__set_required_variables], key by key. *)
Lemma required_variables_table host_data h h' :
  set_required_variables host_data h = Ret h' ->
  h_vars h' !! "ansible_connection" = Some (VStr "paramiko")
  /\ h_vars h' !! "ansible_ssh_host_key_checking" = Some (VBool false)
  /\ h_vars h' !! "ansible_ssh_args" = h_vars h !! "ansible_ssh_args"
  /\ h_vars h' !! "ansible_ssh_pipelining" = h_vars h !! "ansible_ssh_pipelining"
  /\ h_vars h' !! "ansible_user"
     = match given (username host_data) with
       | Some v => Some v
       | None => h_vars h !! "ansible_user"
       end
  /\ h_vars h' !! "ansible_ssh_pass"
     = match given (password host_data) with
       | Some v => Some v
       | None => h_vars h !! "ansible_ssh_pass"
       end
  /\ h_vars h' !! "ansible_ssh_private_key_file"
     = match given (private_key host_data) with
       | Some v => Some v
       | None => h_vars h !! "ansible_ssh_private_key_file"
       end
  /\ h_vars h' !! "ansible_become"
     = Some (VBool (bool_decide (is_Some (escalation host_data))))
  /\ h_vars h' !! "ansible_become_method"
     = match escalation host_data with
       | Some b => Some (default (VStr "sudo") (dict_get b "method"))
       | None => h_vars h !! "ansible_become_method"
       end
  /\ h_vars h' !! "ansible_become_user"
     = match escalation host_data with
       | Some b => Some (default (VStr "root") (dict_get b "user"))
       | None => h_vars h !! "ansible_become_user"
       end
  /\ h_vars h' !! "ansible_become_pass"
     = match escalation host_data with
       | Some b => Some (default (VStr EmptyString) (dict_get b "pass"))
       | None => h_vars h !! "ansible_become_pass"
       end.
Proof.
  unfold set_required_variables, escalation.
  destruct (ip host_data) as [a|]; [|discriminate].
  destruct (port host_data) as [p|]; [|discriminate].
  cbn [obind require]. rewrite !credential_step.
  change (String.eqb ANSIBLE_CONNECTION_TYPE "ssh") with false.
  cbv iota.
  destruct (become host_data) as [[|? ?]|]; intros [= <-];
    rewrite ?andb_false_r; repeat split; lookup_vars; reflexivity.
Qed.

Lemma BaseHost_required host_data uuid h :
  BaseHost host_data uuid = Ret h ->
  exists name p h',
    set_required_variables host_data (Host_init name p uuid) = Ret h'
    /\ forall k, unbound host_data k -> h_vars h !! k = h_vars h' !! k.
Proof.
  unfold BaseHost. intros H.
  destruct (set_required_variables host_data _) as [h'|e] eqn:E; [|discriminate].
  cbn in H. injection H as <-. do 3 eexists. split; [exact E|].
  intros k Hk. rewrite set_extra_variables_lookup.
  by rewrite (dict_get_reverse_None _ _ Hk).
Qed.

(** X8: every host is reached through the paramiko connection with host key
    checking switched off, and the two variables meant for the ssh
    connection are never set, unless the extra variables bind those keys. *)
Theorem host_connection_policy (host_data : HostData) (uuid : nat) (h : Host) :
  BaseHost host_data uuid = Ret h ->
  (unbound host_data "ansible_connection" ->
   h_vars h !! "ansible_connection" = Some (VStr "paramiko"))
  /\ (unbound host_data "ansible_ssh_host_key_checking" ->
      h_vars h !! "ansible_ssh_host_key_checking" = Some (VBool false))
  /\ (unbound host_data "ansible_ssh_args" -> h_vars h !! "ansible_ssh_args" = None)
  /\ (unbound host_data "ansible_ssh_pipelining" ->
      h_vars h !! "ansible_ssh_pipelining" = None).
Proof.
  intros Hb. destruct (BaseHost_required _ _ _ Hb) as (name & p & h' & Hr & Hk).
  destruct (required_variables_table _ _ _ Hr) as (H1 & H2 & H3 & H4 & _).
  repeat split; intros Hu; rewrite (Hk _ Hu).
  - exact H1.
  - exact H2.
  - rewrite H3. by apply Host_init_lookup.
  - rewrite H4. by apply Host_init_lookup.
Qed.

Lemma host_connection_policy_witness :
  match BaseHost git_host 0 with
  | Ret h => h_vars h !! "ansible_connection" = Some (VStr "paramiko")
             /\ h_vars h !! "ansible_ssh_pipelining" = None
  | Raise _ => False
  end.
Proof.
  destruct (BaseHost git_host 0) as [h|e] eqn:E.
  - destruct (host_connection_policy git_host 0 h E) as (H1 & _ & _ & H4).
    split; [apply H1 | apply H4]; vm_compute; reflexivity.
  - vm_compute in E. discriminate.
Defined.

(** X9: the user, the password and the key file become [ansible_user],
    [ansible_ssh_pass] and [ansible_ssh_private_key_file] exactly when the
    descriptor gives them a true value: a missing, empty or zero field sets
    nothing (unless the extra variables bind the key). *)
Theorem host_credentials_when_given (host_data : HostData) (uuid : nat) (h : Host) :
  BaseHost host_data uuid = Ret h ->
  (unbound host_data "ansible_user" ->
   h_vars h !! "ansible_user" = given (username host_data))
  /\ (unbound host_data "ansible_ssh_pass" ->
      h_vars h !! "ansible_ssh_pass" = given (password host_data))
  /\ (unbound host_data "ansible_ssh_private_key_file" ->
      h_vars h !! "ansible_ssh_private_key_file" = given (private_key host_data)).
Proof.
  intros Hb. destruct (BaseHost_required _ _ _ Hb) as (name & p & h' & Hr & Hk).
  destruct (required_variables_table _ _ _ Hr) as (_ & _ & _ & _ & H5 & H6 & H7 & _).
  repeat split; intros Hu; rewrite (Hk _ Hu).
  - rewrite H5, Host_init_lookup by done. by destruct (given (username host_data)).
  - rewrite H6, Host_init_lookup by done. by destruct (given (password host_data)).
  - rewrite H7, Host_init_lookup by done. by destruct (given (private_key host_data)).
Qed.

Lemma host_credentials_when_given_witness :
  match BaseHost git_host 0 with
  | Ret h => h_vars h !! "ansible_ssh_pass" = Some (VStr "@23123")
             /\ h_vars h !! "ansible_ssh_private_key_file" = None
  | Raise _ => False
  end.
Proof.
  destruct (BaseHost git_host 0) as [h|e] eqn:E.
  - destruct (host_credentials_when_given git_host 0 h E) as (_ & H2 & H3).
    split; [apply H2 | apply H3]; vm_compute; reflexivity.
  - vm_compute in E. discriminate.
Defined.

(** X10: without a [become] entry, or with an empty one, escalation is
    switched off and no escalation method, user or password is set; with
    one, escalation is on, the method defaults to [sudo], the user to [root]
    and the password to the empty text (unless the extra variables bind the
    key). *)
Theorem host_escalation (host_data : HostData) (uuid : nat) (h : Host) :
  BaseHost host_data uuid = Ret h ->
  (unbound host_data "ansible_become" ->
   h_vars h !! "ansible_become"
   = Some (VBool (bool_decide (is_Some (escalation host_data)))))
  /\ (unbound host_data "ansible_become_method" ->
      h_vars h !! "ansible_become_method"
      = (fun b => default (VStr "sudo") (dict_get b "method")) <$> escalation host_data)
  /\ (unbound host_data "ansible_become_user" ->
      h_vars h !! "ansible_become_user"
      = (fun b => default (VStr "root") (dict_get b "user")) <$> escalation host_data)
  /\ (unbound host_data "ansible_become_pass" ->
      h_vars h !! "ansible_become_pass"
      = (fun b => default (VStr EmptyString) (dict_get b "pass")) <$> escalation host_data).
Proof.
  intros Hb. destruct (BaseHost_required _ _ _ Hb) as (name & p & h' & Hr & Hk).
  destruct (required_variables_table _ _ _ Hr)
    as (_ & _ & _ & _ & _ & _ & _ & H8 & H9 & H10 & H11).
  repeat split; intros Hu; rewrite (Hk _ Hu).
  - exact H8.
  - rewrite H9. destruct (escalation host_data); [done|]. by apply Host_init_lookup.
  - rewrite H10. destruct (escalation host_data); [done|]. by apply Host_init_lookup.
  - rewrite H11. destruct (escalation host_data); [done|]. by apply Host_init_lookup.
Qed.

Lemma host_escalation_witness :
  match BaseHost address_only_host 0 with
  | Ret h => h_vars h !! "ansible_become" = Some (VBool false)
             /\ h_vars h !! "ansible_become_user" = None
  | Raise _ => False
  end.
Proof.
  destruct (BaseHost address_only_host 0) as [h|e] eqn:E.
  - destruct (host_escalation address_only_host 0 h E) as (H1 & _ & H3 & _).
    split; [apply H1 | apply H3]; vm_compute; reflexivity.
  - vm_compute in E. discriminate.
Defined.

(** *** Inventory Builder: who is in which group *)

Lemma group_add_host_exact inv g1 h (base : string -> list Host) (done : list string) :
  is_Some (get_group inv g1) ->
  (forall g, hosts_of inv g
             = base g ++ (if existsb (String.eqb g) done then [h] else [])) ->
  (forall g, ~ In (h_name h) (map h_name (base g))) ->
  forall g, hosts_of (group_add_host inv g1 h) g
            = base g ++ (if existsb (String.eqb g) (g1 :: done) then [h] else []).
Proof.
  intros [grp Hgrp] H Hfresh g. rewrite hosts_of_group_add_host. cbn [existsb].
  destruct (decide (g1 = g)) as [->|Hne].
  - rewrite String.eqb_refl, Hgrp. cbn [orb].
    assert (Hh : group_hosts grp = hosts_of inv g) by (unfold hosts_of; by rewrite Hgrp).
    rewrite H in Hh. destruct (existsb (String.eqb g) done).
    + rewrite add_host_present; [exact Hh|].
      rewrite Hh, map_app, in_app_iff. right. by left.
    + rewrite app_nil_r in Hh. unfold add_host.
      destruct (existsb _ (group_hosts grp)) eqn:E.
      * apply has_name_In in E. rewrite Hh in E. by apply Hfresh in E.
      * cbn. by rewrite Hh.
  - assert (E : String.eqb g g1 = false) by (apply String.eqb_neq; congruence).
    rewrite E. apply H.
Qed.

Lemma add_to_groups_exact (groups_data : list string) h (base : string -> list Host) :
  forall inv done,
  Forall (fun g => g <> EmptyString) groups_data ->
  (forall g, hosts_of inv g
             = base g ++ (if existsb (String.eqb g) done then [h] else [])) ->
  (forall g, ~ In (h_name h) (map h_name (base g))) ->
  exists inv', add_to_groups inv groups_data h = Ret inv'
    /\ inv_hosts inv' = inv_hosts inv
    /\ (forall n, is_Some (get_group inv n) -> is_Some (get_group inv' n))
    /\ forall g, hosts_of inv' g
                 = base g ++ (if existsb (String.eqb g) groups_data
                                 || existsb (String.eqb g) done
                              then [h] else []).
Proof.
  induction groups_data as [|g1 tl IH]; intros inv done Hne H Hfresh.
  - exists inv. repeat split; try done.
  - inversion Hne as [|? ? Hg Htl]; subst. cbn [add_to_groups].
    assert (exists inv1,
               match get_group inv g1 with
               | Some _ => Ret inv
               | None => add_group inv g1
               end = Ret inv1
               /\ inv_hosts inv1 = inv_hosts inv
               /\ is_Some (get_group inv1 g1)
               /\ (forall n, is_Some (get_group inv n) -> is_Some (get_group inv1 n))
               /\ (forall n, hosts_of inv1 n = hosts_of inv n))
      as (inv1 & -> & Hh1 & Hg1 & Hk1 & Ho1).
    { destruct (get_group inv g1) eqn:E.
      - exists inv. repeat split; try done.
      - by apply add_group_spec. }
    cbn [obind]. pose proof Hg1 as [grp ->].
    destruct (IH (group_add_host inv1 g1 h) (g1 :: done) Htl) as (inv' & -> & Hh & Hk & Ho).
    + apply group_add_host_exact; [exact Hg1 | | exact Hfresh].
      intros g. rewrite Ho1. apply H.
    + exact Hfresh.
    + exists inv'. repeat split.
      * by rewrite Hh.
      * intros n Hn. apply Hk, get_group_group_add_host, Hk1, Hn.
      * intros g. rewrite Ho. cbn [existsb].
        by destruct (String.eqb g g1), (existsb (String.eqb g) tl),
             (existsb (String.eqb g) done).
Qed.

Lemma filter_names_subset (g : string) (l : list HostData) x :
  In x (map host_name_of (List.filter (declares g) l)) -> In x (map host_name_of l).
Proof.
  rewrite !in_map_iff. intros (d & <- & Hd). apply filter_In in Hd as [Hd _]. eauto.
Qed.

Lemma parse_loop_members (host_list : list HostData) : forall uuid inv done,
  is_Some (get_group inv "all") -> is_Some (get_group inv "ungrouped") ->
  (forall g, map h_name (hosts_of inv g)
             = map host_name_of (List.filter (declares g) done)) ->
  Forall complete host_list ->
  NoDup (map host_name_of (done ++ host_list)) ->
  exists inv', parse_loop uuid host_list inv = Ret inv'
    /\ forall g, map h_name (hosts_of inv' g)
                 = map host_name_of (List.filter (declares g) (done ++ host_list)).
Proof.
  induction host_list as [|d tl IH]; intros uuid inv done Ha Hu Hm Hc Hnd.
  - exists inv. split; [reflexivity|]. intros g. by rewrite app_nil_r.
  - inversion Hc as [|? ? (Hhn & Hip & Hport & Hgr) Hctl]; subst.
    cbn [parse_loop].
    destruct (BaseHost_identity d uuid Hip Hport) as (h & -> & Hname & Hid).
    destruct Hhn as [key ->]. cbn [obind require].
    set (inv0 := {| inv_hosts := <[key:=h]> (inv_hosts inv);
                    inv_groups := inv_groups inv |}).
    assert (Hfresh : forall g, ~ In (h_name h) (map h_name (hosts_of inv0 g))).
    { intros g Hin. change (hosts_of inv0 g) with (hosts_of inv g) in Hin.
      rewrite Hm, Hname in Hin. apply filter_names_subset in Hin.
      rewrite map_app in Hnd. apply NoDup_app in Hnd as (_ & Hdis & _).
      apply (Hdis (host_name_of d)); [by apply list_elem_of_In|]. cbn. by left. }
    assert (Hbase : forall g, hosts_of inv0 g
                              = hosts_of inv0 g ++ (if existsb (String.eqb g) [] then [h] else []))
      by (intros g; cbn; by rewrite app_nil_r).
    assert (exists inv1,
               match groups d with
               | Some ((_ :: _) as groups_data) => add_to_groups inv0 groups_data h
               | _ => Ret (group_add_host inv0 "ungrouped" h)
               end = Ret inv1
               /\ (forall n, is_Some (get_group inv0 n) -> is_Some (get_group inv1 n))
               /\ forall g, hosts_of inv1 g
                            = hosts_of inv0 g
                              ++ (if match groups d with
                                     | Some ((_ :: _) as groups_data) =>
                                         existsb (String.eqb g) groups_data
                                     | _ => String.eqb g "ungrouped"
                                     end then [h] else []))
      as (inv1 & -> & Hk1 & Ho1).
    { destruct (groups d) as [[|g1 gs]|] eqn:Eg.
      - eexists. split; [reflexivity|]. split; [intros n; apply get_group_group_add_host|].
        intros g.
        rewrite (group_add_host_exact inv0 "ungrouped" h (hosts_of inv0) [] Hu Hbase Hfresh).
        cbn. by rewrite orb_false_r.
      - destruct (add_to_groups_exact (g1 :: gs) h (hosts_of inv0) inv0 [] Hgr Hbase Hfresh)
          as (inv1 & -> & _ & Hk & Ho).
        exists inv1. repeat split; [exact Hk|]. intros g. rewrite Ho.
        cbn [existsb]. by rewrite !orb_false_r.
      - eexists. split; [reflexivity|]. split; [intros n; apply get_group_group_add_host|].
        intros g.
        rewrite (group_add_host_exact inv0 "ungrouped" h (hosts_of inv0) [] Hu Hbase Hfresh).
        cbn. by rewrite orb_false_r. }
    cbn [obind].
    set (L := match groups d with
              | Some ((_ :: _) as groups_data) => groups_data
              | _ => ["ungrouped"]
              end).
    assert (Hstep : forall g, hosts_of (group_add_host inv1 "all" h) g
                              = hosts_of inv0 g ++ (if declares g d then [h] else [])).
    { intros g.
      rewrite (group_add_host_exact inv1 "all" h (hosts_of inv0) L (Hk1 _ Ha)).
      - unfold declares, L. cbn [existsb].
        destruct (groups d) as [[|g1 gs]|]; cbn [existsb]; by rewrite ?orb_false_r.
      - intros g'. rewrite Ho1. unfold L.
        destruct (groups d) as [[|g1 gs]|]; cbn [existsb]; by rewrite ?orb_false_r.
      - exact Hfresh. }
    destruct (IH (S uuid) (group_add_host inv1 "all" h) (done ++ [d])) as (inv' & -> & Hm').
    + apply get_group_group_add_host, Hk1, Ha.
    + apply get_group_group_add_host, Hk1, Hu.
    + intros g. rewrite Hstep, map_app, List.filter_app, map_app.
      change (hosts_of inv0 g) with (hosts_of inv g). rewrite Hm. f_equal.
      cbn [List.filter]. destruct (declares g d); cbn; by rewrite ?Hname.
    + exact Hctl.
    + by rewrite <- app_assoc.
    + exists inv'. split; [reflexivity|]. intros g. rewrite Hm'. by rewrite <- app_assoc.
Qed.

Lemma Inventory_init_groups :
  is_Some (get_group Inventory_init "all") /\ is_Some (get_group Inventory_init "ungrouped")
  /\ forall g, hosts_of Inventory_init g = [].
Proof.
  split; [by eexists|]. split; [by eexists|].
  intros g. unfold hosts_of, get_group, Inventory_init. cbn.
  rewrite lookup_insert. destruct (decide ("ungrouped" = g)); [done|].
  rewrite lookup_insert. by destruct (decide ("all" = g)).
Qed.

(** X11: for descriptors that carry hostname, ip and port and resolve to
    pairwise distinct names, every group holds exactly the hosts whose
    descriptor puts them there, in input order: all of them for [all], those
    without groups for [ungrouped], and for any other name those that list
    it; a group that no descriptor lists has no host. *)
Theorem groups_hold_declared_hosts (host_list : list HostData) :
  Forall complete host_list ->
  NoDup (map host_name_of host_list) ->
  exists inventory, BaseInventory host_list = Ret inventory
    /\ forall g, map h_name (hosts_of inventory g)
                 = map host_name_of (List.filter (declares g) host_list).
Proof.
  intros Hc Hnd. destruct Inventory_init_groups as (Ha & Hu & He).
  destruct (parse_loop_members host_list 0 Inventory_init [] Ha Hu) as (inv & Hp & Hm).
  - intros g. by rewrite He.
  - exact Hc.
  - exact Hnd.
  - exists inv. split; [exact Hp | exact Hm].
Qed.

Lemma groups_hold_declared_hosts_witness :
  exists inventory, BaseInventory [git_host; address_named_host] = Ret inventory
    /\ map h_name (hosts_of inventory "test") = [Some "git"]
    /\ map h_name (hosts_of inventory "ungrouped") = [Some "192.168.5.3"]
    /\ map h_name (hosts_of inventory "all") = [Some "git"; Some "192.168.5.3"].
Proof.
  destruct (groups_hold_declared_hosts [git_host; address_named_host])
    as (inv & Hb & Hm).
  - constructor; [|constructor; [|constructor]];
      (unfold complete; cbn; repeat split; try (by eexists);
       repeat (constructor; [discriminate|]); constructor).
  - cbn. apply NoDup_cons. split; [|apply NoDup_singleton].
    intros Hin. apply list_elem_of_In in Hin. destruct Hin as [Hin|[]]. discriminate.
  - exists inv. split; [exact Hb|]. rewrite !Hm. repeat split; reflexivity.
Defined.

(** *** Inventory Builder: descriptors that share a name *)

Lemma add_to_groups_hosts (groups_data : list string) : forall inv h inv',
  add_to_groups inv groups_data h = Ret inv' -> inv_hosts inv' = inv_hosts inv.
Proof.
  induction groups_data as [|g tl IH]; intros inv h inv'; cbn [add_to_groups].
  - by intros [= <-].
  - destruct (get_group inv g) eqn:E; cbn [obind].
    + rewrite E. intros H. by rewrite (IH _ _ _ H).
    + unfold add_group. destruct (String.eqb g EmptyString); [discriminate|].
      unfold get_group in E. rewrite E. cbn [obind].
      destruct (get_group _ g); [|discriminate]. intros H. by rewrite (IH _ _ _ H).
Qed.

Lemma BaseHost_returns host_data uuid h :
  BaseHost host_data uuid = Ret h ->
  is_Some (ip host_data) /\ is_Some (port host_data)
  /\ h_name h = host_name_of host_data /\ h_uuid h = uuid.
Proof.
  intros H. destruct (ip host_data) as [a|] eqn:Ei.
  - destruct (port host_data) as [p|] eqn:Ep.
    + destruct (BaseHost_variables host_data uuid a p Ei Ep) as (h' & Hb & Hn & Hu & _).
      rewrite Hb in H. injection H as <-.
      destruct (set_extra_variables_identity host_data h') as [-> ->].
      repeat split; try (by eexists); assumption.
    + unfold BaseHost, set_required_variables in H. rewrite Ei, Ep in H. discriminate.
  - unfold BaseHost, set_required_variables in H. rewrite Ei in H. discriminate.
Qed.

Lemma parse_loop_dictionary (host_list : list HostData) (k : string) :
  forall uuid inv inv',
  parse_loop uuid host_list inv = Ret inv' ->
  h_uuid <$> inv_hosts inv' !! k
  = match last_keyed k uuid host_list with
    | Some j => Some j
    | None => h_uuid <$> inv_hosts inv !! k
    end.
Proof.
  induction host_list as [|d tl IH]; intros uuid inv inv'; cbn [parse_loop last_keyed].
  - by intros [= <-].
  - destruct (BaseHost d uuid) as [h|e] eqn:Eb; [|discriminate]. cbn [obind].
    destruct (BaseHost_returns _ _ _ Eb) as (_ & _ & _ & Hid).
    destruct (hostname d) as [key|]; [|discriminate]. cbn [obind require].
    set (inv0 := {| inv_hosts := <[key:=h]> (inv_hosts inv);
                    inv_groups := inv_groups inv |}).
    destruct (match groups d with
              | Some ((_ :: _) as groups_data) => add_to_groups inv0 groups_data h
              | _ => Ret (group_add_host inv0 "ungrouped" h)
              end) as [inv1|e] eqn:Eg; [|discriminate].
    cbn [obind]. intros Hp. rewrite (IH _ _ _ Hp).
    destruct (last_keyed k (S uuid) tl); [reflexivity|].
    assert (Hh : inv_hosts inv1 = <[key:=h]> (inv_hosts inv)).
    { destruct (groups d) as [[|g gs]|].
      - by injection Eg as <-.
      - by rewrite (add_to_groups_hosts _ _ _ _ Eg).
      - by injection Eg as <-. }
    cbn [group_add_host inv_hosts]. rewrite Hh, lookup_insert.
    destruct (decide (key = k)) as [->|Hne].
    + rewrite String.eqb_refl. cbn. by rewrite Hid.
    + apply String.eqb_neq in Hne. by rewrite Hne.
Qed.

(** X12: in a built inventory the hosts dictionary has exactly the hostnames
    of the descriptors as keys, and under each the host made from the last
    descriptor that carries it: a later descriptor replaces an earlier one
    of the same hostname. *)
Theorem hosts_dictionary_keeps_last (host_list : list HostData) (inventory : Inventory)
    (k : string) :
  BaseInventory host_list = Ret inventory ->
  h_uuid <$> inv_hosts inventory !! k = last_keyed k 0 host_list.
Proof.
  intros H. rewrite (parse_loop_dictionary host_list k 0 Inventory_init inventory H).
  by destruct (last_keyed k 0 host_list).
Qed.

Lemma hosts_dictionary_keeps_last_witness :
  match BaseInventory [git_host; k8s_host; git_host] with
  | Ret inventory => h_uuid <$> inv_hosts inventory !! "git" = Some 2
  | Raise _ => False
  end.
Proof.
  destruct (BaseInventory [git_host; k8s_host; git_host]) as [inv|e] eqn:E.
  - apply (hosts_dictionary_keeps_last _ _ "git" E).
  - assert (H : match BaseInventory [git_host; k8s_host; git_host] with
                | Ret _ => true
                | Raise _ => false
                end = true) by (vm_compute; reflexivity).
    rewrite E in H. discriminate.
Defined.

Lemma parse_loop_first (host_list : list HostData) : forall uuid inv,
  is_Some (get_group inv "all") -> is_Some (get_group inv "ungrouped") ->
  Forall complete host_list ->
  exists inv', parse_loop uuid host_list inv = Ret inv'
    /\ map h_uuid (hosts_of inv' "all")
       = map h_uuid (hosts_of inv "all")
         ++ first_ids (map h_name (hosts_of inv "all")) uuid host_list.
Proof.
  induction host_list as [|d tl IH]; intros uuid inv Ha Hu Hc.
  - exists inv. split; [reflexivity|]. cbn. by rewrite app_nil_r.
  - inversion Hc as [|? ? (Hhn & Hip & Hport & Hgr) Hctl]; subst.
    cbn [parse_loop first_ids].
    destruct (BaseHost_identity d uuid Hip Hport) as (h & -> & Hname & Hid).
    destruct Hhn as [key ->]. cbn [obind require].
    set (inv0 := {| inv_hosts := <[key:=h]> (inv_hosts inv);
                    inv_groups := inv_groups inv |}).
    assert (exists inv1,
               match groups d with
               | Some ((_ :: _) as groups_data) => add_to_groups inv0 groups_data h
               | _ => Ret (group_add_host inv0 "ungrouped" h)
               end = Ret inv1
               /\ (forall n, is_Some (get_group inv0 n) -> is_Some (get_group inv1 n))
               /\ (forall n, grown h (hosts_of inv0 n) (hosts_of inv1 n)))
      as (inv1 & -> & Hk1 & Hg1).
    { destruct (groups d) as [[|g gs]|] eqn:Eg.
      - eexists. split; [reflexivity|]. split.
        + intros n. apply get_group_group_add_host.
        + intros n. apply group_add_host_grown.
      - destruct (add_to_groups_spec (g :: gs) inv0 h Hgr) as (inv1 & -> & _ & Hk & Hg).
        by exists inv1.
      - eexists. split; [reflexivity|]. split.
        + intros n. apply get_group_group_add_host.
        + intros n. apply group_add_host_grown. }
    cbn [obind].
    assert (Hall : hosts_of (group_add_host inv1 "all" h) "all"
                   = hosts_of inv "all"
                     ++ (if existsb (fun x => name_eqb x (host_name_of d))
                              (map h_name (hosts_of inv "all"))
                         then [] else [h])).
    { assert (Eseen : existsb (fun x => name_eqb x (host_name_of d))
                        (map h_name (hosts_of inv "all"))
                      = existsb (fun h' => name_eqb (h_name h') (h_name h))
                          (hosts_of inv "all")).
      { rewrite Hname. induction (hosts_of inv "all") as [|x l IHl]; [done|].
        cbn. by rewrite IHl. }
      rewrite Eseen. rewrite hosts_of_group_add_host.
      destruct (decide ("all" = "all")); [|done].
      destruct (Hk1 "all" Ha) as [grp Hgrp]. rewrite Hgrp.
      assert (Hgh : group_hosts grp = hosts_of inv1 "all")
        by (unfold hosts_of; by rewrite Hgrp).
      change (hosts_of inv0 "all") with (hosts_of inv "all") in *.
      destruct (existsb _ (hosts_of inv "all")) eqn:E.
      - apply has_name_In in E.
        destruct (Hg1 "all") as [Heq|[_ Hno]]; [|done].
        change (hosts_of inv0 "all") with (hosts_of inv "all") in Heq.
        rewrite add_host_present.
        * by rewrite Hgh, Heq, app_nil_r.
        * by rewrite Hgh, Heq.
      - destruct (Hg1 "all") as [Heq|[Heq _]];
          change (hosts_of inv0 "all") with (hosts_of inv "all") in Heq.
        + unfold add_host. rewrite Hgh, Heq, E. reflexivity.
        + rewrite add_host_present; [by rewrite Hgh|].
          rewrite Hgh, Heq, map_app, in_app_iff. right. by left. }
    destruct (IH (S uuid) (group_add_host inv1 "all" h)) as (inv' & -> & Hm).
    + apply get_group_group_add_host, Hk1, Ha.
    + apply get_group_group_add_host, Hk1, Hu.
    + exact Hctl.
    + exists inv'. split; [reflexivity|]. rewrite Hm, Hall.
      destruct (existsb _ (map h_name (hosts_of inv "all"))).
      * by rewrite app_nil_r.
      * rewrite !map_app, <- app_assoc. cbn. by rewrite Hid, Hname.
Qed.

(** X13: whatever names the descriptors share, the group [all] holds, in
    input order, the host made from the first descriptor of each host name:
    a later descriptor of the same name adds no host to it. *)
Theorem all_keeps_first_of_each_name (host_list : list HostData) :
  Forall complete host_list ->
  exists inventory, BaseInventory host_list = Ret inventory
    /\ map h_uuid (hosts_of inventory "all") = first_ids [] 0 host_list.
Proof.
  intros Hc. destruct Inventory_init_groups as (Ha & Hu & He).
  destruct (parse_loop_first host_list 0 Inventory_init Ha Hu Hc) as (inv & Hp & Hm).
  exists inv. split; [exact Hp|]. by rewrite Hm, He.
Qed.

Lemma all_keeps_first_of_each_name_witness :
  exists inventory, BaseInventory [git_host; k8s_host; git_host] = Ret inventory
    /\ map h_uuid (hosts_of inventory "all") = [0; 1].
Proof.
  destruct (all_keeps_first_of_each_name [git_host; k8s_host; git_host])
    as (inv & Hb & Hm).
  - repeat (constructor; [unfold complete; cbn; repeat split; try (by eexists);
                          repeat (constructor; [discriminate|]); constructor|]).
    constructor.
  - exists inv. split; [exact Hb | exact Hm].
Defined.

(** *** Execution Engine: the ad-hoc path *)

Lemma run_module_collects w module_name module_args hosts s :
  Play_load w (play_source module_name module_args hosts) = None ->
  results_callback (snd (run_module w module_name module_args hosts s))
  = match TaskQueueManager_new w with
    | Some _ => results_callback s
    | None =>
        fold_left deliver
          (fst (TaskQueueManager_run w (play_source module_name module_args hosts)))
          (results_callback s)
    end.
Proof.
  intros Hl. unfold_engine. rewrite Hl. engine_cases; reflexivity.
Qed.

(** X14: once the play is loaded, and provided the release itself does not
    raise, [run_module] returns normally whatever ordinary exception the
    runtime raises; it purges the scratch directory exactly once, releases
    the runtime exactly once if it was constructed and not at all
    otherwise, and the collector holds what the runtime reported. *)
Theorem run_module_always_tears_down w module_name module_args hosts s :
  Play_load w (play_source module_name module_args hosts) = None ->
  TaskQueueManager_cleanup w = None ->
  (forall e, TaskQueueManager_new w = Some e -> is_Exception e = true) ->
  (forall evs e, TaskQueueManager_run w (play_source module_name module_args hosts)
                 = (evs, Some e) -> is_Exception e = true) ->
  let r := run_module w module_name module_args hosts s in
  fst r = Ret tt
  /\ purges (trace (snd r)) = purges (trace s) + 1
  /\ releases (trace (snd r))
     = releases (trace s) + match TaskQueueManager_new w with Some _ => 0 | None => 1 end
  /\ results_callback (snd r)
     = match TaskQueueManager_new w with
       | Some _ => results_callback s
       | None =>
           fold_left deliver
             (fst (TaskQueueManager_run w (play_source module_name module_args hosts)))
             (results_callback s)
       end.
Proof.
  intros Hl Hc Hn Hr. cbv zeta.
  destruct (run_module_teardown_once w module_name module_args hosts s Hl Hc) as [Hp Hrel].
  repeat split.
  - by apply run_module_contains_exceptions.
  - exact Hp.
  - exact Hrel.
  - by apply run_module_collects.
Qed.

Lemma run_module_always_tears_down_witness :
  let r := run_module broken_world "shell" (VStr "uptime") "all" fresh_state in
  fst r = Ret tt /\ purges (trace (snd r)) = 1 /\ releases (trace (snd r)) = 0.
Proof.
  destruct (run_module_always_tears_down broken_world "shell" (VStr "uptime") "all"
              fresh_state eq_refl eq_refl) as (H1 & H2 & H3 & _).
  - intros e H. cbn in H. injection H as <-. reflexivity.
  - intros evs e H. cbn in H. discriminate.
  - cbv zeta. split; [exact H1 | split; [exact H2 | exact H3]].
Defined.

(** X15: what [Play().load] raises is not caught: it leaves [run_module]
    with nothing run and nothing torn down, and it leaves the WebSocket
    handler too. *)
Theorem load_failure_reaches_the_handler json_dumps w (data : Message) inventory e :
  BaseInventory (hostdat data) = Ret inventory ->
  Play_load w (play_source "shell" (VStr (default "ls -lha /tmp" (msg_cmd data)))
                 (default "test" (msg_hostname data))) = Some e ->
  (forall s, run_module w "shell" (VStr (default "ls -lha /tmp" (msg_cmd data)))
               (default "test" (msg_hostname data)) s = (Raise e, s))
  /\ websocket_endpoint json_dumps w data = (Raise e, fresh_state).
Proof.
  intros Hi Hl. split.
  - intros s. by apply run_module_load_failure.
  - unfold websocket_endpoint. rewrite Hi.
    by rewrite (run_module_load_failure _ _ _ _ _ _ Hl).
Qed.

Lemma endpoint_message_builds (data : Message) :
  msg_hostname data <> Some EmptyString ->
  exists inventory, BaseInventory (hostdat data) = Ret inventory
    /\ forall g, map h_name (hosts_of inventory g)
                 = map host_name_of (List.filter (declares g) (hostdat data)).
Proof.
  intros Hne. destruct Inventory_init_groups as (Ha & Hu & He).
  destruct (parse_loop_members (hostdat data) 0 Inventory_init [] Ha Hu) as (inv & Hp & Hm).
  - intros g. by rewrite He.
  - constructor; [|constructor]. unfold complete, hostdat. cbn.
    repeat split; try (by eexists).
    constructor; [discriminate|]. constructor; [|constructor].
    destruct (msg_hostname data) as [n|]; cbn; [congruence | discriminate].
  - cbn. apply NoDup_singleton.
  - exists inv. split; [exact Hp | exact Hm].
Qed.

Lemma load_failure_reaches_the_handler_witness :
  websocket_endpoint (fun _ => EmptyString)
    {| Play_load := fun _ => Some (AnsibleError "no action detected in task");
       TaskQueueManager_new := None;
       TaskQueueManager_run := fun _ => ([], None);
       TaskQueueManager_cleanup := None;
       open_read := open_read quiet_world;
       PlaybookExecutor_new := PlaybookExecutor_new quiet_world;
       PlaybookExecutor_run := PlaybookExecutor_run quiet_world;
       clock := 0%Z |}
    {| msg_hostname := Some "git"; msg_host := None; msg_port := None;
       msg_pass := None; msg_cmd := None |}
  = (Raise (AnsibleError "no action detected in task"), fresh_state).
Proof.
  destruct (endpoint_message_builds
              {| msg_hostname := Some "git"; msg_host := None; msg_port := None;
                 msg_pass := None; msg_cmd := None |}) as (inv & Hb & _); [discriminate|].
  eapply load_failure_reaches_the_handler; [exact Hb | reflexivity].
Defined.

(** X16: when the inventory is built, the play loaded and the runtime
    constructed and released without fault, the handler answers with
    [get_result] of a collector that holds the reports of this run only,
    whether the run returned or raised an ordinary exception. *)
Theorem endpoint_answers_from_this_run json_dumps w (data : Message) inventory evs r :
  BaseInventory (hostdat data) = Ret inventory ->
  Play_load w (play_source "shell" (VStr (default "ls -lha /tmp" (msg_cmd data)))
                 (default "test" (msg_hostname data))) = None ->
  TaskQueueManager_new w = None ->
  TaskQueueManager_cleanup w = None ->
  TaskQueueManager_run w (play_source "shell" (VStr (default "ls -lha /tmp" (msg_cmd data)))
                            (default "test" (msg_hostname data))) = (evs, r) ->
  (forall e, r = Some e -> is_Exception e = true) ->
  fst (websocket_endpoint json_dumps w data)
  = Ret (get_result json_dumps (fold_left deliver evs CallbackModule_init)).
Proof.
  intros Hi Hl Hn Hc Hr He. unfold websocket_endpoint. rewrite Hi.
  pose proof (run_module_collects w "shell" _ _ fresh_state Hl) as Hcol.
  pose proof (run_module_contains_exceptions w "shell" _ _ fresh_state Hl Hc) as Hret.
  rewrite Hn, Hr in Hcol. cbn in Hcol.
  destruct (run_module w "shell" _ _ fresh_state) as [o s'] eqn:E. cbn in *.
  rewrite Hret.
  - by rewrite Hcol.
  - intros e He'. congruence.
  - intros evs' e Hr'. rewrite Hr in Hr'. injection Hr' as _ Hr'. by apply He.
Qed.

Lemma endpoint_answers_from_this_run_witness :
  fst (websocket_endpoint (fun _ => "{}") no_match_world
         {| msg_hostname := Some "git"; msg_host := None; msg_port := None;
            msg_pass := None; msg_cmd := None |})
  = Ret (Some "{}").
Proof.
  destruct (endpoint_message_builds
              {| msg_hostname := Some "git"; msg_host := None; msg_port := None;
                 msg_pass := None; msg_cmd := None |}) as (inv & Hb & _); [discriminate|].
  rewrite (endpoint_answers_from_this_run (fun _ => "{}") no_match_world _ inv
             [NoHostsMatched] None Hb eq_refl eq_refl eq_refl eq_refl).
  - reflexivity.
  - discriminate.
Defined.

(** X17: a request whose hostname is not empty always yields an inventory
    with one host, named by the hostname, which is the only member of the
    groups [all], [gituwen] and the one named after it, and of no other
    group; its address and port are those of the request ([test] and 22 when
    missing), no user is set, and a missing password becomes the number
    22. *)
Theorem endpoint_builds_one_host (data : Message) :
  msg_hostname data <> Some EmptyString ->
  let name := default "test" (msg_hostname data) in
  exists inventory h, BaseInventory (hostdat data) = Ret inventory
    /\ (forall g, hosts_of inventory g
                  = if String.eqb g "all" || String.eqb g "gituwen" || String.eqb g name
                    then [h] else [])
    /\ h_name h = Some name
    /\ h_vars h !! "ansible_host" = Some (VStr (default "test" (msg_host data)))
    /\ h_vars h !! "ansible_port" = Some (VInt (default 22%Z (msg_port data)))
    /\ h_vars h !! "ansible_user" = None
    /\ h_vars h !! "ansible_ssh_pass" = given (Some (default (VInt 22) (msg_pass data))).
Proof.
  intros Hne name.
  assert (Hname : name <> EmptyString).
  { unfold name. destruct (msg_hostname data); cbn; [congruence | discriminate]. }
  set (d := {| hostname := Some name;
               ip := Some (default "test" (msg_host data));
               port := Some (default 22%Z (msg_port data));
               username := None;
               password := Some (default (VInt 22) (msg_pass data));
               private_key := None; become := None;
               groups := Some ["gituwen"; name]; vars := None |}).
  change (hostdat data) with [d].
  destruct (BaseHost_variables d 0 _ _ eq_refl eq_refl) as (h & Hb & Hn & _ & Hhost & Hport).
  change (set_extra_variables d h) with h in Hb.
  destruct (BaseHost_required d 0 h Hb) as (nm & p & h' & Hreq & Hk).
  destruct (required_variables_table d _ h' Hreq) as (_ & _ & _ & _ & Huser & Hpass & _).
  destruct Inventory_init_groups as (Ha & Hu & He).
  set (inv0 := {| inv_hosts := <[name:=h]> (inv_hosts Inventory_init);
                  inv_groups := inv_groups Inventory_init |}).
  destruct (add_to_groups_exact ["gituwen"; name] h (fun _ => []) inv0 [])
    as (inv1 & Hadd & _ & Hk1 & Ho1).
  { constructor; [discriminate|]. constructor; [exact Hname | constructor]. }
  { intros g. exact (He g). }
  { intros g []. }
  exists (group_add_host inv1 "all" h), h. split; [|split; [|split; [|split; [|split; [|split]]]]].
  - unfold BaseInventory, parse_sources. cbn [parse_loop]. rewrite Hb.
    cbn [obind require hostname groups d]. fold inv0. rewrite Hadd. reflexivity.
  - intros g.
    rewrite (group_add_host_exact inv1 "all" h (fun _ => []) ["gituwen"; name] (Hk1 _ Ha)).
    + cbn [existsb app]. by rewrite !orb_false_r, orb_assoc.
    + intros g'. rewrite Ho1. cbn [existsb]. by rewrite !orb_false_r.
    + intros g' [].
  - rewrite Hn. unfold host_name_of, str_or. cbn [hostname d].
    apply String.eqb_neq in Hname. by rewrite Hname.
  - exact Hhost.
  - exact Hport.
  - rewrite (Hk "ansible_user" eq_refl), Huser. cbn [given username d opt_truthy].
    by apply Host_init_lookup.
  - rewrite (Hk "ansible_ssh_pass" eq_refl), Hpass. cbn [password d].
    destruct (given (Some (default (VInt 22) (msg_pass data)))); [reflexivity|].
    by apply Host_init_lookup.
Qed.

Lemma endpoint_builds_one_host_witness :
  exists inventory h,
    BaseInventory (hostdat {| msg_hostname := Some "git"; msg_host := None;
                              msg_port := None; msg_pass := None; msg_cmd := None |})
    = Ret inventory
    /\ hosts_of inventory "git" = [h]
    /\ h_vars h !! "ansible_ssh_pass" = Some (VInt 22).
Proof.
  destruct (endpoint_builds_one_host
              {| msg_hostname := Some "git"; msg_host := None; msg_port := None;
                 msg_pass := None; msg_cmd := None |})
    as (inv & h & Hb & Hg & _ & _ & _ & _ & Hp); [discriminate|].
  exists inv, h. split; [exact Hb|]. split; [apply (Hg "git") | exact Hp].
Defined.

(** *** Execution Engine: the guarded commands *)

Lemma deliver_keeps_log evs : forall cb,
  res (fold_left deliver evs cb) = res cb
  /\ start_time (fold_left deliver evs cb) = start_time cb.
Proof.
  induction evs as [|ev evs IH]; intros cb; [by split|].
  cbn [fold_left]. destruct (IH (deliver cb ev)) as [-> ->].
  by destruct ev.
Qed.

Lemma run_module_keeps_log w module_name module_args hosts s :
  res (results_callback (snd (run_module w module_name module_args hosts s)))
  = res (results_callback s)
  /\ start_time (results_callback (snd (run_module w module_name module_args hosts s)))
     = start_time (results_callback s).
Proof.
  unfold_engine. cbn.
  destruct (Play_load w _); cbn; [by split|].
  destruct (TaskQueueManager_new w) as [e|]; cbn.
  - destruct (is_Exception e); cbn;
      destruct (TaskQueueManager_cleanup w); cbn; by split.
  - destruct (TaskQueueManager_run w _) as [evs [e|]]; cbn;
      destruct (deliver_keeps_log evs (results_callback s)) as [Hres Hst];
      try destruct (is_Exception e); cbn;
      destruct (TaskQueueManager_cleanup w); cbn; by split.
Qed.

(** What the [except] clause does to the trace and to the log. *)
Lemma report_error_spec w err s :
  dispatched (trace (snd (report_error w err s))) = dispatched (trace s)
  /\ start_time (results_callback (snd (report_error w err s)))
     = start_time (results_callback s)
  /\ forall x l, res (results_callback s) = Some (x :: l) ->
       exists l', res (results_callback (snd (report_error w err s))) = Some (x :: l').
Proof.
  unfold_engine. destruct (start_time (results_callback s)) eqn:Ht; cbn.
  - destruct (res (results_callback s)) as [l0|] eqn:Hl; cbn.
    + rewrite dispatched_app. cbn. rewrite app_nil_r.
      split; [reflexivity|]. split; [exact Ht|].
      intros x l [= ->]. eauto.
    + split; [reflexivity|]. split; [exact Ht|]. intros x l Hx. discriminate.
  - split; [reflexivity|]. split; [exact Ht|]. eauto.
Qed.

Lemma checked_module_dispatches w module_name cmds hosts s :
  fst (check_ansible_variable cmds) = false ->
  Play_load w (play_source module_name (VStr cmds) hosts) = None ->
  TaskQueueManager_new w = None ->
  dispatched (trace (snd (checked_module w module_name cmds hosts s)))
  = dispatched (trace s) ++ [play_source module_name (VStr cmds) hosts].
Proof.
  intros Hc Hl Hn. unfold checked_module, try_except.
  destruct (check_ansible_variable cmds) as [check variable]. cbn in Hc. subst check.
  pose proof (run_module_dispatches w module_name (VStr cmds) hosts s Hl Hn) as Hd.
  destruct (run_module w module_name (VStr cmds) hosts s) as [[[]|e] s']; cbn in *;
    [exact Hd|].
  destruct (is_Exception e); cbn; [|exact Hd].
  destruct (report_error_spec w e s') as [-> _]. exact Hd.
Qed.

Lemma final_keeps_dispatched (group : option string) (rest : M unit) s :
  (forall s', dispatched (trace (snd (rest s'))) = dispatched (trace s')) ->
  dispatched (trace (snd ((close_channel group ;; rest) s))) = dispatched (trace s).
Proof.
  intros Hr. unfold_engine.
  destruct group as [g|]; [destruct (String.eqb g EmptyString)|]; cbn.
  - destruct (rest s) as [[|] ?] eqn:E; cbn; by rewrite <- (Hr s), E.
  - specialize (Hr {| results_callback := results_callback s;
                      trace := trace s ++ [EPrint "close.channel" Finished];
                      var_tqm := var_tqm s; var_playbook := var_playbook s |}).
    cbn in Hr. rewrite dispatched_app in Hr. cbn in Hr. rewrite app_nil_r in Hr.
    destruct (rest _) as [[|] ?]; cbn in *; exact Hr.
  - destruct (rest s) as [[|] ?] eqn:E; cbn; by rewrite <- (Hr s), E.
Qed.

Lemma close_channel_keeps_dispatched (group : option string) s :
  dispatched (trace (snd (close_channel group s))) = dispatched (trace s).
Proof.
  unfold_engine. destruct group as [g|]; [destruct (String.eqb g EmptyString)|]; cbn;
    rewrite ?dispatched_app; cbn; rewrite ?app_nil_r; reflexivity.
Qed.

(** X18: a text the filter does not flag is handed verbatim to the runtime:
    the one play dispatched has one task whose arguments are the text
    itself and whose module is [shell] for [run_cmd], [script] for
    [run_script], [copy] for [run_copy] and the module asked for for
    [run_modules]; nothing else is dispatched, whatever the runtime and the
    callback object do afterwards. *)
Theorem guarded_commands_run_clean_text w cmds hosts group s :
  let play := fun module : string =>
    VDict [ ("name", VStr "Ansible Run Module");
            ("hosts", VStr hosts);
            ("gather_facts", VStr "no");
            ("tasks", VList [ VDict [ ("action",
               VDict [ ("module", VStr module); ("args", VStr cmds) ]) ] ]) ] in
  fst (check_ansible_variable cmds) = false ->
  (forall module, Play_load w (play module) = None) ->
  TaskQueueManager_new w = None ->
  dispatched (trace (snd (run_cmd w cmds hosts group s)))
  = dispatched (trace s) ++ [play "shell"]
  /\ dispatched (trace (snd (run_script w cmds hosts group s)))
     = dispatched (trace s) ++ [play "script"]
  /\ dispatched (trace (snd (run_copy w cmds hosts group s)))
     = dispatched (trace s) ++ [play "copy"]
  /\ (forall module,
        dispatched (trace (snd (run_modules w cmds module hosts group s)))
        = dispatched (trace s) ++ [play module]).
Proof.
  intros play Hc Hl Hn.
  assert (Hcm : forall module s',
             dispatched (trace (snd (checked_module w module cmds hosts s')))
             = dispatched (trace s') ++ [play module]).
  { intros module s'. exact (checked_module_dispatches w module cmds hosts s' Hc (Hl module) Hn). }
  split; [|split; [|split]].
  - unfold run_cmd. rewrite finally_keeps_dispatched.
    + apply Hcm.
    + apply close_channel_keeps_dispatched.
  - unfold run_script. rewrite finally_keeps_dispatched.
    + apply Hcm.
    + apply close_channel_keeps_dispatched.
  - unfold run_copy. rewrite finally_keeps_dispatched.
    + apply Hcm.
    + intros s'. apply final_keeps_dispatched. intros s''. unfold_engine. cbn.
      rewrite dispatched_app. cbn. by rewrite app_nil_r.
  - intros module. unfold run_modules. rewrite finally_keeps_dispatched.
    + apply Hcm.
    + intros s'. apply final_keeps_dispatched. intros s''.
      unfold_engine. engine_cases; reflexivity.
Qed.

Lemma guarded_commands_run_clean_text_witness :
  dispatched (trace (snd (run_cmd quiet_world "uptime" "git" None fresh_state)))
  = [VDict [ ("name", VStr "Ansible Run Module");
             ("hosts", VStr "git");
             ("gather_facts", VStr "no");
             ("tasks", VList [ VDict [ ("action",
                VDict [ ("module", VStr "shell"); ("args", VStr "uptime") ]) ] ]) ]]
  /\ dispatched (trace (snd (run_copy quiet_world "uptime" "git" None fresh_state)))
     = [VDict [ ("name", VStr "Ansible Run Module");
                ("hosts", VStr "git");
                ("gather_facts", VStr "no");
                ("tasks", VList [ VDict [ ("action",
                   VDict [ ("module", VStr "copy"); ("args", VStr "uptime") ]) ] ]) ]].
Proof.
  destruct (guarded_commands_run_clean_text quiet_world "uptime" "git" None fresh_state)
    as (Hcmd & _ & Hcopy & _).
  - vm_compute. reflexivity.
  - reflexivity.
  - reflexivity.
  - split; [exact Hcmd | exact Hcopy].
Defined.

(** X19: when the filter flags the text and the callback object carries
    [start_time] and [res], [run_cmd] and [run_script] return normally:
    they append one entry to [res], print one [send.message], then the
    [close.channel] message if a group is given, and nothing else; the
    buckets of the collector are untouched. *)
Theorem rejected_command_is_logged w cmds hosts group s variable t l :
  check_ansible_variable cmds = (true, variable) ->
  start_time (results_callback s) = Some t ->
  res (results_callback s) = Some l ->
  forall r, r = run_cmd w cmds hosts group s \/ r = run_script w cmds hosts group s ->
  fst r = Ret tt
  /\ trace (snd r)
     = trace s ++ [EPrint "send.message" (IllegalArgumentVariable variable)]
       ++ (if named group then [EPrint "close.channel" Finished] else [])
  /\ res (results_callback (snd r))
     = Some (l ++ [((clock w - t)%Z, IllegalArgumentVariable variable)])
  /\ get_res (results_callback (snd r)) = get_res (results_callback s).
Proof.
  intros Hc Ht Hl r Hr.
  assert (r = try_finally
                (try_except
                   (let! d := delay w in
                    res_append d (IllegalArgumentVariable variable) ;;
                    emit (EPrint "send.message" (IllegalArgumentVariable variable)))
                   (report_error w))
                (close_channel group) s) as ->.
  { destruct Hr as [-> | ->]; unfold run_cmd, run_script, checked_module; by rewrite Hc. }
  clear Hr. unfold_engine. unfold named. rewrite Ht. cbn. rewrite Hl. cbn.
  destruct group as [g|]; [destruct (String.eqb g EmptyString)|]; cbn;
    rewrite <- ?app_assoc, ?app_nil_r; auto.
Qed.

Lemma rejected_command_is_logged_witness :
  trace (snd (run_cmd quiet_world "echo {{ ansible_ssh_pass }}" "git" (Some "ops")
                logging_state))
  = [EPrint "send.message" (IllegalArgumentVariable (Some "ansible_ssh_pass"));
     EPrint "close.channel" Finished].
Proof.
  destruct (rejected_command_is_logged quiet_world "echo {{ ansible_ssh_pass }}" "git"
              (Some "ops") logging_state (Some "ansible_ssh_pass") 0%Z []) with
    (r := run_cmd quiet_world "echo {{ ansible_ssh_pass }}" "git" (Some "ops") logging_state)
    as (_ & H & _).
  - vm_compute. reflexivity.
  - reflexivity.
  - reflexivity.
  - by left.
  - exact H.
Defined.

Lemma checked_module_cannot_log w module_name cmds hosts s :
  fst (check_ansible_variable cmds) = true ->
  start_time (results_callback s) = None ->
  checked_module w module_name cmds hosts s
  = (Raise (AttributeError "object has no attribute 'start_time'"), s).
Proof.
  intros Hc Ht. unfold checked_module.
  destruct (check_ansible_variable cmds) as [check variable]. cbn in Hc. subst check.
  unfold_engine. rewrite Ht. cbn. rewrite Ht. reflexivity.
Qed.

Lemma close_channel_returns (group : option string) s :
  fst (close_channel group s) = Ret tt.
Proof.
  unfold_engine. by destruct group as [g|]; [destruct (String.eqb g EmptyString)|].
Qed.

Lemma finally_returning {A} (body : M A) (final : M unit) s :
  fst (final (snd (body s))) = Ret tt ->
  fst (try_finally body final s) = fst (body s).
Proof.
  unfold try_finally. destruct (body s) as [r s']. cbn.
  destruct (final s') as [[[]|e] s'']; cbn; [reflexivity | discriminate].
Qed.

(** X20: when the filter flags the text and the callback object has no
    [start_time], as the one [CallbackModule.__init__] builds, the refusal
    cannot be logged: the [AttributeError] raised in the [try] is raised
    again in the handler and leaves [run_cmd], [run_script] and [run_copy],
    and [run_modules] when no group is given. *)
Theorem rejection_needs_start_time w cmds hosts group s :
  fst (check_ansible_variable cmds) = true ->
  start_time (results_callback s) = None ->
  let e := AttributeError "object has no attribute 'start_time'" in
  fst (run_cmd w cmds hosts group s) = Raise e
  /\ fst (run_script w cmds hosts group s) = Raise e
  /\ fst (run_copy w cmds hosts group s) = Raise e
  /\ (forall module, named group = false ->
        fst (run_modules w cmds module hosts group s) = Raise e).
Proof.
  intros Hc Ht e. split; [|split; [|split]].
  - unfold run_cmd. rewrite finally_returning; [|apply close_channel_returns].
    by rewrite checked_module_cannot_log.
  - unfold run_script. rewrite finally_returning; [|apply close_channel_returns].
    by rewrite checked_module_cannot_log.
  - unfold run_copy. rewrite finally_returning.
    + by rewrite checked_module_cannot_log.
    + unfold_engine. by destruct group as [g|]; [destruct (String.eqb g EmptyString)|].
  - intros module Hnamed. unfold run_modules. rewrite finally_returning.
    + by rewrite checked_module_cannot_log.
    + unfold_engine. destruct group as [g|]; [|reflexivity]. cbn in Hnamed.
      destruct (String.eqb g EmptyString); [reflexivity | discriminate].
Qed.

Lemma rejection_needs_start_time_witness :
  fst (run_cmd quiet_world "echo {{ ansible_ssh_pass }}" "git" None fresh_state)
  = Raise (AttributeError "object has no attribute 'start_time'").
Proof.
  apply (rejection_needs_start_time quiet_world "echo {{ ansible_ssh_pass }}" "git" None
           fresh_state).
  - vm_compute. reflexivity.
  - reflexivity.
Defined.

Lemma checked_module_keeps_log w module_name cmds hosts s x l :
  res (results_callback s) = Some (x :: l) ->
  exists l', res (results_callback (snd (checked_module w module_name cmds hosts s)))
             = Some (x :: l').
Proof.
  intros Hl. unfold checked_module, try_except.
  destruct (check_ansible_variable cmds) as [[|] variable].
  - unfold_engine. destruct (start_time (results_callback s)) eqn:Ht; cbn.
    + rewrite Hl. cbn. eauto.
    + rewrite Ht. cbn. eauto.
  - destruct (run_module_keeps_log w module_name (VStr cmds) hosts s) as [Hres _].
    rewrite Hl in Hres.
    destruct (run_module w module_name (VStr cmds) hosts s) as [[[]|e] s']; cbn in *;
      [eauto|].
    destruct (is_Exception e); cbn; [|eauto].
    destruct (report_error_spec w e s') as (_ & _ & Hrep). by eapply Hrep.
Qed.

(** X21: with a group given, [run_modules] cannot end normally once the log
    of the callback object is not empty: its [finally] clause calls
    [save_res], a name the module does not define, and the [NameError]
    replaces whatever the command did; this is always so after a refusal
    that was logged. *)
Theorem run_modules_cannot_save_log w cmds module hosts g s l :
  g <> EmptyString ->
  res (results_callback s) = Some l ->
  (l <> []
   \/ (fst (check_ansible_variable cmds) = true
       /\ is_Some (start_time (results_callback s)))) ->
  fst (run_modules w cmds module hosts (Some g) s)
  = Raise (NameError "name 'save_res' is not defined").
Proof.
  intros Hg Hl Hcase.
  assert (exists x l', res (results_callback (snd (checked_module w module cmds hosts s)))
                       = Some (x :: l')) as (x & l' & Hres).
  { destruct l as [|x l].
    - destruct Hcase as [? | [Hc [t Ht]]]; [done|]. unfold_engine.
      destruct (check_ansible_variable cmds) as [check variable]. cbn in Hc. subst check.
      rewrite Ht. cbn. rewrite Hl. cbn. eauto.
    - exists x. by eapply checked_module_keeps_log. }
  unfold run_modules, try_finally.
  destruct (checked_module w module cmds hosts s) as [o s'] eqn:E. cbn in Hres.
  apply String.eqb_neq in Hg. unfold_engine. rewrite Hg. cbn. rewrite Hres. reflexivity.
Qed.

Lemma run_modules_cannot_save_log_witness :
  fst (run_modules quiet_world "echo {{ ansible_ssh_pass }}" "command" "git" (Some "ops")
         logging_state)
  = Raise (NameError "name 'save_res' is not defined").
Proof.
  apply (run_modules_cannot_save_log quiet_world "echo {{ ansible_ssh_pass }}" "command"
           "git" "ops" logging_state []).
  - discriminate.
  - reflexivity.
  - right. split; [vm_compute; reflexivity | by eexists].
Defined.

(** *** Execution Engine: the playbook path *)

Lemma run_playbook_keeps_purges w playbook_yml group s :
  purges (trace (snd (run_playbook w playbook_yml group s))) = purges (trace s).
Proof.
  unfold_engine. destruct (open_read w playbook_yml) as [content|e]; cbn.
  - destruct (check_ansible_variable content) as [[|] variable];
      engine_cases; rewrite ?purges_app; cbn; lia.
  - engine_cases; rewrite ?purges_app; cbn; lia.
Qed.

(** X22: a playbook that is read, passes the filter and gets an executor
    with a runtime is run once; when the run and the release return,
    [run_playbook] returns normally, releases the runtime exactly once,
    leaves the scratch directory alone, and the collector holds what the
    run reported. *)
Theorem run_playbook_runs_clean_file w playbook_yml content group s evs :
  open_read w playbook_yml = Ret content ->
  fst (check_ansible_variable content) = false ->
  PlaybookExecutor_new w playbook_yml = Ret {| ex_has_tqm := true |} ->
  PlaybookExecutor_run w playbook_yml = (evs, None) ->
  TaskQueueManager_cleanup w = None ->
  let r := run_playbook w playbook_yml group s in
  fst r = Ret tt
  /\ playbooks_run (trace (snd r)) = playbooks_run (trace s) ++ [playbook_yml]
  /\ releases (trace (snd r)) = releases (trace s) + 1
  /\ purges (trace (snd r)) = purges (trace s)
  /\ results_callback (snd r) = fold_left deliver evs (results_callback s).
Proof.
  intros Hr Hc Hn Hrun Hcl. cbv zeta.
  split; [|split; [|split; [|split]]]; try apply run_playbook_keeps_purges.
  all: unfold_engine; rewrite Hr; cbn;
    destruct (check_ansible_variable content) as [check variable]; cbn in Hc; subst check;
    rewrite Hn; cbn; rewrite Hrun, Hcl; cbn;
    destruct group as [g|]; [destruct (String.eqb g EmptyString)|]; cbn;
    rewrite ?playbooks_run_app, ?releases_app; cbn; rewrite ?app_nil_r; try reflexivity; lia.
Qed.

Lemma run_playbook_runs_clean_file_witness :
  let r := run_playbook (world_with_file "./hello.yml" "- hosts: all") "./hello.yml" None
             fresh_state in
  fst r = Ret tt /\ playbooks_run (trace (snd r)) = ["./hello.yml"]
  /\ releases (trace (snd r)) = 1.
Proof.
  destruct (run_playbook_runs_clean_file (world_with_file "./hello.yml" "- hosts: all")
              "./hello.yml" "- hosts: all" None fresh_state [])
    as (H1 & H2 & H3 & _); try reflexivity.
  cbv zeta. split; [exact H1 | split; [exact H2 | exact H3]].
Defined.

(** X23: [run_playbook] returns normally only if the file was read, the
    filter did not flag it and the executor was constructed; it never purges
    the scratch directory. *)
Theorem run_playbook_returns_only_after_construction w playbook_yml group s :
  (fst (run_playbook w playbook_yml group s) = Ret tt ->
   exists content playbook,
     open_read w playbook_yml = Ret content
     /\ fst (check_ansible_variable content) = false
     /\ PlaybookExecutor_new w playbook_yml = Ret playbook
     /\ var_playbook (snd (run_playbook w playbook_yml group s)) = Some playbook)
  /\ purges (trace (snd (run_playbook w playbook_yml group s))) = purges (trace s).
Proof.
  split; [|apply run_playbook_keeps_purges].
  intros Hret. destruct (open_read w playbook_yml) as [content|e] eqn:Hr.
  - destruct (fst (check_ansible_variable content)) eqn:Hc.
    + by rewrite (run_playbook_rejected _ _ _ _ _ Hr Hc) in Hret.
    + destruct (PlaybookExecutor_new w playbook_yml) as [playbook|e] eqn:Hn.
      * exists content, playbook. repeat split; try done.
        clear Hret. unfold_engine. rewrite Hr. cbn.
        destruct (check_ansible_variable content) as [check variable]. cbn in Hc.
        subst check. rewrite Hn. destruct playbook as [[|]]; engine_cases; reflexivity.
      * by rewrite (run_playbook_no_executor _ _ _ _ _ _ Hr Hc Hn) in Hret.
  - by rewrite (run_playbook_unreadable _ _ _ _ _ Hr) in Hret.
Qed.

Lemma run_playbook_returns_only_after_construction_witness :
  exists content playbook,
    open_read (world_with_file "./hello.yml" "- hosts: all") "./hello.yml" = Ret content
    /\ fst (check_ansible_variable content) = false
    /\ PlaybookExecutor_new (world_with_file "./hello.yml" "- hosts: all") "./hello.yml"
       = Ret playbook.
Proof.
  destruct (run_playbook_returns_only_after_construction
              (world_with_file "./hello.yml" "- hosts: all") "./hello.yml" None fresh_state)
    as [H _].
  destruct (H eq_refl) as (content & playbook & H1 & H2 & H3 & _).
  exists content, playbook. split; [exact H1 | split; [exact H2 | exact H3]].
Defined.

(** *** Facts Summarizer: interfaces and records *)

Lemma contains_key_dict card k :
  contains_key (VDict card) k
  = Ret match dict_get card k with Some _ => true | None => false end.
Proof.
  cbn. destruct (dict_get card k) eqn:E.
  - rewrite bool_decide_eq_true_2; [reflexivity | by eexists].
  - rewrite bool_decide_eq_false_2; [reflexivity|]. by intros [x Hx].
Qed.

Lemma get_or_unknown_dict facts name card k :
  dict_get facts name = Some (VDict card) ->
  get_or_unknown (VDict facts) name k = Ret (default (VStr "unknown") (dict_get card k)).
Proof.
  intros Hf. unfold get_or_unknown, getitem. rewrite Hf. cbn [obind].
  rewrite contains_key_dict. cbn [obind].
  destruct (dict_get card k) eqn:E; [|reflexivity].
  cbn. by rewrite E.
Qed.

Lemma card_get_dict facts name card k :
  dict_get facts name = Some (VDict card) ->
  card_get (VDict facts) name k = Ret (default VNone (dict_get card k)).
Proof. intros Hf. unfold card_get, getitem. by rewrite Hf. Qed.

(** X24: an interface name that neither matches the pattern nor is [lo] is
    left out of the summary; a selected name whose facts entry
    [ansible_<name>] is missing makes the summary raise [KeyError]; for a
    selected name with an entry, the record takes [device], [macaddress],
    [type], [mtu], [active] and [speed] with [None] for a missing field,
    and [ipv4], [ipv4_secondaries] and [ipv6] with the text [unknown] for a
    missing field. *)
Theorem interface_info_outcome (facts : dict) (i : string) :
  let name := "ansible_" +:+ i in
  let selected := re_match false interface_pattern i || String.eqb i "lo" in
  (selected = false -> interface_info (VDict facts) (VStr i) = Ret None)
  /\ (selected = true -> dict_get facts name = None ->
        interface_info (VDict facts) (VStr i) = Raise (KeyError name))
  /\ (forall card, selected = true -> dict_get facts name = Some (VDict card) ->
        interface_info (VDict facts) (VStr i) = Ret (Some (card_entry card))).
Proof.
  cbv zeta. split; [|split].
  - intros Hs. unfold interface_info. by rewrite Hs.
  - intros Hs Hf. unfold interface_info. rewrite Hs.
    unfold card_get, getitem. by rewrite Hf.
  - intros card Hs Hf. unfold interface_info. rewrite Hs.
    rewrite !(card_get_dict _ _ _ _ Hf), !(get_or_unknown_dict _ _ _ _ Hf).
    reflexivity.
Qed.

Lemma interface_info_outcome_witness :
  interface_info facts_without_model (VStr "eth0")
  = Ret (Some (VDict
      [ ("network_card_name", VStr "eth0");
        ("network_card_mac", VStr "52:54:00:12:34:56");
        ("network_card_ipv4", VStr "unknown");
        ("network_card_ipv4_secondaries", VStr "unknown");
        ("network_card_ipv6", VStr "unknown");
        ("network_card_model", VNone); ("network_card_mtu", VNone);
        ("network_card_status", VBool true); ("network_card_speed", VNone) ]))
  /\ interface_info facts_without_model (VStr "docker0") = Ret None
  /\ interface_info facts_without_model (VStr "eth1")
     = Raise (KeyError "ansible_eth1").
Proof.
  split; [|split].
  - apply (proj2 (proj2 (interface_info_outcome
             (match facts_without_model with VDict d => d | _ => [] end) "eth0"))
             [ ("device", VStr "eth0"); ("macaddress", VStr "52:54:00:12:34:56");
               ("active", VBool true) ]); vm_compute; reflexivity.
  - apply (proj1 (interface_info_outcome
             (match facts_without_model with VDict d => d | _ => [] end) "docker0")).
    vm_compute. reflexivity.
  - apply (proj1 (proj2 (interface_info_outcome
             (match facts_without_model with VDict d => d | _ => [] end) "eth1")));
      vm_compute; reflexivity.
Defined.

Lemma mapM_Forall2 {A B} (f : A -> outcome B) (l : list A) : forall l',
  mapM f l = Ret l' <-> Forall2 (fun x y => f x = Ret y) l l'.
Proof.
  induction l as [|x l IH]; intros l'; cbn [mapM].
  - split.
    + intros [= <-]. constructor.
    + intros H. by inversion H.
  - split.
    + destruct (f x) as [y|e] eqn:Ex; cbn [obind]; [|discriminate].
      destruct (mapM f l) as [ys|e] eqn:El; cbn [obind]; [|discriminate].
      intros [= <-]. constructor; [exact Ex | by apply IH].
    + intros H. inversion H as [|x' y l0 ys Hx Hl]; subst.
      rewrite Hx. cbn [obind]. apply IH in Hl. rewrite Hl. reflexivity.
Qed.

Lemma mapM_raises {A B} (f : A -> outcome B) (l : list A) x e :
  In x l -> f x = Raise e -> exists e', mapM f l = Raise e'.
Proof.
  induction l as [|y l IH]; intros Hin Hx; [destruct Hin|]. cbn [mapM].
  destruct (f y) as [b|e0] eqn:Ey; cbn [obind]; [|eauto].
  destruct Hin as [-> | Hin]; [congruence|].
  destruct (IH Hin Hx) as [e' ->]. cbn [obind]. eauto.
Qed.

(** X25: [get_server_info] hands one play to the runtime: one task, with
    the module [setup] and the empty text as arguments, on the hosts asked
    for.  When the runtime is constructed and released without fault, it
    returns exactly when every record of the ok bucket, those left by
    earlier runs followed by those of this run, can be summarised; it then
    returns one summary per record, in that order, and with them the failed
    and unreachable buckets (earlier records followed by those of this run)
    and the error text.  If one record of the ok bucket cannot be
    summarised, an exception leaves [get_server_info] and the summaries of
    the other hosts are lost. *)
Theorem get_server_info_summarises py_str disk_total w hosts s evs r :
  let play :=
    VDict [ ("name", VStr "Ansible Run Module");
            ("hosts", VStr hosts);
            ("gather_facts", VStr "no");
            ("tasks", VList [ VDict [ ("action",
               VDict [ ("module", VStr "setup"); ("args", VStr EmptyString) ]) ] ]) ] in
  Play_load w play = None ->
  TaskQueueManager_new w = None ->
  TaskQueueManager_cleanup w = None ->
  TaskQueueManager_run w play = (evs, r) ->
  (forall e, r = Some e -> is_Exception e = true) ->
  let cb := results_callback s in
  let ok := host_ok cb ++ map (fun r => outcome_record r true "ok") (ok_results evs) in
  dispatched (trace (snd (get_server_info py_str disk_total w hosts s)))
  = dispatched (trace s) ++ [play]
  /\ (forall infos failed unreach err,
        fst (get_server_info py_str disk_total w hosts s)
        = Ret (infos, failed, unreach, err)
        <-> Forall2 (fun i info => server_info py_str disk_total i = Ret info) ok infos
            /\ failed = host_failed cb
                        ++ map (fun r => outcome_record r false "failed")
                             (failed_results evs)
            /\ unreach = host_unreachable cb
                         ++ map (fun r => outcome_record r false "unreachable")
                              (unreachable_results evs)
            /\ err = (if no_match evs then "skipping: No match hosts." else error cb))
  /\ (forall i e,
        In i ok -> server_info py_str disk_total i = Raise e ->
        exists e', fst (get_server_info py_str disk_total w hosts s) = Raise e').
Proof.
  intros play Hl Hn Hc Hr He cb ok.
  destruct (deliver_all evs cb) as (Ho & Hf & Hu & Herr & _). cbv zeta in Ho, Hf, Hu, Herr.
  pose proof (run_module_collects w "setup" (VStr EmptyString) hosts s Hl) as Hcol.
  change (play_source "setup" (VStr EmptyString) hosts) with play in Hcol.
  rewrite Hn, Hr in Hcol. cbn [fst] in Hcol.
  pose proof (run_module_dispatches w "setup" (VStr EmptyString) hosts s Hl Hn) as Hd.
  change (play_source "setup" (VStr EmptyString) hosts) with play in Hd.
  assert (Hret : fst (run_module w "setup" (VStr EmptyString) hosts s) = Ret tt).
  { apply run_module_contains_exceptions; try done.
    - intros e Hne. congruence.
    - intros evs' e Hr'.
      change (play_source "setup" (VStr EmptyString) hosts) with play in Hr'.
      rewrite Hr in Hr'. injection Hr' as _ Hr'. by apply He. }
  assert (Hdis : dispatched (trace (snd (get_server_info py_str disk_total w hosts s)))
                 = dispatched (trace s) ++ [play]).
  { unfold get_server_info, mbind, get_state, lift, get_res.
    destruct (run_module w "setup" (VStr EmptyString) hosts s) as [o s'].
    cbn in Hret, Hd. subst o.
    destruct (mapM (server_info py_str disk_total) (host_ok (results_callback s')));
      exact Hd. }
  assert (Hres : fst (get_server_info py_str disk_total w hosts s)
                 = match mapM (server_info py_str disk_total) ok with
                   | Ret infos =>
                       Ret (infos,
                            host_failed cb
                            ++ map (fun r => outcome_record r false "failed")
                                 (failed_results evs),
                            host_unreachable cb
                            ++ map (fun r => outcome_record r false "unreachable")
                                 (unreachable_results evs),
                            if no_match evs then "skipping: No match hosts."
                            else error cb)
                   | Raise e => Raise e
                   end).
  { unfold get_server_info, mbind, get_state, lift, get_res.
    destruct (run_module w "setup" (VStr EmptyString) hosts s) as [o s'].
    cbn in Hret, Hcol. subst o. rewrite Hcol. fold cb. rewrite Ho, Hf, Hu, Herr. fold ok.
    destruct (mapM _ ok); reflexivity. }
  split; [exact Hdis|split].
  - intros infos failed unreach err. rewrite Hres. split.
    + destruct (mapM _ ok) as [infos'|e] eqn:Em; [|discriminate].
      intros [= <- <- <- <-]. split; [by apply mapM_Forall2 | done].
    + intros (Hall & -> & -> & ->). apply mapM_Forall2 in Hall. by rewrite Hall.
  - intros i e Hin Hi. rewrite Hres.
    destruct (mapM_raises _ _ _ _ Hin Hi) as [e' ->]. eauto.
Qed.

Lemma get_server_info_summarises_witness :
  exists info,
    fst (get_server_info str_of_text no_disk setup_world "all" fresh_state)
    = Ret ([info],
           [outcome_record {| tr_host := "k8s"; tr_task_name := "setup";
                              tr_result := VDict [ ("msg", VStr "timed out") ] |}
              false "failed"],
           [], EmptyString)
    /\ server_info str_of_text no_disk ok_record_with_model = Ret info
    /\ getitem info "server_model" = Ret (VStr "KVM")
    /\ getitem info "system" = Ret (VStr "Ubuntu 20.04 x86_64").
Proof.
  destruct (server_info str_of_text no_disk ok_record_with_model) as [info|e] eqn:E;
    [|vm_compute in E; discriminate].
  exists info.
  destruct (get_server_info_summarises str_of_text no_disk setup_world "all" fresh_state
              _ None eq_refl eq_refl eq_refl eq_refl) as (_ & H & _).
  - discriminate.
  - split; [|split; [reflexivity|]].
    + apply H. split; [|repeat split].
      constructor; [exact E | constructor].
    + vm_compute in E. injection E as <-. split; reflexivity.
Defined.

Lemma obind_Ret {A B} (m : outcome A) (f : A -> outcome B) b :
  obind m f = Ret b -> exists a, m = Ret a /\ f a = Ret b.
Proof. destruct m; cbn; [eauto | discriminate]. Qed.

(** X26: a record is produced only for an ok result that carries a host, a
    result and, in its [ansible_facts], every one of the fourteen facts the
    summary reads by plain indexing: none of them has a fallback; the
    record then has exactly the thirteen keys of the summary, in order. *)
Theorem server_info_needs_every_fact py_str disk_total i info :
  server_info py_str disk_total i = Ret info ->
  exists host result facts,
    getitem i "host" = Ret host
    /\ getitem i "result" = Ret result
    /\ getitem result "ansible_facts" = Ret facts
    /\ Forall (fun k => exists v, getitem facts k = Ret v) required_facts
    /\ exists d, info = VDict d
         /\ map fst d
            = [ "host"; "hostname"; "cpu_model"; "cpu_number"; "vcpu_number"; "kernel";
                "system"; "server_model"; "ram_total"; "swap_total"; "disk_total";
                "filesystems"; "interfaces" ]
         /\ dict_get d "host" = Some host.
Proof.
  intros H. unfold server_info in H.
  repeat match type of H with
         | obind _ _ = Ret _ =>
             let a := fresh "a" in let E := fresh "E" in
             apply obind_Ret in H as (a & E & H)
         end.
  injection H as <-.
  exists a, a0, a1. split; [exact E|]. split; [exact E0|]. split; [exact E1|].
  split.
  - unfold required_facts. repeat (constructor; [by eexists|]). constructor.
  - eexists. split; [reflexivity|]. split; reflexivity.
Qed.

Lemma server_info_needs_every_fact_witness :
  exists info facts,
    server_info str_of_text no_disk ok_record_with_model = Ret info
    /\ Forall (fun k => exists v, getitem facts k = Ret v) required_facts.
Proof.
  destruct (server_info str_of_text no_disk ok_record_with_model) as [info|e] eqn:E;
    [|vm_compute in E; discriminate].
  destruct (server_info_needs_every_fact _ _ _ _ E)
    as (host & result & facts & _ & _ & _ & Hall & _).
  by exists info, facts.
Defined.



(** *** The chat endpoint *)

Lemma init_str_snoc (s : string) c : init_str (s +:+ String c EmptyString) = s.
Proof.
  induction s as [|a s IH]; [reflexivity|].
  cbn [append init_str]. rewrite IH.
  destruct s; reflexivity.
Qed.

Lemma split_on_lacks sep (x : string) :
  lacks sep x = true -> split_on sep x = [x].
Proof.
  induction x as [|a x IH]; [reflexivity|]. cbn [lacks split_on].
  intros [Ha Hx]%andb_prop. apply negb_true_iff in Ha. rewrite Ha, (IH Hx). reflexivity.
Qed.

Lemma split_on_field sep (x rest : string) :
  lacks sep x = true ->
  split_on sep (x +:+ String sep rest) = x :: split_on sep rest.
Proof.
  induction x as [|a x IH]; cbn [lacks split_on append].
  - intros _. by rewrite Ascii.eqb_refl.
  - intros [Ha Hx]%andb_prop. apply negb_true_iff in Ha. rewrite Ha, (IH Hx). reflexivity.
Qed.

Lemma split_on_join sep (fields : list string) :
  fields <> [] ->
  Forall (fun f => lacks sep f = true) fields ->
  split_on sep (join_with sep fields) = fields.
Proof.
  induction fields as [|x l IH]; [done|]. intros _ Hall.
  apply Forall_cons_1 in Hall as [Hx Hl]. destruct l as [|y l].
  - by apply split_on_lacks.
  - change (join_with sep (x :: y :: l)) with (x +:+ String sep (join_with sep (y :: l))).
    rewrite (split_on_field _ _ _ Hx), IH; done.
Qed.

(** X28: [alter_socket] takes a text of blank-separated fields wrapped in
    one character on each side, as [str] prints an object, and returns its
    fourth field; with fewer than four fields it raises [IndexError]. *)
Theorem alter_socket_fourth_field (fields : list string) :
  Forall (fun f => lacks " " f = true) fields ->
  alter_socket {| ws_str := "<" +:+ join_with " " fields +:+ ">" |}
  = match nth_error fields 3 with
    | Some socket_only => Ret socket_only
    | None => Raise (IndexError "list index out of range")
    end.
Proof.
  intros Hall. unfold alter_socket. cbn [ws_str].
  change (tail_str ("<" +:+ join_with " " fields +:+ ">"))
    with (join_with " " fields +:+ ">").
  rewrite init_str_snoc. destruct fields as [|x l]; [reflexivity|].
  by rewrite split_on_join.
Qed.

Lemma alter_socket_fourth_field_witness :
  alter_socket {| ws_str := "<starlette.websockets.WebSocket object at 0x7f3c2a1b4d90>" |}
  = Ret "0x7f3c2a1b4d90"
  /\ alter_socket {| ws_str := "<WebSocket>" |}
     = Raise (IndexError "list index out of range").
Proof.
  split.
  - apply (alter_socket_fourth_field
             ["starlette.websockets.WebSocket"; "object"; "at"; "0x7f3c2a1b4d90"]).
    repeat constructor.
  - apply (alter_socket_fourth_field ["WebSocket"]). repeat constructor.
Defined.

Lemma pool_get_set (pool : Pool) k v : pool_get (pool_set pool k v) k = Some v.
Proof.
  induction pool as [|[k' v'] pool IH]; cbn.
  - by rewrite String.eqb_refl.
  - destruct (String.eqb k' k) eqn:E; cbn; by rewrite E.
Qed.

Lemma pool_set_fresh (pool : Pool) k v :
  pool_get pool k = None -> pool_set pool k v = pool ++ [(k, v)].
Proof.
  induction pool as [|[k' v'] pool IH]; cbn; [done|].
  destruct (String.eqb k' k); [done|]. intros H. by rewrite (IH H).
Qed.

Lemma pool_pop_absent (pool : Pool) k : pool_get pool k = None -> pool_pop pool k = None.
Proof.
  induction pool as [|[k' v'] pool IH]; cbn; [done|].
  destruct (String.eqb k' k); [done|]. intros H. by rewrite (IH H).
Qed.

Lemma pool_pop_fresh (pool : Pool) k v :
  pool_get pool k = None -> pool_pop (pool ++ [(k, v)]) k = Some pool.
Proof.
  induction pool as [|[k' v'] pool IH]; cbn.
  - by rewrite String.eqb_refl.
  - destruct (String.eqb k' k); [done|]. intros H. by rewrite (IH H).
Qed.

Lemma send_loop_reaches send_text (pool : Pool) k (text : string -> chat_text) name ws
    (members : Pool) : forall delivered,
  pool_get pool k = Some (name, ws) ->
  send_loop send_text pool k text members delivered
  = (match refusal send_text members with
     | Some e => Raise e
     | None => Ret tt
     end,
     delivered ++ map (fun m => (snd (snd m), text name)) (reached send_text members)).
Proof.
  induction members as [|[k' [n' ws']] members IH]; intros delivered Hk.
  - cbn. by rewrite app_nil_r.
  - cbn [send_loop refusal reached snd]. rewrite Hk.
    destruct (send_text ws') as [e|].
    + cbn. by rewrite app_nil_r.
    + rewrite (IH _ Hk). cbn [map snd]. by rewrite <- app_assoc.
Qed.

(** X29: followed alone, with no other handler changing the dictionary
    while it waits, [on_connect] files the newcomer under its socket key,
    replacing an entry with the same key and going last otherwise, then
    sends the joined text, with the newcomer's name, to the members in
    dictionary order, the newcomer included, up to the first socket that
    refuses it: what that socket raises leaves the handler, the members
    after it get nothing, and the newcomer stays registered. *)
Theorem on_connect_announces send_text (st : Chat) websocket name socket_only :
  alter_socket websocket = Ret socket_only ->
  let pool := pool_set (info st) socket_only (name, websocket) in
  on_connect send_text st websocket name
  = (match refusal send_text pool with
     | Some e => Raise e
     | None => Ret tt
     end,
     {| info := pool;
        sent := sent st
                ++ map (fun m => (snd (snd m), Joined name)) (reached send_text pool) |})
  /\ pool_get pool socket_only = Some (name, websocket)
  /\ (pool_get (info st) socket_only = None ->
      pool = info st ++ [(socket_only, (name, websocket))]).
Proof.
  intros Ha pool. split; [|split].
  - subst pool. unfold on_connect, send_all. rewrite Ha. cbn [info sent].
    by rewrite (send_loop_reaches _ _ _ _ name websocket _ _ (pool_get_set _ _ _)).
  - apply pool_get_set.
  - apply pool_set_fresh.
Qed.

Lemma on_connect_announces_witness :
  let ann := {| ws_str := "<starlette.websockets.WebSocket object at 0x7f01>" |} in
  let bob := {| ws_str := "<starlette.websockets.WebSocket object at 0x7f02>" |} in
  on_connect (fun _ => None) {| info := [("0x7f01", ("ann", ann))]; sent := [] |} bob "bob"
  = (Ret tt,
     {| info := [("0x7f01", ("ann", ann)); ("0x7f02", ("bob", bob))];
        sent := [(ann, Joined "bob"); (bob, Joined "bob")] |}).
Proof.
  cbv zeta.
  apply (on_connect_announces (fun _ => None)
           {| info := [("0x7f01",
                        ("ann",
                         {| ws_str := "<starlette.websockets.WebSocket object at 0x7f01>" |}))];
              sent := [] |}
           {| ws_str := "<starlette.websockets.WebSocket object at 0x7f02>" |}
           "bob" "0x7f02").
  vm_compute. reflexivity.
Defined.

(** X30: for a socket that is not in the dictionary, [on_disconnect]
    raises [KeyError] and changes nothing, and [on_receive] raises
    [KeyError] before anything is sent unless the dictionary is empty, in
    which case it sends nothing and returns; after [on_connect] of such a
    socket, [on_disconnect] returns and leaves the dictionary as it was
    before the connection. *)
Theorem unregistered_socket send_text (st : Chat) websocket socket_only :
  alter_socket websocket = Ret socket_only ->
  pool_get (info st) socket_only = None ->
  on_disconnect st websocket = (Raise (KeyError socket_only), st)
  /\ (forall data out,
        on_receive send_text st websocket data out
        = (match info st with
           | [] => Ret tt
           | _ :: _ => Raise (KeyError socket_only)
           end, st))
  /\ (forall name,
        let st' := snd (on_connect send_text st websocket name) in
        on_disconnect st' websocket = (Ret tt, {| info := info st; sent := sent st' |})).
Proof.
  intros Ha Hk. split; [|split].
  - unfold on_disconnect. by rewrite Ha, (pool_pop_absent _ _ Hk).
  - intros data out. unfold on_receive, send_all. rewrite Ha.
    destruct st as [[|[k' [n' ws']] pool] delivered]; cbn [info sent] in *.
    + destruct (String.eqb data "run nginx"); reflexivity.
    + destruct (String.eqb data "run nginx"); cbn [send_loop info sent];
        rewrite Hk; reflexivity.
  - intros name. cbv zeta. unfold on_connect, send_all. rewrite Ha. cbn [info sent].
    destruct (send_loop _ _ _ _ _ _) as [r delivered]. cbn [snd].
    unfold on_disconnect. rewrite Ha. cbn [info sent].
    by rewrite (pool_set_fresh _ _ _ Hk), (pool_pop_fresh _ _ _ Hk).
Qed.

Lemma unregistered_socket_witness :
  on_disconnect {| info := []; sent := [] |}
    {| ws_str := "<starlette.websockets.WebSocket object at 0x7f02>" |}
  = (Raise (KeyError "0x7f02"), {| info := []; sent := [] |}).
Proof.
  apply (unregistered_socket (fun _ => None) {| info := []; sent := [] |}
           {| ws_str := "<starlette.websockets.WebSocket object at 0x7f02>" |} "0x7f02").
  - vm_compute. reflexivity.
  - reflexivity.
Defined.
